(** * grocery-manager: price aggregation and availability monitoring

    A shallow embedding of the price-comparison, unit-price, price-alert and
    watchlist code of the repository, with the properties of its
    specification stated and settled against that embedding.

    Conventions of the embedding.
    - A Python [float] (a price, a threshold, a quantity) is the rational
      number the double stands for, a [Q].  Comparisons are the rational
      ones, which is what comparing finite doubles does.  Arithmetic rounds
      as binary64 does, to the nearest double and to the even one of two
      nearest ([PyFloat]); a literal such as [0.1] and [float(text)] round
      in the same way.  A result beyond the largest double, which Python
      turns into [inf], [nan] and the sign of zero are outside the model.
    - A Python [str] is a [string] whose characters are read as code points
      below 256.
    - A Python [dict] is an association list in insertion order
      ([PyDict]); [d[k] = v] overwrites in place or appends.
    - A call that can raise returns a [py] value, [Ret] or [Raise].
    - Adapters, the page scraper and the database are the outside world:
      they appear as functions and tables given to the code.
    - Wall-clock stamps that no decision reads ([checked_at],
      [last_checked_at], [last_available_at]) and the message texts of
      alerts and recommendations are left out of the records. *)

From Stdlib Require Import QArith ZArith List String Ascii Bool Lia Lqa.
From Stdlib Require Import Qround Qabs.
From Stdlib Require Import Permutation Sorted.
Import ListNotations.

Local Open Scope Q_scope.

(** ** Python values *)

Inductive exn : Type :=
  | ZeroDivisionError
  | ValueError (msg : string)
  | OtherError (msg : string).

Inductive py (A : Type) : Type :=
  | Ret (a : A)
  | Raise (e : exn).
Arguments Ret {A} a.
Arguments Raise {A} e.

(** ** Python floats

    [round] takes a rational to the nearest binary64 value: 53 bits of
    mantissa, the least exponent of a subnormal [-1074], halves to the even
    mantissa. *)

Module PyFloat.

(** [2 ^ z] *)
Definition pow2 (z : Z) : Q :=
  match z with
  | Z0 => 1
  | Zpos p => inject_Z (2 ^ Zpos p)
  | Zneg p => 1 # (2 ^ p)%positive
  end.

(** The integer nearest to [m], the even one of two nearest. *)
Definition nearest_even (m : Q) : Z :=
  let f := Qfloor m in
  match Qcompare (m - inject_Z f) (1 # 2) with
  | Lt => f
  | Gt => (f + 1)%Z
  | Eq => if Z.even f then f else (f + 1)%Z
  end.

(** The exponent [e] with [2 ^ e <= a < 2 ^ (e + 1)], for [a] above zero. *)
Definition ilog2 (a : Q) : Z :=
  let e := (Z.log2 (Qnum a) - Z.log2 (Zpos (Qden a)))%Z in
  if Qle_bool (pow2 e) a then e else (e - 1)%Z.

Definition round (x : Q) : Q :=
  if Qeq_bool x 0 then 0
  else
    let a := Qabs x in
    let q := Z.max (ilog2 a - 52) (-1074) in
    let n := nearest_even (a / pow2 q) in
    let r := Qred (inject_Z n * pow2 q) in
    if Qle_bool 0 x then r else - r.

(** A float literal, and [float(text)] of a decimal numeral. *)
Definition of_decimal (x : Q) : Q := round x.

(** An [int] where a float is wanted. *)
Definition of_int (z : Z) : Q := round (inject_Z z).

Definition add (a b : Q) : Q := round (a + b).
Definition sub (a b : Q) : Q := round (a - b).
Definition mul (a b : Q) : Q := round (a * b).

(** [a / b] for a divisor that is not zero. *)
Definition div (a b : Q) : Q := round (a / b).

End PyFloat.

Module PyNum.

(** [bool(x)] of a float: zero is false. *)
Definition truthy (x : Q) : bool := negb (Qeq_bool x 0).

(** [bool(x)] of an optional float: [None] and zero are false. *)
Definition truthy_opt (x : option Q) : bool :=
  match x with
  | Some q => truthy q
  | None => false
  end.

(** [a < b] on floats. *)
Definition ltb (a b : Q) : bool := negb (Qle_bool b a).

(** [a / b]; dividing by zero raises. *)
Definition truediv (a b : Q) : py Q :=
  if Qeq_bool b 0 then Raise ZeroDivisionError else Ret (PyFloat.div a b).

End PyNum.

(** ** Python strings *)

Module PyStr.

Definition chars := list ascii.

Definition is_digit (c : ascii) : bool :=
  let n := nat_of_ascii c in (48 <=? n)%nat && (n <=? 57)%nat.

(** White space as [str.strip] and the pattern class [\s] see it. *)
Definition is_space (c : ascii) : bool :=
  let n := nat_of_ascii c in
  ((9 <=? n)%nat && (n <=? 13)%nat) || ((28 <=? n)%nat && (n <=? 32)%nat)
  || (n =? 133)%nat || (n =? 160)%nat.

Definition lower_char (c : ascii) : ascii :=
  let n := nat_of_ascii c in
  if ((65 <=? n)%nat && (n <=? 90)%nat)
     || ((192 <=? n)%nat && (n <=? 222)%nat && negb (n =? 215)%nat)
  then ascii_of_nat (n + 32) else c.

(** [s.lower()] *)
Definition lower (s : chars) : chars := map lower_char s.

Fixpoint drop_while (p : ascii -> bool) (s : chars) : chars :=
  match s with
  | c :: s' => if p c then drop_while p s' else s
  | [] => []
  end.

Fixpoint take_while (p : ascii -> bool) (s : chars) : chars :=
  match s with
  | c :: s' => if p c then c :: take_while p s' else []
  | [] => []
  end.

(** The first character, if any, fails [p]. *)
Definition head_fails (p : ascii -> bool) (l : chars) : Prop :=
  match l with
  | c :: _ => p c = false
  | [] => True
  end.

(** [s.strip()] *)
Definition strip (s : chars) : chars :=
  rev (drop_while is_space (rev (drop_while is_space s))).

Fixpoint eqb_chars (a b : chars) : bool :=
  match a, b with
  | [], [] => true
  | x :: a', y :: b' => Ascii.eqb x y && eqb_chars a' b'
  | _, _ => false
  end.

(** [s.startswith(p)], with the remainder. *)
Fixpoint strip_prefix (p s : chars) : option chars :=
  match p, s with
  | [], _ => Some s
  | x :: p', y :: s' => if Ascii.eqb x y then strip_prefix p' s' else None
  | _ :: _, [] => None
  end.

Definition startswith (s p : chars) : bool :=
  match strip_prefix p s with Some _ => true | None => false end.

(** [needle in hay] on strings: some suffix of [hay] starts with [needle]. *)
Fixpoint contains (needle hay : chars) : bool :=
  startswith hay needle ||
  match hay with
  | [] => false
  | _ :: hay' => contains needle hay'
  end.

Definition of_string (s : string) : chars := list_ascii_of_string s.
Definition to_string (s : chars) : string := string_of_list_ascii s.

(** [sep.join(parts)] *)
Fixpoint join (sep : string) (parts : list string) : string :=
  match parts with
  | [] => EmptyString
  | [p] => p
  | p :: rest => (p ++ sep ++ join sep rest)%string
  end.

(** [bool(s)] of an optional string. *)
Definition truthy_opt (s : option string) : bool :=
  match s with
  | Some EmptyString | None => false
  | Some _ => true
  end.

End PyStr.

(** ** Python dictionaries, in insertion order *)

Module PyDict.

Definition t (V : Type) := list (string * V).

Definition empty {V} : t V := [].

Fixpoint get {V} (d : t V) (k : string) : option V :=
  match d with
  | [] => None
  | (k', v) :: d' => if String.eqb k' k then Some v else get d' k
  end.

(** [d[k] = v]: an existing key keeps its position. *)
Fixpoint set {V} (d : t V) (k : string) (v : V) : t V :=
  match d with
  | [] => [(k, v)]
  | (k', v') :: d' =>
      if String.eqb k' k then (k, v) :: d' else (k', v') :: set d' k v
  end.

Definition keys {V} (d : t V) : list string := map fst d.
Definition values {V} (d : t V) : list V := map snd d.
Definition items {V} (d : t V) : list (string * V) := d.

End PyDict.

(** ** Stable sorting

    [list.sort(key=...)] and [ORDER BY] are modelled by one stable insertion
    sort over a strict "goes before" test; [list.sort] only asks [<] of the
    keys, and equal keys keep their input order. *)

Module PySort.

Section Sort.
Context {A : Type} (before : A -> A -> bool).

Fixpoint insert (x : A) (l : list A) : list A :=
  match l with
  | [] => [x]
  | y :: l' => if before y x then y :: insert x l' else x :: y :: l'
  end.

Fixpoint sort (l : list A) : list A :=
  match l with
  | [] => []
  | x :: l' => insert x (sort l')
  end.
End Sort.

(** [l.sort(key=key)] with float keys. *)
Definition sort_by_key {A : Type} (key : A -> Q) (l : list A) : list A :=
  sort (fun y x => PyNum.ltb (key y) (key x)) l.

(** [min(l, key=key)] for a non-empty [x :: l]: the first minimal element.
    A key of [None] stands for [float("inf")]. *)
Definition lt_inf (a b : option Q) : bool :=
  match a, b with
  | Some x, Some y => PyNum.ltb x y
  | Some _, None => true
  | None, _ => false
  end.

Fixpoint min_from {A : Type} (key : A -> option Q) (best : A) (l : list A) : A :=
  match l with
  | [] => best
  | x :: l' =>
      if lt_inf (key x) (key best) then min_from key x l' else min_from key best l'
  end.

Definition min_by {A : Type} (key : A -> option Q) (l : list A) : option A :=
  match l with
  | [] => None
  | x :: l' => Some (min_from key x l')
  end.

End PySort.

(** ** Unit-price normalisation *)

Module SizePattern.
Import PyStr.

Local Open Scope char_scope.

(** The unit alternatives of
    [(kg|g|l|ml|pcs?|pieces?|pack|each)], in the order the matcher tries
    them; an optional letter is tried present first. *)
Definition units_with_each : list chars :=
  [ ["k"; "g"]; ["g"]; ["l"]; ["m"; "l"];
    ["p"; "c"; "s"]; ["p"; "c"];
    ["p"; "i"; "e"; "c"; "e"; "s"]; ["p"; "i"; "e"; "c"; "e"];
    ["p"; "a"; "c"; "k"]; ["e"; "a"; "c"; "h"] ].

(** [(kg|g|l|ml|pcs?|pieces?|pack)] *)
Definition units_without_each : list chars :=
  [ ["k"; "g"]; ["g"]; ["l"]; ["m"; "l"];
    ["p"; "c"; "s"]; ["p"; "c"];
    ["p"; "i"; "e"; "c"; "e"; "s"]; ["p"; "i"; "e"; "c"; "e"];
    ["p"; "a"; "c"; "k"] ].

Fixpoint first_alternative (alts : list chars) (s : chars) : option chars :=
  match alts with
  | [] => None
  | u :: alts' => if startswith s u then Some u else first_alternative alts' s
  end.

(** [(\d+(?:\.\d+)?)]: the numeral and what follows it. *)
Definition match_numeral (s : chars) : option (chars * chars) :=
  let ip := take_while is_digit s in
  let r := drop_while is_digit s in
  match ip with
  | [] => None
  | _ :: _ =>
      match r with
      | "." :: r' =>
          let fp := take_while is_digit r' in
          match fp with
          | [] => Some (ip, r)
          | _ :: _ => Some (ip ++ "." :: fp, drop_while is_digit r')
          end
      | _ => Some (ip, r)
      end
  end.

(** [re.match(r"(\d+(?:\.\d+)?)\s*(<units>)", s)]: groups 1 and 2. *)
Definition re_match (alts : list chars) (s : chars) : option (chars * chars) :=
  match match_numeral s with
  | None => None
  | Some (num, r) =>
      match first_alternative alts (drop_while is_space r) with
      | None => None
      | Some u => Some (num, u)
      end
  end.

Definition digit_value (c : ascii) : Z := Z.of_nat (nat_of_ascii c) - 48.

Definition digits_value (ds : chars) : Z :=
  fold_left (fun acc c => 10 * acc + digit_value c)%Z ds 0%Z.

(** The number written [ip] or [ip.fp]. *)
Definition numeral_value (ip fp : chars) : Q :=
  inject_Z (digits_value ip)
  + inject_Z (digits_value fp) / inject_Z (10 ^ Z.of_nat (List.length fp)).

(** [float(text)] on the numerals the pattern admits. *)
Definition float_of (text : chars) : Q :=
  let ip := take_while is_digit text in
  match drop_while is_digit text with
  | "." :: fp => PyFloat.of_decimal (numeral_value ip fp)
  | _ => PyFloat.of_decimal (numeral_value ip [])
  end.

End SizePattern.

Module FairPriceAdapter.
Import PyStr SizePattern.
Local Open Scope char_scope.

(** [FairPriceAdapter._calculate_unit_price] *)
Definition _calculate_unit_price (price : Q) (size_str : string) : py (option Q) :=
  let size_str := strip (lower (of_string size_str)) in
  match re_match units_with_each size_str with
  | None => Ret None
  | Some (g1, unit) =>
      let quantity := float_of g1 in
      if Qeq_bool quantity 0 then Ret None
      else if eqb_chars unit ["g"] then
        match PyNum.truediv price quantity with
        | Ret r => Ret (Some (PyFloat.mul r 1000))
        | Raise e => Raise e
        end
      else if eqb_chars unit ["k"; "g"] then
        match PyNum.truediv price quantity with
        | Ret r => Ret (Some r)
        | Raise e => Raise e
        end
      else if eqb_chars unit ["m"; "l"] then
        match PyNum.truediv price quantity with
        | Ret r => Ret (Some (PyFloat.mul r 1000))
        | Raise e => Raise e
        end
      else if eqb_chars unit ["l"] then
        match PyNum.truediv price quantity with
        | Ret r => Ret (Some r)
        | Raise e => Raise e
        end
      else if existsb (eqb_chars unit)
                [ ["p"; "c"]; ["p"; "c"; "s"]; ["p"; "i"; "e"; "c"; "e"];
                  ["p"; "i"; "e"; "c"; "e"; "s"]; ["p"; "a"; "c"; "k"];
                  ["e"; "a"; "c"; "h"] ] then
        match PyNum.truediv price quantity with
        | Ret r => Ret (Some r)
        | Raise e => Raise e
        end
      else Ret None
  end.

End FairPriceAdapter.

(** ** Data of the adapters and of the price tables *)

Module Product.
(** [adapters.base.Product]; the fields the services read. *)
Record t : Type := mk {
  product_id : string;
  name : string;
  price : Q;
  original_price : option Q;
  unit_price : option Q;
  unit_size : option string;
  in_stock : bool;
  url : string;
  image_url : string
}.
End Product.

Module SearchResult.
(** [adapters.base.SearchResult] *)
Record t : Type := mk {
  platform : string;
  query : string;
  products : list Product.t;
  total_count : Z;
  page : Z;
  has_more : bool
}.
End SearchResult.

Module PlatformAdapter.
(** What a service sees of an adapter: [search_products(query, limit)]
    and [close()], each of which may raise. *)
Record t : Type := mk {
  search_products : string -> Z -> py SearchResult.t;
  close : py unit
}.
End PlatformAdapter.

Module PriceRecord.
Import PyStr SizePattern.
Local Open Scope char_scope.

(** [models.price.PriceRecord]; [scraped_at] counts seconds. *)
Record t : Type := mk {
  inventory_item_id : option Z;
  platform : string;
  product_url : option string;
  price : Q;
  in_stock : bool;
  scraped_at : Z
}.

(** [PriceRecord.calculate_unit_price] *)
Definition calculate_unit_price (price : Q) (size_str : string) : py (option Q) :=
  let size_str := strip (lower (of_string size_str)) in
  match re_match units_without_each size_str with
  | None => Ret None
  | Some (g1, unit) =>
      let quantity := float_of g1 in
      if eqb_chars unit ["g"] then
        match PyNum.truediv price (PyFloat.div quantity 1000) with
        | Ret r => Ret (Some r)
        | Raise e => Raise e
        end
      else if eqb_chars unit ["k"; "g"] then
        match PyNum.truediv price quantity with
        | Ret r => Ret (Some r)
        | Raise e => Raise e
        end
      else if eqb_chars unit ["m"; "l"] then
        match PyNum.truediv price (PyFloat.div quantity 1000) with
        | Ret r => Ret (Some r)
        | Raise e => Raise e
        end
      else if eqb_chars unit ["l"] then
        match PyNum.truediv price quantity with
        | Ret r => Ret (Some r)
        | Raise e => Raise e
        end
      else if existsb (eqb_chars unit)
                [ ["p"; "c"]; ["p"; "c"; "s"]; ["p"; "i"; "e"; "c"; "e"];
                  ["p"; "i"; "e"; "c"; "e"; "s"]; ["p"; "a"; "c"; "k"] ] then
        match PyNum.truediv price quantity with
        | Ret r => Ret (Some r)
        | Raise e => Raise e
        end
      else Ret None
  end.
End PriceRecord.

Module InventoryItem.
(** [models.inventory.InventoryItem]; [is_active] is an integer column. *)
Record t : Type := mk {
  id : Z;
  name : string;
  is_active : Z
}.
End InventoryItem.

Module FairPriceCard.
(** The end of [FairPriceAdapter._parse_product_card]: from the scraped
    fields to the [Product]; an exception makes the card [None]. *)
Definition _parse_product_card
    (product_id name : string) (price : Q) (original_price : option Q)
    (image_url : string) (in_stock : bool) (unit_size : option string)
    (url : string) : option Product.t :=
  let unit_price :=
    if PyNum.truthy price && PyStr.truthy_opt unit_size then
      match unit_size with
      | Some sz => FairPriceAdapter._calculate_unit_price price sz
      | None => Ret None
      end
    else Ret None in
  match unit_price with
  | Raise _ => None
  | Ret unit_price =>
      Some (Product.mk product_id name price original_price unit_price
              unit_size in_stock url image_url)
  end.
End FairPriceCard.

(** ** services.price_service *)

Module PriceService.

(** One entry of the list [compare_prices] returns. *)
Record comparison : Type := mk_comparison {
  c_platform : string;
  c_product : Product.t;
  c_price : Q;
  c_unit_price : option Q
}.

(** The tables of the database this service reads. *)
Record db : Type := mk_db {
  inventory_items : list InventoryItem.t;
  price_records : list PriceRecord.t
}.

(** One entry of the list [get_price_alerts] returns. *)
Record price_alert : Type := mk_price_alert {
  a_item : InventoryItem.t;
  a_platform : string;
  a_current_price : Q;
  a_previous_price : Q;
  a_change_percent : Q;
  a_url : option string
}.

Section Service.
Variable adapters : PyDict.t PlatformAdapter.t.

(** [PriceService.search_all_platforms] *)
Definition search_all_platforms (query : string) (limit : Z)
  : PyDict.t (list Product.t) :=
  fold_left
    (fun results '(platform_name, adapter) =>
       match PlatformAdapter.search_products adapter query limit with
       | Ret result =>
           PyDict.set results platform_name (SearchResult.products result)
       | Raise _ => PyDict.set results platform_name []
       end)
    (PyDict.items adapters) PyDict.empty.

(** The key of the sort: [x.get("unit_price") or x["price"]]. *)
Definition sort_key (x : comparison) : Q :=
  match c_unit_price x with
  | Some u => if PyNum.truthy u then u else c_price x
  | None => c_price x
  end.

(** The flattening loop of [compare_prices]. *)
Definition flatten (all_results : PyDict.t (list Product.t)) : list comparison :=
  flat_map
    (fun '(platform, products) =>
       map (fun product =>
              mk_comparison platform product (Product.price product)
                (Product.unit_price product))
           products)
    (PyDict.items all_results).

(** [PriceService.compare_prices] *)
Definition compare_prices (query : string) (limit : Z) : list comparison :=
  let all_results := search_all_platforms query limit in
  let all_products := flatten all_results in
  PySort.sort_by_key sort_key all_products.
End Service.

Definition opt_Z_eqb (a : option Z) (b : Z) : bool :=
  match a with Some x => (x =? b)%Z | None => false end.

Definition seconds_of_days (days : Z) : Z := (days * 86400)%Z.

(** [ORDER BY scraped_at DESC]: [y] goes before [x] when it is newer. *)
Definition newer_first (y x : PriceRecord.t) : bool :=
  (PriceRecord.scraped_at x <? PriceRecord.scraped_at y)%Z.

(** The [WHERE] clause: a row of the item, scraped at or after the cutoff. *)
Definition in_window (inventory_item_id cutoff : Z) (r : PriceRecord.t) : bool :=
  opt_Z_eqb (PriceRecord.inventory_item_id r) inventory_item_id
  && (cutoff <=? PriceRecord.scraped_at r)%Z.

(** [PriceService.get_price_history]: the rows of one item not older than
    [days], of one platform when one is given, newest first. *)
Definition get_price_history (d : db) (now : Z) (inventory_item_id : Z)
    (platform : option string) (days : Z) : list PriceRecord.t :=
  let cutoff := (now - seconds_of_days days)%Z in
  let rows := filter (in_window inventory_item_id cutoff) (price_records d) in
  let rows :=
    if PyStr.truthy_opt platform then
      match platform with
      | Some p => filter (fun r => String.eqb (PriceRecord.platform r) p) rows
      | None => rows
      end
    else rows in
  PySort.sort newer_first rows.

(** [((latest.price - previous.price) / previous.price) * 100] *)
Definition change_percent (latest previous : Q) : Q :=
  PyFloat.mul (PyFloat.div (PyFloat.sub latest previous) previous) 100.

(** The body of the loop of [get_price_alerts] for one item. *)
Definition price_alert_of (d : db) (now : Z) (threshold_percent : Q)
    (item : InventoryItem.t) : list price_alert :=
  let history := get_price_history d now (InventoryItem.id item) None 7 in
  match history with
  | latest :: previous :: _ =>
      if PyNum.ltb 0 (PriceRecord.price previous) then
        let change :=
          change_percent (PriceRecord.price latest) (PriceRecord.price previous) in
        if Qle_bool change (- threshold_percent) then
          [ mk_price_alert item (PriceRecord.platform latest)
              (PriceRecord.price latest) (PriceRecord.price previous)
              change (PriceRecord.product_url latest) ]
        else []
      else []
  | _ => []
  end.

(** [PriceService.get_price_alerts] *)
Definition get_price_alerts (d : db) (now : Z) (threshold_percent : Q)
    : list price_alert :=
  let items :=
    filter (fun i => (InventoryItem.is_active i =? 1)%Z) (inventory_items d) in
  flat_map (price_alert_of d now threshold_percent) items.

End PriceService.

(** ** models.watchlist *)

Module Status.
(** One value of the [availability_status] dictionary.  A missing key and
    [None] read the same through [.get], so both are [None] here; a
    missing ["in_stock"] reads as [false]. *)
Record t : Type := mk {
  in_stock : bool;
  price : option Q;
  product_id : option string;
  url : option string;
  name : option string;
  error : option string;
  note : option string;
  direct_check : bool
}.

(** The empty dictionary. *)
Definition empty : t := mk false None None None None None None false.
End Status.

Module ProductInfo.
(** One value of [platform_products]: a dictionary with an optional
    ["url"] and ["search_url"], or anything else. *)
Inductive t : Type :=
  | InfoDict (url : option string) (search_url : bool)
  | InfoOther.
End ProductInfo.

Module WatchlistItem.
(** [models.watchlist.WatchlistItem] *)
Record t : Type := mk {
  id : Z;
  name : string;
  brand : option string;
  search_keywords : list string;
  target_platforms : list string;
  platform_products : PyDict.t ProductInfo.t;
  weekly_target_qty : Z;
  max_price : option Q;
  is_active : bool;
  current_best_price : option Q;
  current_best_platform : option string;
  availability_status : option (PyDict.t Status.t);
  notify_on_restock : bool;
  notify_on_price_drop : bool;
  price_drop_threshold : Q
}.

(** [bool(self.availability_status)]: [None] and [{}] are false. *)
Definition has_status (i : t) : bool :=
  match availability_status i with
  | Some (_ :: _) => true
  | _ => false
  end.

(** [self.availability_status or {}] *)
Definition status_or_empty (i : t) : PyDict.t Status.t :=
  match availability_status i with
  | Some d => d
  | None => PyDict.empty
  end.

(** [WatchlistItem.is_available_anywhere] *)
Definition is_available_anywhere (i : t) : bool :=
  if negb (has_status i) then false
  else existsb Status.in_stock (PyDict.values (status_or_empty i)).

(** [WatchlistItem.available_platforms] *)
Definition available_platforms (i : t) : list string :=
  if negb (has_status i) then []
  else map fst (filter (fun ps => Status.in_stock (snd ps))
                       (PyDict.items (status_or_empty i))).

(** [WatchlistItem.get_best_deal]: the platform and its entry. *)
Definition get_best_deal (i : t) : option (string * Status.t) :=
  if negb (has_status i) then None
  else
    let available :=
      filter (fun ps => Status.in_stock (snd ps)
                        && PyNum.truthy_opt (Status.price (snd ps)))
             (PyDict.items (status_or_empty i)) in
    PySort.min_by (fun ps => Status.price (snd ps)) available.
End WatchlistItem.

Module WatchlistAlert.
(** [models.watchlist.WatchlistAlert], without the message text. *)
Record t : Type := mk {
  watchlist_item_id : Z;
  alert_type : string;
  platform : string;
  old_price : option Q;
  new_price : option Q
}.
End WatchlistAlert.

(** ** services.watchlist_service *)

Module WatchlistService.
Import PyStr.
Local Open Scope string_scope.

(** What [check_specific_url] returns. *)
Record url_result : Type := mk_url_result {
  ur_in_stock : bool;
  ur_price : option Q;
  ur_title : option string;
  ur_error : option string
}.

(** What the service does to the outside, in order. *)
Inductive event : Type :=
  | DbAdd (a : WatchlistAlert.t)
  | SendRestockAlert (product_name brand platform : string) (price : Q)
      (url : string)
  | SendPriceDropAlert (product_name brand platform : string)
      (old_price new_price : Q) (url : string).

(** One entry of the weekly list; a key the code does not set is [None]. *)
Record recommendation : Type := mk_recommendation {
  r_item : WatchlistItem.t;
  r_status : string;
  r_best_deal : option (string * Status.t);
  r_quantity : option Z;
  r_platform : option string;
  r_platform_name : option string;
  r_price : option Q;
  r_total : option Q;
  r_url : option string
}.

Definition str_of_exn (e : exn) : string :=
  match e with
  | ZeroDivisionError => "division by zero"
  | ValueError m => m
  | OtherError m => m
  end.

Definition or_empty (s : option string) : string :=
  match s with Some x => x | None => EmptyString end.

Section Service.
(** The adapter registry [ADAPTERS], the display names, and the page
    check [check_specific_url]. *)
Variable ADAPTERS : PyDict.t PlatformAdapter.t.
Variable PLATFORM_DISPLAY_NAMES : PyDict.t string.
Variable check_specific_url : string -> py url_result.

(** [adapters.get_adapter] *)
Definition get_adapter (platform_name : string) : py PlatformAdapter.t :=
  match PyDict.get ADAPTERS (to_string (lower (of_string platform_name))) with
  | Some a => Ret a
  | None => Raise (ValueError "Unknown platform")
  end.

Definition display_name (platform : string) : string :=
  match PyDict.get PLATFORM_DISPLAY_NAMES platform with
  | Some n => n
  | None => platform
  end.

(** The entry recorded when a probe raises in the search loop. *)
Definition error_status (e : exn) : Status.t :=
  Status.mk false None None None None (Some (str_of_exn e)) None false.

Definition found_status (found : Product.t) : Status.t :=
  Status.mk (Product.in_stock found) (Some (Product.price found))
    (Some (Product.product_id found)) (Some (Product.url found))
    (Some (Product.name found)) None None false.

Definition not_found_status : Status.t :=
  Status.mk false None None None None None (Some "Product not found") false.

(** The body of the loop over [platform_products]: a known page is checked
    directly, unless it is a search page. *)
Definition check_known_url (results : PyDict.t Status.t)
    (entry : string * ProductInfo.t) : PyDict.t Status.t :=
  let '(platform, product_info) := entry in
  match product_info with
  | ProductInfo.InfoDict (Some url) search_url =>
      if negb (truthy_opt (Some url)) then results
      else if search_url then results
      else
        match check_specific_url url with
        | Ret r =>
            PyDict.set results platform
              (Status.mk (ur_in_stock r) (ur_price r) None (Some url)
                 (ur_title r)
                 (if truthy_opt (ur_error r) then ur_error r else None)
                 None true)
        | Raise e =>
            PyDict.set results platform
              (Status.mk false None None (Some url) None
                 (Some (str_of_exn e)) None false)
        end
  | _ => results
  end.

(** The loop over [platform_products]. *)
Definition check_known_urls (item : WatchlistItem.t) : PyDict.t Status.t :=
  fold_left check_known_url
    (PyDict.items (WatchlistItem.platform_products item)) PyDict.empty.

(** The brand test of the search loop: [brand_lower in name_lower]. *)
Definition brand_matches (item : WatchlistItem.t) (product : Product.t) : bool :=
  let name_lower := lower (of_string (Product.name product)) in
  let brand_lower :=
    if truthy_opt (WatchlistItem.brand item)
    then lower (of_string (or_empty (WatchlistItem.brand item)))
    else [] in
  contains brand_lower name_lower.

(** One round of the search loop, for one platform. *)
Definition probe_platform (item : WatchlistItem.t) (query : string)
    (results : PyDict.t Status.t) (platform : string) : PyDict.t Status.t :=
  match get_adapter platform with
  | Raise e => PyDict.set results platform (error_status e)
  | Ret adapter =>
      match PlatformAdapter.search_products adapter query 5 with
      | Raise e => PyDict.set results platform (error_status e)
      | Ret search_result =>
          let found := find (brand_matches item) (SearchResult.products search_result) in
          let results :=
            match found with
            | Some found => PyDict.set results platform (found_status found)
            | None => PyDict.set results platform not_found_status
            end in
          match PlatformAdapter.close adapter with
          | Ret _ => results
          | Raise e => PyDict.set results platform (error_status e)
          end
      end
  end.

(** [(old["price"] - status["price"]) / old["price"]] *)
Definition price_change (old_price new_price : Q) : Q :=
  PyFloat.div (PyFloat.sub old_price new_price) old_price.

(** The body of the loop of [_check_alerts], for one entry of the new
    snapshot. *)
Definition alerts_for_entry (item : WatchlistItem.t)
    (old_status : PyDict.t Status.t) (entry : string * Status.t) : list event :=
  let '(platform, status) := entry in
  let old :=
    match PyDict.get old_status platform with
    | Some o => o
    | None => Status.empty
    end in
  let platform_name := display_name platform in
  app
    (if Status.in_stock status && negb (Status.in_stock old) then
       if WatchlistItem.notify_on_restock item then
         [ DbAdd (WatchlistAlert.mk (WatchlistItem.id item) "restock"
                    platform None (Status.price status));
           SendRestockAlert (WatchlistItem.name item)
             (or_empty (WatchlistItem.brand item)) platform_name
             (match Status.price status with
              | Some p => if PyNum.truthy p then p else 0
              | None => 0
              end)
             (or_empty (Status.url status)) ]
       else []
     else [])
    (match Status.price status, Status.price old with
     | Some new_price, Some old_price =>
         if PyNum.truthy new_price && PyNum.truthy old_price then
           let price_change := price_change old_price new_price in
           if Qle_bool (WatchlistItem.price_drop_threshold item) price_change then
             if WatchlistItem.notify_on_price_drop item then
               [ DbAdd (WatchlistAlert.mk (WatchlistItem.id item) "price_drop"
                          platform (Some old_price) (Some new_price));
                 SendPriceDropAlert (WatchlistItem.name item)
                   (or_empty (WatchlistItem.brand item)) platform_name
                   old_price new_price (or_empty (Status.url status)) ]
             else []
           else []
         else []
     | _, _ => []
     end).

(** [WatchlistService._check_alerts] *)
Definition _check_alerts (item : WatchlistItem.t)
    (old_status new_status : PyDict.t Status.t) : list event :=
  flat_map (alerts_for_entry item old_status) (PyDict.items new_status).

Definition or_list (a b : list string) : list string :=
  match a with [] => b | _ :: _ => a end.

(** [platforms or item.target_platforms or list(ADAPTERS.keys())] *)
Definition platforms_to_check (item : WatchlistItem.t)
    (platforms : option (list string)) : list string :=
  or_list (match platforms with Some l => l | None => [] end)
    (or_list (WatchlistItem.target_platforms item) (PyDict.keys ADAPTERS)).

(** The search query: the first two keywords, or the name. *)
Definition search_query (item : WatchlistItem.t) : string :=
  let search_terms :=
    or_list (WatchlistItem.search_keywords item) [WatchlistItem.name item] in
  join " " (firstn 2 search_terms).

(** The dictionary [results] once both loops of [check_availability] have
    run. *)
Definition collect_results (item : WatchlistItem.t)
    (platforms : option (list string)) : PyDict.t Status.t :=
  fold_left (probe_platform item (search_query item))
    (platforms_to_check item platforms) (check_known_urls item).

(** The sources a best deal is chosen from: in stock, with a price. *)
Definition available (results : PyDict.t Status.t) : list (string * Status.t) :=
  filter (fun ps => Status.in_stock (snd ps)
                    && PyNum.truthy_opt (Status.price (snd ps)))
         (PyDict.items results).

(** The item with its snapshot replaced and its best deal set. *)
Definition updated (item : WatchlistItem.t) (results : PyDict.t Status.t)
    (best_price : option Q) (best_platform : option string) : WatchlistItem.t :=
  WatchlistItem.mk (WatchlistItem.id item) (WatchlistItem.name item)
    (WatchlistItem.brand item) (WatchlistItem.search_keywords item)
    (WatchlistItem.target_platforms item)
    (WatchlistItem.platform_products item)
    (WatchlistItem.weekly_target_qty item) (WatchlistItem.max_price item)
    (WatchlistItem.is_active item)
    best_price best_platform (Some results)
    (WatchlistItem.notify_on_restock item)
    (WatchlistItem.notify_on_price_drop item)
    (WatchlistItem.price_drop_threshold item).

(** [WatchlistService.check_availability]: the returned dictionary, the
    item as it is left, and what was sent to the database and the
    mailer. *)
Definition check_availability (item : WatchlistItem.t)
    (platforms : option (list string))
    : PyDict.t Status.t * WatchlistItem.t * list event :=
  let results := collect_results item platforms in
  let old_status := WatchlistItem.status_or_empty item in
  match PySort.min_by (fun ps => Status.price (snd ps)) (available results) with
  | Some best =>
      let item' :=
        updated item results (Status.price (snd best)) (Some (fst best)) in
      (results, item', _check_alerts item' old_status results)
  | None =>
      let item' :=
        updated item results (WatchlistItem.current_best_price item)
          (WatchlistItem.current_best_platform item) in
      (results, item', [])
  end.

(** The body of the loop of [get_weekly_shopping_list] for one item. *)
Definition recommend (item : WatchlistItem.t) : list recommendation :=
  if negb (WatchlistItem.is_available_anywhere item) then
    [ mk_recommendation item "unavailable" None None None None None None None ]
  else
    match WatchlistItem.get_best_deal item with
    | Some best_deal =>
        match Status.price (snd best_deal) with
        | Some price =>
            if PyNum.truthy_opt (WatchlistItem.max_price item)
               && match WatchlistItem.max_price item with
                  | Some m => PyNum.ltb m price
                  | None => false
                  end
            then
              [ mk_recommendation item "over_budget" (Some best_deal)
                  None None None None None None ]
            else
              [ mk_recommendation item "available" None
                  (Some (WatchlistItem.weekly_target_qty item))
                  (Some (fst best_deal))
                  (Some (display_name (fst best_deal)))
                  (Some price)
                  (Some (PyFloat.mul price
                           (PyFloat.of_int (WatchlistItem.weekly_target_qty item))))
                  (Some (or_empty (Status.url (snd best_deal)))) ]
        | None => []
        end
    | None => []
    end.

(** [WatchlistService.get_weekly_shopping_list], over the table of
    watchlist items. *)
Definition get_weekly_shopping_list (table : list WatchlistItem.t)
    : list recommendation :=
  let items := filter WatchlistItem.is_active table in
  flat_map recommend items.
End Service.

End WatchlistService.

(** ** Reading the outcome of a check *)

Module AlertLog.
Import WatchlistService.

(** The alerts added to the database, in order. *)
Definition alerts_of (events : list event) : list WatchlistAlert.t :=
  flat_map (fun e => match e with DbAdd a => [a] | _ => [] end) events.

Definition is_alert (alert_type platform : string) (a : WatchlistAlert.t) : bool :=
  String.eqb (WatchlistAlert.alert_type a) alert_type
  && String.eqb (WatchlistAlert.platform a) platform.

(** How many alerts of one type were created for one platform. *)
Definition count (alert_type platform : string) (events : list event) : nat :=
  List.length (filter (is_alert alert_type platform) (alerts_of events)).
End AlertLog.

Module ProbeSpec.
Import WatchlistService.

(** The entry one round of the search loop leaves for its platform: it
    looks at that platform's adapter and at nothing else. *)
Definition probe_entry (ADAPTERS : PyDict.t PlatformAdapter.t)
    (item : WatchlistItem.t) (query platform : string) : Status.t :=
  match get_adapter ADAPTERS platform with
  | Raise e => error_status e
  | Ret adapter =>
      match PlatformAdapter.search_products adapter query 5 with
      | Raise e => error_status e
      | Ret search_result =>
          match PlatformAdapter.close adapter with
          | Raise e => error_status e
          | Ret _ =>
              match find (brand_matches item) (SearchResult.products search_result) with
              | Some found => found_status found
              | None => not_found_status
              end
          end
      end
  end.

(** A fault record: not in stock, no price, and the error text. *)
Definition is_fault_record (s : Status.t) : Prop :=
  Status.in_stock s = false /\ Status.price s = None
  /\ exists msg, Status.error s = Some msg.
End ProbeSpec.

Module FaultSpec.

(** What one source contributes to a search: its listings, or nothing when
    its search raises. *)
Definition contribution (adapter : PlatformAdapter.t) (query : string)
    (limit : Z) : list Product.t :=
  match PlatformAdapter.search_products adapter query limit with
  | Ret result => SearchResult.products result
  | Raise _ => []
  end.

(** The sources whose search raises. *)
Definition faulted (adapters : PyDict.t PlatformAdapter.t) (query : string)
    (limit : Z) : list string :=
  map fst
    (filter (fun na =>
               match PlatformAdapter.search_products (snd na) query limit with
               | Ret _ => false
               | Raise _ => true
               end)
            (PyDict.items adapters)).

(** A fault manifest can be read off what [search_all_platforms] returns. *)
Definition has_fault_manifest : Prop :=
  exists manifest : PyDict.t (list Product.t) -> list string,
    forall adapters query limit,
      manifest (PriceService.search_all_platforms adapters query limit)
      = faulted adapters query limit.
End FaultSpec.

(** ** Check cycles of one item run by two callers

    Every caller of [check_availability] (the scheduler task, the web
    handlers, the command line) opens a session of its own, loads the item
    through it and passes the loaded object on; [check_availability] reads
    the old snapshot from that object, replaces it, diffs, and ends with
    [db.commit()].  Between the load, the probes and the commit the caller
    awaits, and no lock, queue or version check appears anywhere in the
    repository.  A caller's cycle is therefore three steps that another
    caller's steps may come between: load the row, run the body on the
    loaded copy, commit.  The database is taken to hold the row and the
    alerts of the last commit. *)

Module Cycles.
Import WatchlistService.

(** The rows the database holds for one watched item. *)
Record database : Type := mk_database {
  row : WatchlistItem.t;
  alert_rows : list WatchlistAlert.t
}.

(** Where a caller's cycle stands. *)
Inductive progress : Type :=
  | Idle
  | Loaded (item : WatchlistItem.t)
  | Checked (item : WatchlistItem.t) (pending : list WatchlistAlert.t)
  | Done.

Inductive caller : Type := First | Second.

Record system : Type := mk_system {
  db : database;
  first : progress;
  second : progress
}.

Section Run.
Variable ADAPTERS : PyDict.t PlatformAdapter.t.
Variable PLATFORM_DISPLAY_NAMES : PyDict.t string.
Variable check_specific_url : string -> py url_result.

(** One step of one caller: [get_item], then the body of
    [check_availability] up to its commit, then the commit. *)
Definition step (d : database) (c : progress) : database * progress :=
  match c with
  | Idle => (d, Loaded (row d))
  | Loaded item =>
      let outcome :=
        check_availability ADAPTERS PLATFORM_DISPLAY_NAMES check_specific_url
          item None in
      (d, Checked (snd (fst outcome)) (AlertLog.alerts_of (snd outcome)))
  | Checked item pending => (mk_database item (alert_rows d ++ pending), Done)
  | Done => (d, Done)
  end.

Definition turn (s : system) (who : caller) : system :=
  match who with
  | First => let '(d, c) := step (db s) (first s) in mk_system d c (second s)
  | Second => let '(d, c) := step (db s) (second s) in mk_system d (first s) c
  end.

(** Nothing restricts whose turn comes next. *)
Definition run (schedule : list caller) (s : system) : system :=
  fold_left turn schedule s.
End Run.

Definition start (d : database) : system := mk_system d Idle Idle.

(** One cycle after the other, and two cycles that both load before either
    commits. *)
Definition one_after_another : list caller :=
  [First; First; First; Second; Second; Second].

Definition overlapping : list caller :=
  [First; Second; First; Second; First; Second].

(** A caller is between reading its baseline and writing its snapshot. *)
Definition in_cycle (c : progress) : bool :=
  match c with
  | Loaded _ | Checked _ _ => true
  | Idle | Done => false
  end.

(** The mutual exclusion the specification asks for: the two callers are
    never both between baseline read and snapshot write. *)
Definition exclusive (s : system) : Prop :=
  in_cycle (first s) && in_cycle (second s) = false.
End Cycles.

(** ** The size pattern, as a shape of the text

    What the pattern of the normaliser accepts: a text that reads "digits,
    an optional point and digits, white space, a unit token, anything"; the
    quantity is the number written, as a float, and a unit of grams or
    millilitres counts a thousand to the base unit. *)

Module SizeSpec.
Import PyStr SizePattern.
Local Open Scope char_scope.

Definition frac_text (fp : option chars) : chars :=
  match fp with
  | Some f => "." :: f
  | None => []
  end.

Definition frac_digits (fp : option chars) : chars :=
  match fp with
  | Some f => f
  | None => []
  end.

Record shape (alts : list chars) (text ip : chars) (fp : option chars)
    (ws unit rest : chars) : Prop := mk_shape {
  shape_text : text = ip ++ frac_text fp ++ ws ++ unit ++ rest;
  shape_ip : ip <> [] /\ forallb is_digit ip = true;
  shape_fp : match fp with
             | Some f => f <> [] /\ forallb is_digit f = true
             | None => True
             end;
  shape_ws : forallb is_space ws = true;
  shape_unit : In unit alts
}.

Definition quantity (ip : chars) (fp : option chars) : Q :=
  PyFloat.of_decimal (numeral_value ip (frac_digits fp)).

(** How many of the written unit make one base unit. *)
Definition per_base (unit : chars) : Q :=
  if eqb_chars unit ["g"] || eqb_chars unit ["m"; "l"] then 1000 else 1.

(** The price of one base unit as the adapter computes it: the price of one
    written unit, times a thousand for grams and millilitres. *)
Definition unit_price (price : Q) (unit : chars) (q : Q) : Q :=
  if eqb_chars unit ["g"] || eqb_chars unit ["m"; "l"]
  then PyFloat.mul (PyFloat.div price q) 1000
  else PyFloat.div price q.

(** The text the pattern is matched against. *)
Definition normal (size_str : string) : chars := strip (lower (of_string size_str)).

End SizeSpec.

(** ** The two-segment order of the specification *)

Module CompareSpec.
Import PriceService.

(** A record with a resolvable unit price. *)
Definition has_unit_price (x : comparison) : bool :=
  match c_unit_price x with
  | Some _ => true
  | None => false
  end.

Definition unit_price_of (x : comparison) : Q :=
  match c_unit_price x with
  | Some u => u
  | None => 0
  end.

(** All records with a unit price first, ascending by unit price, then
    all records lacking one, ascending by raw price. *)
Definition two_segment (l : list comparison) : Prop :=
  exists priced raw,
    l = priced ++ raw
    /\ Forall (fun x => has_unit_price x = true) priced
    /\ Forall (fun x => has_unit_price x = false) raw
    /\ StronglySorted (fun a b => unit_price_of a <= unit_price_of b) priced
    /\ StronglySorted (fun a b => c_price a <= c_price b) raw.

(** The sort key the specification gives a listing that arrives without a
    unit price: the normaliser applied to its price and size text. *)
Definition normalised_key (p : Product.t) : option Q :=
  match Product.unit_size p with
  | Some size =>
      match FairPriceAdapter._calculate_unit_price (Product.price p) size with
      | Ret r => r
      | Raise _ => None
      end
  | None => None
  end.
End CompareSpec.

(** ** Drop detection, in the words of the specification *)

Module DropSpec.

(** All history entries of the item, newest first. *)
Definition history (records : list PriceRecord.t) (item_id : Z)
    : list PriceRecord.t :=
  PySort.sort PriceService.newer_first
    (filter (fun r => PriceService.opt_Z_eqb (PriceRecord.inventory_item_id r) item_id)
            records).

(** [detectDrop(trackedItemId, thresholdFraction)]: compare the two most
    recent history entries of the item; if
    [(previous.price - latest.price) / previous.price >= thresholdFraction]
    there is a drop, reported with its change in percent. *)
Definition detect_drop (records : list PriceRecord.t) (item_id : Z)
    (threshold_fraction : Q) : option Q :=
  match history records item_id with
  | latest :: previous :: _ =>
      let p := PriceRecord.price previous in
      let l := PriceRecord.price latest in
      if Qle_bool threshold_fraction ((p - l) / p)
      then Some ((l - p) / p * 100)
      else None
  | _ => None
  end.
End DropSpec.

(** ** What a snapshot offers *)

Module Offer.
(** Some source of the snapshot is in stock. *)
Definition in_stock_somewhere (item : WatchlistItem.t) : Prop :=
  exists platform s,
    In (platform, s) (WatchlistItem.status_or_empty item)
    /\ Status.in_stock s = true.

(** Some source of the snapshot is in stock and carries a price that is
    not zero. *)
Definition priced_somewhere (item : WatchlistItem.t) : Prop :=
  exists platform s,
    In (platform, s) (WatchlistItem.status_or_empty item)
    /\ Status.in_stock s = true
    /\ PyNum.truthy_opt (Status.price s) = true.

(** [price] is the lowest price among the in-stock, priced sources. *)
Definition lowest (item : WatchlistItem.t) (price : Q) : Prop :=
  forall platform s q,
    In (platform, s) (WatchlistItem.status_or_empty item) ->
    Status.in_stock s = true -> Status.price s = Some q ->
    PyNum.truthy q = true -> price <= q.

(** The item has a maximum price, not zero, below [price]. *)
Definition exceeds_budget (item : WatchlistItem.t) (price : Q) : Prop :=
  exists m, WatchlistItem.max_price item = Some m /\ ~ m == 0 /\ m < price.
End Offer.

(** ** Sample sources *)

Module Samples.
Local Open Scope string_scope.

Definition listing (name : string) (price : Q) (unit_price : option Q)
    (unit_size : option string) (in_stock : bool) : Product.t :=
  Product.mk name name price None unit_price unit_size in_stock "" "".

(** A source that answers every search with the same listings. *)
Definition answering (products : list Product.t) : PlatformAdapter.t :=
  PlatformAdapter.mk
    (fun query _ =>
       Ret (SearchResult.mk "" query products
              (Z.of_nat (List.length products)) 1 false))
    (Ret tt).

(** A source whose search raises. *)
Definition faulting (msg : string) : PlatformAdapter.t :=
  PlatformAdapter.mk (fun _ _ => Raise (OtherError msg)) (Ret tt).

(** Source A lists a unit price of 5, source B only a raw price of 4. *)
Definition unit5_raw4 : PyDict.t PlatformAdapter.t :=
  [ ("A", answering [listing "a" 7 (Some 5) None true]);
    ("B", answering [listing "b" 4 None None true]) ].

(** One listing of 20 for "500g", without a unit price. *)
Definition unpriced_500g : PyDict.t PlatformAdapter.t :=
  [ ("A", answering [listing "a" 20 None (Some "500g") true]) ].

(** The same listing as the product-card parser leaves it. *)
Definition card_500g : Product.t :=
  Product.mk "a" "a" 20 None (Some 40) (Some "500g") true "" "".

Definition priced_500g : PyDict.t PlatformAdapter.t :=
  [ ("A", answering [card_500g]) ].

(** A snapshot entry with a stock flag and a price. *)
Definition stock (in_stock : bool) (price : option Q) : Status.t :=
  Status.mk in_stock price None None None None None false.

(** A watched product with one target platform. *)
Definition watched (max_price : option Q)
    (snapshot : option (PyDict.t Status.t))
    (notify_on_restock notify_on_price_drop : bool) (threshold : Q)
    : WatchlistItem.t :=
  WatchlistItem.mk 7 "Sardines" (Some "Nuri") ["nuri"; "sardines"] ["a"] []
    2 max_price true None None snapshot
    notify_on_restock notify_on_price_drop threshold.

(** Best available price 12, with a maximum price of 10, of 15, of 0. *)
Definition priced_12 (max_price : option Q) : WatchlistItem.t :=
  watched max_price (Some [("a", stock true (Some 12))]) true true
    (PyFloat.of_decimal (1 # 10)).

(** Out of stock everywhere. *)
Definition out_of_stock : WatchlistItem.t :=
  watched (Some 10) (Some [("a", stock false None)]) true true
    (PyFloat.of_decimal (1 # 10)).

(** In stock on a page that showed no price. *)
Definition in_stock_unpriced : WatchlistItem.t :=
  watched (Some 10) (Some [("a", stock true None)]) true true
    (PyFloat.of_decimal (1 # 10)).

(** Source "a" lists the watched product at 8, in stock or not. *)
Definition shop_at_8 (in_stock : bool) : PyDict.t PlatformAdapter.t :=
  [ ("a", answering [listing "Nuri Spiced Sardines" 8 None None in_stock]) ].

(** No page is ever checked directly in the samples. *)
Definition no_page (url : string) : py WatchlistService.url_result :=
  Raise (OtherError "no browser").

(** The watched product, last seen in stock on "a" at 10. *)
Definition seen_at_10 : WatchlistItem.t :=
  watched (Some 15) (Some [("a", stock true (Some 10))]) true true
    (PyFloat.of_decimal (1 # 10)).

(** The same product without a brand. *)
Definition unbranded : WatchlistItem.t :=
  WatchlistItem.mk 8 "Sardines" None ["sardines"] ["a"] [] 2 None true
    None None None true true (PyFloat.of_decimal (1 # 10)).

(** Source "a" lists another product first. *)
Definition shop_other_first : PyDict.t PlatformAdapter.t :=
  [ ("a", answering [ listing "Canned Tuna" 3 None None true;
                      listing "Nuri Spiced Sardines" 8 None None true ]) ].

(** Two sources; the first one either raises or has nothing to list. *)
Definition first_down : PyDict.t PlatformAdapter.t :=
  [ ("A", faulting "timed out");
    ("B", answering [listing "b" 4 None None true]) ].

Definition first_empty : PyDict.t PlatformAdapter.t :=
  [ ("A", answering []);
    ("B", answering [listing "b" 4 None None true]) ].

(** A registry in which platform "a" raises and platform "b" answers. *)
Definition registry_a_down : PyDict.t PlatformAdapter.t :=
  [ ("a", faulting "timed out");
    ("b", answering [listing "Nuri Spiced Sardines" 9 None None true]) ].

(** The watched product, to be checked on platforms "a" and "b". *)
Definition watched_on_a_b : WatchlistItem.t :=
  WatchlistItem.mk 7 "Sardines" (Some "Nuri") ["nuri"; "sardines"] ["a"; "b"] []
    2 None true None None None true true (PyFloat.of_decimal (1 # 10)).

(** The watched product, last seen out of stock on "a". *)
Definition seen_out_of_stock : WatchlistItem.t :=
  watched (Some 15) (Some [("a", stock false None)]) true true
    (PyFloat.of_decimal (1 # 10)).

Definition day : Z := 86400.

Definition milk : InventoryItem.t := InventoryItem.mk 1 "milk" 1.

Definition entry (platform : string) (price : Q) (at_day : Z) : PriceRecord.t :=
  PriceRecord.mk (Some 1%Z) platform None price true (at_day * day)%Z.

(** History [A:$10@t1, A:$8.5@t2]. *)
Definition history_10_then_8_5 : PriceService.db :=
  PriceService.mk_db [milk] [entry "A" 10 1; entry "A" (85 # 10) 2].

(** History [A:$10@t1, A:$9.6@t2]. *)
Definition history_10_then_9_6 : PriceService.db :=
  PriceService.mk_db [milk]
    [entry "A" 10 1; entry "A" (PyFloat.of_decimal (96 # 10)) 2].

(** Two entries ten days apart. *)
Definition history_ten_days_apart : PriceService.db :=
  PriceService.mk_db [milk] [entry "A" 10 0; entry "A" 5 10].
End Samples.

(** ** services.price_service, the rest of the store *)

Module PriceStore.
Import PriceService.

(** [PriceService.save_price_record]: the row is stamped when it is added;
    the columns kept are those of [PriceRecord.t]. *)
Definition save_price_record (d : db) (now : Z) (inventory_item_id : option Z)
    (platform : string) (product : Product.t) : db * PriceRecord.t :=
  let record :=
    PriceRecord.mk inventory_item_id platform (Some (Product.url product))
      (Product.price product) (Product.in_stock product) now in
  (mk_db (inventory_items d) (price_records d ++ [record]), record).

(** [PriceService.cleanup_old_records]: rows scraped before the cutoff are
    deleted. *)
Definition cleanup_old_records (d : db) (now : Z) (days : Z) : db :=
  let cutoff := (now - seconds_of_days days)%Z in
  mk_db (inventory_items d)
    (filter (fun r => negb (PriceRecord.scraped_at r <? cutoff)%Z)
            (price_records d)).

(** The subquery of [get_best_price]:
    [SELECT platform, max(scraped_at) ... GROUP BY platform]. *)
Definition latest_per_platform (rows : list PriceRecord.t) : PyDict.t Z :=
  fold_left
    (fun acc r =>
       match PyDict.get acc (PriceRecord.platform r) with
       | Some latest =>
           if (latest <? PriceRecord.scraped_at r)%Z
           then PyDict.set acc (PriceRecord.platform r) (PriceRecord.scraped_at r)
           else acc
       | None =>
           PyDict.set acc (PriceRecord.platform r) (PriceRecord.scraped_at r)
       end)
    rows PyDict.empty.

(** The join condition: the row is the newest of its platform. *)
Definition joins (subquery : PyDict.t Z) (r : PriceRecord.t) : bool :=
  existsb
    (fun pl => String.eqb (PriceRecord.platform r) (fst pl)
               && (PriceRecord.scraped_at r =? snd pl)%Z)
    (PyDict.items subquery).

(** [ORDER BY price]: [y] goes before [x] when it is cheaper. *)
Definition cheaper_first (y x : PriceRecord.t) : bool :=
  PyNum.ltb (PriceRecord.price y) (PriceRecord.price x).

(** [PriceService.get_best_price] *)
Definition get_best_price (d : db) (inventory_item_id : Z) : option PriceRecord.t :=
  let subquery :=
    latest_per_platform
      (filter (fun r => opt_Z_eqb (PriceRecord.inventory_item_id r) inventory_item_id)
              (price_records d)) in
  let rows :=
    filter (fun r => joins subquery r
                     && opt_Z_eqb (PriceRecord.inventory_item_id r) inventory_item_id
                     && PriceRecord.in_stock r)
           (price_records d) in
  hd_error (PySort.sort cheaper_first rows).

End PriceStore.

(** ** What the price store is asked for *)

Module PriceQuery.
Import PriceService.

(** A row that [get_best_price] may return: a row of the item, in stock,
    with no newer row of the item on the same platform. *)
Definition eligible (d : db) (inventory_item_id : Z) (r : PriceRecord.t) : Prop :=
  In r (price_records d)
  /\ PriceRecord.inventory_item_id r = Some inventory_item_id
  /\ PriceRecord.in_stock r = true
  /\ forall r', In r' (price_records d) ->
                PriceRecord.inventory_item_id r' = Some inventory_item_id ->
                PriceRecord.platform r' = PriceRecord.platform r ->
                (PriceRecord.scraped_at r' <= PriceRecord.scraped_at r)%Z.

(** A row that [get_price_history] returns. *)
Definition in_history (d : db) (now inventory_item_id : Z)
    (platform : option string) (days : Z) (r : PriceRecord.t) : Prop :=
  In r (price_records d)
  /\ PriceRecord.inventory_item_id r = Some inventory_item_id
  /\ (now - seconds_of_days days <= PriceRecord.scraped_at r)%Z
  /\ match platform with
     | Some p => p = EmptyString \/ PriceRecord.platform r = p
     | None => True
     end.

(** The same as a test on one row. *)
Definition wanted (now inventory_item_id : Z) (platform : option string)
    (days : Z) (r : PriceRecord.t) : bool :=
  in_window inventory_item_id (now - seconds_of_days days) r
  && match platform with
     | Some p => if PyStr.truthy_opt (Some p)
                 then String.eqb (PriceRecord.platform r) p
                 else true
     | None => true
     end.
End PriceQuery.

Module Grouping.

(** What [latest_per_platform] has gathered from the rows seen so far: for
    every platform seen, the time of its newest row. *)
Definition grouped (acc : PyDict.t Z) (seen : list PriceRecord.t) : Prop :=
  NoDup (PyDict.keys acc)
  /\ forall p,
       match PyDict.get acc p with
       | Some t =>
           (exists r, In r seen /\ PriceRecord.platform r = p
                      /\ PriceRecord.scraped_at r = t)
           /\ (forall r, In r seen -> PriceRecord.platform r = p ->
                         (PriceRecord.scraped_at r <= t)%Z)
       | None => forall r, In r seen -> PriceRecord.platform r <> p
       end.
End Grouping.

(** ** Reading a directly checked page *)

Module DirectCheck.
Import WatchlistService.

(** The entry the loop over [platform_products] leaves for a known page. *)
Definition direct_entry (check_specific_url : string -> py url_result)
    (url : string) : Status.t :=
  match check_specific_url url with
  | Ret r =>
      Status.mk (ur_in_stock r) (ur_price r) None (Some url) (ur_title r)
        (if PyStr.truthy_opt (ur_error r) then ur_error r else None) None true
  | Raise e =>
      Status.mk false None None (Some url) None (Some (str_of_exn e)) None false
  end.

(** A page the loop checks: a dictionary with a non-empty ["url"] that is
    not marked as a search page. *)
Definition checked_page (item : WatchlistItem.t) (platform url : string) : Prop :=
  In (platform, ProductInfo.InfoDict (Some url) false)
     (WatchlistItem.platform_products item)
  /\ url <> EmptyString.
End DirectCheck.

(** ** The alert table *)

Module AlertInbox.

(** A row of [watchlist_alerts]: the alert with its key, its read flag and
    the time it was created. *)
Record row : Type := mk_row {
  alert_id : Z;
  is_read : bool;
  created_at : Z;
  alert : WatchlistAlert.t
}.

(** [ORDER BY created_at DESC] *)
Definition newest_first (y x : row) : bool := (created_at x <? created_at y)%Z.

(** [WatchlistService.get_unread_alerts] *)
Definition get_unread_alerts (table : list row) : list row :=
  PySort.sort newest_first (filter (fun r => negb (is_read r)) table).

(** [result.scalar_one_or_none()]: more than one row raises. *)
Definition scalar_one_or_none {A : Type} (rows : list A) : py (option A) :=
  match rows with
  | [] => Ret None
  | [r] => Ret (Some r)
  | _ :: _ :: _ => Raise (OtherError "MultipleResultsFound")
  end.

Definition read (r : row) : row :=
  mk_row (alert_id r) true (created_at r) (alert r).

(** [WatchlistService.mark_alert_read] *)
Definition mark_alert_read (table : list row) (id : Z) : py (list row) :=
  match scalar_one_or_none (filter (fun r => (alert_id r =? id)%Z) table) with
  | Raise e => Raise e
  | Ret None => Ret table
  | Ret (Some _) =>
      Ret (map (fun r => if (alert_id r =? id)%Z then read r else r) table)
  end.
End AlertInbox.

(** ** Shopping lists *)

Module ShoppingListItem.

(** One entry of the [alternatives] column; [alt_price] is [None] when the
    entry has no ["price"] key. *)
Record alternative : Type := mk_alternative {
  alt_platform : string;
  alt_price : option Q;
  alt_product_id : string;
  alt_url : string;
  alt_name : string
}.

(** [models.shopping.ShoppingListItem]; [product_name] is taken to be set,
    as the search it is handed to takes a [str]. *)
Record t : Type := mk {
  id : Z;
  inventory_item_id : option Z;
  product_name : string;
  quantity_needed : option Q;
  selected_platform : option string;
  selected_product_id : option string;
  selected_price : option Q;
  selected_url : option string;
  alternatives : list alternative;
  is_purchased : Z
}.

(** [price * quantity_needed]; a quantity of [None] raises. *)
Definition times (price : Q) (quantity : option Q) : py Q :=
  match quantity with
  | Some q => Ret (PyFloat.mul price q)
  | None => Raise (OtherError "TypeError")
  end.

End ShoppingListItem.

Module ShoppingList.
(** [models.shopping.ShoppingList] as the session holds it.  [items] is the
    relationship: [None] while it has not been loaded, which is how a plain
    [select] of the list leaves it. *)
Record t : Type := mk {
  id : Z;
  status : string;
  total_estimated_cost : option Q;
  items : option (list ShoppingListItem.t)
}.

(** Reading [shopping_list.items]: a relationship that is not loaded asks
    the database, which the asynchronous session refuses here. *)
Definition read_items (l : t) : py (list ShoppingListItem.t) :=
  match items l with
  | Some loaded => Ret loaded
  | None => Raise (OtherError "MissingGreenlet")
  end.
End ShoppingList.

Module ShoppingService.

(** One entry of [by_platform]. *)
Record group : Type := mk_group {
  g_items : list ShoppingListItem.t;
  g_subtotal : Q
}.

(** [item.selected_platform or "unassigned"] *)
Definition platform_of (item : ShoppingListItem.t) : string :=
  match ShoppingListItem.selected_platform item with
  | Some p => if PyStr.truthy_opt (Some p) then p else "unassigned"
  | None => "unassigned"
  end.

(** [by_platform[platform]], a key that was just put there if missing. *)
Definition group_of (by_platform : PyDict.t group) (platform : string) : group :=
  match PyDict.get by_platform platform with
  | Some g => g
  | None => mk_group [] 0
  end.

(** The body of the grouping loop of [get_list_summary]. *)
Definition add_to_group (by_platform : PyDict.t group)
    (item : ShoppingListItem.t) : py (PyDict.t group) :=
  let platform := platform_of item in
  let by_platform :=
    match PyDict.get by_platform platform with
    | None => PyDict.set by_platform platform (mk_group [] 0)
    | Some _ => by_platform
    end in
  let g := group_of by_platform platform in
  let by_platform :=
    PyDict.set by_platform platform (mk_group (g_items g ++ [item]) (g_subtotal g)) in
  match ShoppingListItem.selected_price item with
  | Some price =>
      if PyNum.truthy price then
        match ShoppingListItem.times price
                (ShoppingListItem.quantity_needed item) with
        | Ret x =>
            let g := group_of by_platform platform in
            Ret (PyDict.set by_platform platform
                   (mk_group (g_items g) (PyFloat.add (g_subtotal g) x)))
        | Raise e => Raise e
        end
      else Ret by_platform
  | None => Ret by_platform
  end.

Fixpoint group_items (by_platform : PyDict.t group)
    (items : list ShoppingListItem.t) : py (PyDict.t group) :=
  match items with
  | [] => Ret by_platform
  | item :: rest =>
      match add_to_group by_platform item with
      | Ret by_platform' => group_items by_platform' rest
      | Raise e => Raise e
      end
  end.

(** The dictionary [get_list_summary] returns, without the list itself. *)
Record summary : Type := mk_summary {
  s_item_count : Z;
  s_total_estimated : option Q;
  s_by_platform : PyDict.t group;
  s_purchased_count : Z
}.

(** [ShoppingService.get_list_summary], on the list [get_shopping_list]
    found; [None] is the empty dictionary. *)
Definition get_list_summary (shopping_list : option ShoppingList.t)
    : py (option summary) :=
  match shopping_list with
  | Some l =>
      match ShoppingList.read_items l with
      | Ret items =>
          match group_items PyDict.empty items with
          | Ret by_platform =>
              Ret (Some (mk_summary
                           (Z.of_nat (List.length items))
                           (ShoppingList.total_estimated_cost l)
                           by_platform
                           (Z.of_nat
                              (List.length
                                 (filter (fun i =>
                                            negb (ShoppingListItem.is_purchased i
                                                  =? 0)%Z)
                                         items)))))
          | Raise e => Raise e
          end
      | Raise e => Raise e
      end
  | None => Ret None
  end.

(** The dictionary stored for one alternative. *)
Definition alternative_of (c : PriceService.comparison)
    : ShoppingListItem.alternative :=
  ShoppingListItem.mk_alternative
    (PriceService.c_platform c) (Some (PriceService.c_price c))
    (Product.product_id (PriceService.c_product c))
    (Product.url (PriceService.c_product c))
    (Product.name (PriceService.c_product c)).

(** [comparisons[1:5]] *)
Definition slice_1_5 {A : Type} (l : list A) : list A := firstn 4 (skipn 1 l).

(** The body of the loop of [find_best_prices_for_list]. *)
Definition find_best_price (adapters : PyDict.t PlatformAdapter.t)
    (item : ShoppingListItem.t) : ShoppingListItem.t :=
  let comparisons :=
    PriceService.compare_prices adapters (ShoppingListItem.product_name item) 5 in
  match comparisons with
  | best :: _ =>
      ShoppingListItem.mk
        (ShoppingListItem.id item) (ShoppingListItem.inventory_item_id item)
        (ShoppingListItem.product_name item) (ShoppingListItem.quantity_needed item)
        (Some (PriceService.c_platform best))
        (Some (Product.product_id (PriceService.c_product best)))
        (Some (PriceService.c_price best))
        (Some (Product.url (PriceService.c_product best)))
        (map alternative_of (slice_1_5 comparisons))
        (ShoppingListItem.is_purchased item)
  | [] => item
  end.

(** The rank [compare_prices] sorts a listing by. *)
Definition rank (p : Product.t) : Q :=
  match Product.unit_price p with
  | Some u => if PyNum.truthy u then u else Product.price p
  | None => Product.price p
  end.
End ShoppingService.

(** What the summary of a shopping list is expected to show. *)
Module ShoppingSpec.
(** An item that has a selected price, not zero. *)
Definition priced (i : ShoppingListItem.t) : bool :=
  PyNum.truthy_opt (ShoppingListItem.selected_price i).

(** The items of a list that go to one platform, in the order of the list. *)
Definition assigned (platform : string) (items : list ShoppingListItem.t)
    : list ShoppingListItem.t :=
  filter (fun i => String.eqb (ShoppingService.platform_of i) platform) items.

(** One step of a running subtotal: a priced item adds its price times its
    quantity, the other items add nothing. *)
Definition add_item (acc : Q) (i : ShoppingListItem.t) : Q :=
  match ShoppingListItem.selected_price i, ShoppingListItem.quantity_needed i with
  | Some p, Some q => if PyNum.truthy p then PyFloat.add acc (PyFloat.mul p q) else acc
  | _, _ => acc
  end.

(** The subtotal of some items, added up in their order from [0]. *)
Definition subtotal (items : list ShoppingListItem.t) : Q :=
  fold_left add_item items 0.
End ShoppingSpec.

(** ** Setting up the watchlist *)

Module WatchlistSetup.

(** One entry of [FOODGUARD_PRODUCTS], as far as [WatchlistItem.t] keeps it;
    [p_notify_on_restock] is [None] where the entry leaves the key out. *)
Record product : Type := mk_product {
  p_name : string;
  p_brand : string;
  p_search_keywords : list string;
  p_target_platforms : list string;
  p_platform_products : PyDict.t ProductInfo.t;
  p_weekly_target_qty : Z;
  p_max_price : option Q;
  p_notify_on_restock : option bool
}.

Section Setup.
(** The registry [ADAPTERS] and the key the database gives a new row. *)
Variable ADAPTERS : PyDict.t PlatformAdapter.t.
Variable next_id : list WatchlistItem.t -> Z.

(** [WatchlistService.add_item], called with the keys of one entry: the row
    as [refresh] returns it. *)
Definition add_item (table : list WatchlistItem.t) (p : product) : WatchlistItem.t :=
  WatchlistItem.mk (next_id table) (p_name p) (Some (p_brand p))
    (WatchlistService.or_list (p_search_keywords p) [p_name p; p_brand p])
    (WatchlistService.or_list (p_target_platforms p) (PyDict.keys ADAPTERS))
    (p_platform_products p)
    (p_weekly_target_qty p) (p_max_price p)
    true None None (Some PyDict.empty)
    (match p_notify_on_restock p with Some b => b | None => true end)
    true (PyFloat.of_decimal (1 # 10)).

(** The [WHERE] clause of the look-up: brand and name both equal. *)
Definition same_product (p : product) (row : WatchlistItem.t) : bool :=
  match WatchlistItem.brand row with
  | Some b => String.eqb b (p_brand p)
  | None => false
  end
  && String.eqb (WatchlistItem.name row) (p_name p).

(** [init_foodguard_watchlist] over a list of entries: the items it returns
    and the table it leaves. *)
Fixpoint init_foodguard_watchlist (products : list product)
    (table : list WatchlistItem.t)
    : py (list WatchlistItem.t * list WatchlistItem.t) :=
  match products with
  | [] => Ret ([], table)
  | p :: rest =>
      match AlertInbox.scalar_one_or_none (filter (same_product p) table) with
      | Raise e => Raise e
      | Ret (Some existing) =>
          match init_foodguard_watchlist rest table with
          | Ret (items, table') => Ret (existing :: items, table')
          | Raise e => Raise e
          end
      | Ret None =>
          let item := add_item table p in
          match init_foodguard_watchlist rest (table ++ [item]) with
          | Ret (items, table') => Ret (item :: items, table')
          | Raise e => Raise e
          end
      end
  end.
End Setup.
End WatchlistSetup.

(** ** More sample data *)

Module Fixtures.
Local Open Scope string_scope.

(** Platform "A" was in stock at 10 and is now out of stock at 8; platform
    "B" is in stock at 12. *)
Definition a_sold_out : PriceService.db :=
  PriceService.mk_db [Samples.milk]
    [ Samples.entry "A" 10 1;
      PriceRecord.mk (Some 1%Z) "A" None 8 false (2 * Samples.day);
      Samples.entry "B" 12 1 ].

(** The watched product with a best deal of 12 on "a" on record. *)
Definition best_on_record : WatchlistItem.t :=
  WatchlistItem.mk 7 "Sardines" (Some "Nuri") ["nuri"; "sardines"] ["a"] []
    2 None true (Some 12) (Some "a") (Some [("a", Samples.stock true (Some 12))])
    true true (PyFloat.of_decimal (1 # 10)).

(** A page check that finds the product in stock at 11. *)
Definition page_in_stock (url : string) : py WatchlistService.url_result :=
  Ret (WatchlistService.mk_url_result true (Some 11) (Some "Nuri Sardines") None).

(** The watched product with one known product page and one search page. *)
Definition with_known_pages : WatchlistItem.t :=
  WatchlistItem.mk 9 "Sardines" (Some "Nuri") ["nuri"; "sardines"] ["a"]
    [ ("fossa", ProductInfo.InfoDict (Some "https://fossa.example/nuri") false);
      ("amazon_sg", ProductInfo.InfoDict (Some "https://amazon.example/s?k=nuri") true) ]
    2 None true None None None true true (PyFloat.of_decimal (1 # 10)).

(** Three alerts, the oldest already read. *)
Definition inbox : list AlertInbox.row :=
  [ AlertInbox.mk_row 1 true 10 (WatchlistAlert.mk 7 "restock" "a" None (Some 8));
    AlertInbox.mk_row 2 false 20 (WatchlistAlert.mk 7 "price_drop" "a" (Some 10) (Some 8));
    AlertInbox.mk_row 3 false 30 (WatchlistAlert.mk 7 "restock" "b" None (Some 9)) ].

(** A list of three items: two on one platform, one with no offer yet. *)
Definition basket_items : list ShoppingListItem.t :=
  [ ShoppingListItem.mk 1 None "milk" (Some 2) (Some "fairprice") (Some "m1")
      (Some 3) None [] 0;
    ShoppingListItem.mk 2 None "salt" (Some 1) None None None None [] 0;
    ShoppingListItem.mk 3 None "rice" (Some 1) (Some "fairprice") (Some "r1")
      (Some (5 # 2)) None [] 1 ].

(** The list with its items loaded, and as a plain [select] leaves it. *)
Definition basket : ShoppingList.t :=
  ShoppingList.mk 1 "draft" None (Some basket_items).

Definition basket_selected : ShoppingList.t :=
  ShoppingList.mk 1 "draft" None None.

(** An item of a shopping list that no offer has been chosen for. *)
Definition milk_wanted : ShoppingListItem.t :=
  ShoppingListItem.mk 1 None "milk" (Some 2) None None None None [] 0.

(** Two entries; the table already holds a row for the first. *)
Definition entries : list WatchlistSetup.product :=
  [ WatchlistSetup.mk_product "Spiced Sardines" "Nuri" [] ["a"] [] 2 (Some 15) None;
    WatchlistSetup.mk_product "Small Mackerel" "Jose Gourmet" ["Small Mackerel"] []
      [] 2 None (Some false) ].

Definition one_row : list WatchlistItem.t :=
  [ WatchlistItem.mk 1 "Spiced Sardines" (Some "Nuri") ["Nuri"] ["a"] [] 2
      (Some 15) true None None None true true (PyFloat.of_decimal (1 # 10)) ].

Definition after_last (table : list WatchlistItem.t) : Z :=
  fold_right (fun row acc => Z.max (WatchlistItem.id row) acc) 0%Z table + 1.
End Fixtures.

(** * Properties *)

Local Open Scope string_scope.
Local Open Scope list_scope.
Local Open Scope Q_scope.

(** ** Floats *)

Section FloatFacts.

Lemma round_zero (x : Q) : x == 0 -> PyFloat.round x = 0.
Proof.
  intros H. unfold PyFloat.round. apply Qeq_bool_iff in H. now rewrite H.
Qed.

Lemma sub_self (q : Q) : PyFloat.sub q q = 0.
Proof. apply round_zero. ring. Qed.

Lemma div_zero (q : Q) : PyFloat.div 0 q = 0.
Proof. apply round_zero. unfold Qdiv. ring. Qed.
End FloatFacts.

(** Rounding decides at the boundary.  A price going from 2 to 1.8 has
    dropped by a tenth, and the drop the code computes is the float just
    below [0.1]; from 3 to 2.7 the change it computes is just above -10
    percent; from 6.3 to 5.67 it is -10 percent exactly. *)
Lemma rounding_at_the_boundary :
  WatchlistService.price_change 2 (PyFloat.of_decimal (18 # 10))
    < PyFloat.of_decimal (1 # 10)
  /\ - (10) < PriceService.change_percent (PyFloat.of_decimal (27 # 10)) 3
  /\ PriceService.change_percent (PyFloat.of_decimal (567 # 100))
       (PyFloat.of_decimal (63 # 10)) == - (10).
Proof. repeat split; vm_compute; reflexivity. Qed.

(** ** Lists of characters *)

Section CharFacts.
Import PyStr.

Lemma take_while_app (p : ascii -> bool) (a r : chars) :
  forallb p a = true -> head_fails p r -> take_while p (a ++ r) = a.
Proof.
  induction a as [|c a IH]; simpl; intros Ha Hr.
  - destruct r as [|c r]; simpl in *; [reflexivity | now rewrite Hr].
  - apply andb_true_iff in Ha as [Hc Ha]. rewrite Hc. f_equal. now apply IH.
Qed.

Lemma drop_while_app (p : ascii -> bool) (a r : chars) :
  forallb p a = true -> head_fails p r -> drop_while p (a ++ r) = r.
Proof.
  induction a as [|c a IH]; simpl; intros Ha Hr.
  - destruct r as [|c r]; simpl in *; [reflexivity | now rewrite Hr].
  - apply andb_true_iff in Ha as [Hc Ha]. rewrite Hc. now apply IH.
Qed.

Lemma take_drop_while (p : ascii -> bool) (s : chars) :
  s = take_while p s ++ drop_while p s.
Proof.
  induction s as [|c s IH]; simpl; [reflexivity|].
  destruct (p c); simpl; [now f_equal | reflexivity].
Qed.

Lemma take_while_all (p : ascii -> bool) (s : chars) :
  forallb p (take_while p s) = true.
Proof.
  induction s as [|c s IH]; simpl; [reflexivity|].
  destruct (p c) eqn:E; simpl; [now rewrite E | reflexivity].
Qed.

Lemma drop_while_head (p : ascii -> bool) (s : chars) :
  head_fails p (drop_while p s).
Proof.
  induction s as [|c s IH]; simpl; [exact I|].
  destruct (p c) eqn:E; simpl; [exact IH | exact E].
Qed.

Lemma strip_prefix_app (u rest : chars) : strip_prefix u (u ++ rest) = Some rest.
Proof.
  induction u as [|c u IH]; simpl; [reflexivity|].
  now rewrite Ascii.eqb_refl.
Qed.

Lemma strip_prefix_inv (u s rest : chars) :
  strip_prefix u s = Some rest -> s = u ++ rest.
Proof.
  revert s. induction u as [|c u IH]; simpl; intros s H.
  - now inversion H.
  - destruct s as [|d s]; [discriminate|].
    destruct (Ascii.eqb c d) eqn:E; [|discriminate].
    apply Ascii.eqb_eq in E. subst d. f_equal. now apply IH.
Qed.

Lemma startswith_inv (s u : chars) :
  startswith s u = true -> exists rest, s = u ++ rest.
Proof.
  unfold startswith. destruct (strip_prefix u s) as [rest|] eqn:E; [|discriminate].
  intros _. exists rest. now apply strip_prefix_inv.
Qed.

Lemma startswith_nil (s : chars) : startswith s [] = true.
Proof. reflexivity. Qed.

Lemma contains_nil (hay : chars) : contains [] hay = true.
Proof. destruct hay; reflexivity. Qed.

Lemma eqb_chars_eq (a b : chars) : eqb_chars a b = true <-> a = b.
Proof.
  revert b. induction a as [|x a IH]; destruct b as [|y b]; simpl;
    try (split; [discriminate | congruence]); [tauto|].
  rewrite andb_true_iff, Ascii.eqb_eq, IH. split.
  - intros [-> ->]. reflexivity.
  - intros H. inversion H. auto.
Qed.
End CharFacts.

(** ** The matcher finds exactly the texts of the pattern's shape *)

Section PatternFacts.
Import PyStr SizePattern SizeSpec.
Local Open Scope char_scope.

Lemma unit_head (u : chars) :
  In u units_with_each ->
  exists c t, u = c :: t /\ is_digit c = false /\ is_space c = false
              /\ c <> ".".
Proof.
  simpl. intros H.
  repeat (destruct H as [<- | H];
          [eexists; eexists; repeat split; try reflexivity; discriminate|]).
  destruct H.
Qed.

Lemma units_without_each_incl (u : chars) :
  In u units_without_each -> In u units_with_each.
Proof. simpl. intuition. Qed.

Lemma first_alternative_inv (alts : list chars) (s u : chars) :
  first_alternative alts s = Some u ->
  In u alts /\ exists rest, s = u ++ rest.
Proof.
  induction alts as [|a alts IH]; simpl; [discriminate|].
  destruct (startswith s a) eqn:E.
  - intros H. inversion H. subst a. split; [now left | now apply startswith_inv].
  - intros H. destruct (IH H) as [Hin Hrest]. split; [now right | exact Hrest].
Qed.

(** The unit the matcher picks is the written one, up to a plural [s]. *)
Lemma first_alternative_with_each (u rest : chars) :
  In u units_with_each ->
  exists u', first_alternative units_with_each (u ++ rest) = Some u'
             /\ In u' units_with_each /\ per_base u' = per_base u.
Proof.
  simpl. intros H.
  repeat (destruct H as [<- | H];
          [ try (eexists; split; [reflexivity | split; [simpl; tauto | reflexivity]])
          | ]); try destruct H.
  - destruct rest as [|c rest].
    + eexists; split; [reflexivity | split; [simpl; tauto | reflexivity]].
    + destruct c as [[] [] [] [] [] [] [] []];
        eexists; (split; [reflexivity | split; [simpl; tauto | reflexivity]]).
  - destruct rest as [|c rest].
    + eexists; split; [reflexivity | split; [simpl; tauto | reflexivity]].
    + destruct c as [[] [] [] [] [] [] [] []];
        eexists; (split; [reflexivity | split; [simpl; tauto | reflexivity]]).
Qed.

Lemma after_numeral_head (ws unit rest : chars) :
  forallb is_space ws = true -> In unit units_with_each ->
  head_fails is_digit (ws ++ unit ++ rest)
  /\ (forall r', ws ++ unit ++ rest <> "." :: r').
Proof.
  intros Hws Hu. destruct (unit_head unit Hu) as (c & t & -> & Hd & Hs & Hdot).
  destruct ws as [|w ws]; simpl in *.
  - split; [exact Hd | intros r' H; inversion H; contradiction].
  - apply andb_true_iff in Hws as [Hw _]. split.
    + revert Hw. generalize w. intros a.
      destruct a as [[] [] [] [] [] [] [] []]; vm_compute; congruence.
    + intros r' H. inversion H. subst w. discriminate.
Qed.

Lemma match_numeral_shape (text ip : chars) (fp : option chars) (ws unit rest : chars) :
  shape units_with_each text ip fp ws unit rest ->
  match_numeral text = Some (ip ++ frac_text fp, ws ++ unit ++ rest).
Proof.
  intros [Ht [Hne Hip] Hfp Hws Hu]. subst text.
  destruct (after_numeral_head ws unit rest Hws Hu) as [Hhd Hdot].
  unfold match_numeral. destruct fp as [f|]; simpl frac_text.
  - destruct Hfp as [Hfne Hf].
    assert (Hpt : head_fails is_digit (("." :: f) ++ ws ++ unit ++ rest))
      by reflexivity.
    rewrite (take_while_app is_digit ip _ Hip Hpt).
    rewrite (drop_while_app is_digit ip _ Hip Hpt).
    destruct ip as [|i ip]; [contradiction|].
    change (("." :: f) ++ ws ++ unit ++ rest) with ("." :: (f ++ ws ++ unit ++ rest)).
    cbv beta iota zeta.
    rewrite (take_while_app is_digit f _ Hf Hhd).
    rewrite (drop_while_app is_digit f _ Hf Hhd).
    destruct f as [|d f]; [contradiction|]. reflexivity.
  - change ([] ++ ws ++ unit ++ rest) with (ws ++ unit ++ rest).
    rewrite (take_while_app is_digit ip _ Hip Hhd).
    rewrite (drop_while_app is_digit ip _ Hip Hhd).
    destruct ip as [|i ip]; [contradiction|].
    rewrite app_nil_r.
    destruct (ws ++ unit ++ rest) as [|c r] eqn:E; [reflexivity|].
    destruct (Ascii.eqb c ".") eqn:Ec.
    + apply Ascii.eqb_eq in Ec. subst c. exfalso. now apply (Hdot r).
    + destruct c as [[] [] [] [] [] [] [] []]; try reflexivity. discriminate.
Qed.

Lemma float_of_shape (ip : chars) (fp : option chars) :
  forallb is_digit ip = true ->
  float_of (ip ++ frac_text fp) = quantity ip fp.
Proof.
  intros Hip. unfold float_of, quantity. destruct fp as [f|]; simpl.
  - assert (Hpt : head_fails is_digit ("." :: f)) by reflexivity.
    rewrite (take_while_app is_digit ip _ Hip Hpt).
    rewrite (drop_while_app is_digit ip _ Hip Hpt). reflexivity.
  - rewrite (take_while_app is_digit ip [] Hip I).
    rewrite (drop_while_app is_digit ip [] Hip I). reflexivity.
Qed.

Lemma re_match_shape (text ip : chars) (fp : option chars) (ws unit rest : chars) :
  shape units_with_each text ip fp ws unit rest ->
  exists u', re_match units_with_each text = Some (ip ++ frac_text fp, u')
             /\ In u' units_with_each /\ per_base u' = per_base unit.
Proof.
  intros Hs. unfold re_match. rewrite (match_numeral_shape _ _ _ _ _ _ Hs).
  destruct Hs as [_ _ _ Hws Hu].
  destruct (unit_head unit Hu) as (c & t & E & _ & Hsp & _).
  rewrite drop_while_app; [| assumption | rewrite E; exact Hsp].
  destruct (first_alternative_with_each unit rest Hu) as (u' & -> & Hin & Hpb).
  exists u'. auto.
Qed.

Lemma match_numeral_inv (text num r : chars) :
  match_numeral text = Some (num, r) ->
  exists ip fp, num = ip ++ frac_text fp /\ text = num ++ r
                /\ (ip <> [] /\ forallb is_digit ip = true)
                /\ match fp with
                   | Some f => f <> [] /\ forallb is_digit f = true
                   | None => True
                   end.
Proof.
  unfold match_numeral.
  pose proof (take_drop_while is_digit text) as Hsplit.
  pose proof (take_while_all is_digit text) as Hall.
  destruct (take_while is_digit text) as [|i ip] eqn:Eip; [discriminate|].
  destruct (drop_while is_digit text) as [|c r0] eqn:Er.
  - intros H. inversion H. subst. exists (i :: ip), None. simpl.
    rewrite !app_nil_r. repeat split; try assumption; discriminate.
  - destruct (Ascii.eqb c ".") eqn:Ec.
    + apply Ascii.eqb_eq in Ec. subst c.
      pose proof (take_drop_while is_digit r0) as Hsplit2.
      pose proof (take_while_all is_digit r0) as Hall2.
      destruct (take_while is_digit r0) as [|d f] eqn:Ef.
      * intros H. inversion H. subst. exists (i :: ip), None. simpl.
        rewrite app_nil_r. repeat split; try assumption; discriminate.
      * intros H. inversion H. subst num r. exists (i :: ip), (Some (d :: f)).
        simpl frac_text. repeat split; try assumption; try discriminate.
        rewrite Hsplit. simpl. f_equal. rewrite <- app_assoc. simpl.
        do 2 f_equal. exact Hsplit2.
    + assert (Hgoal : Some (i :: ip, c :: r0) = Some (num, r) ->
                      exists ip0 fp, num = ip0 ++ frac_text fp /\ text = num ++ r
                        /\ (ip0 <> [] /\ forallb is_digit ip0 = true)
                        /\ match fp with
                           | Some f => f <> [] /\ forallb is_digit f = true
                           | None => True
                           end).
      { intros H. inversion H. subst. exists (i :: ip), None. simpl.
        rewrite app_nil_r. repeat split; try assumption; discriminate. }
      destruct c as [[] [] [] [] [] [] [] []]; try exact Hgoal. discriminate.
Qed.

Lemma drop_while_space_split (r : chars) :
  exists ws, r = ws ++ drop_while is_space r /\ forallb is_space ws = true.
Proof.
  exists (take_while is_space r). split;
    [apply take_drop_while | apply take_while_all].
Qed.

Lemma re_match_inv (alts : list chars) (text num u : chars) :
  re_match alts text = Some (num, u) ->
  exists ip fp ws rest, num = ip ++ frac_text fp /\ shape alts text ip fp ws u rest.
Proof.
  unfold re_match. destruct (match_numeral text) as [[n r]|] eqn:En; [|discriminate].
  destruct (first_alternative alts (drop_while is_space r)) as [u0|] eqn:Eu;
    [|discriminate].
  intros H. inversion H. subst n u0. clear H.
  destruct (match_numeral_inv _ _ _ En) as (ip & fp & Hnum & Htext & Hip & Hfp).
  destruct (first_alternative_inv _ _ _ Eu) as [Hin [rest Hrest]].
  destruct (drop_while_space_split r) as (ws & Hr & Hws).
  exists ip, fp, ws, rest. split; [exact Hnum|].
  constructor; try assumption.
  rewrite Htext, Hnum, Hr, Hrest, <- app_assoc. reflexivity.
Qed.
End PatternFacts.

(** ** The unit-price normaliser *)

Section NormaliserFacts.
Import PyStr SizePattern SizeSpec FairPriceAdapter.
Local Open Scope char_scope.

Lemma truediv_nonzero (a b : Q) :
  Qeq_bool b 0 = false -> PyNum.truediv a b = Ret (PyFloat.div a b).
Proof. unfold PyNum.truediv. now intros ->. Qed.

(** What the code returns once the pattern has matched. *)
Lemma calculate_of_match (price : Q) (size_str : string) (num u : chars) :
  re_match units_with_each (normal size_str) = Some (num, u) ->
  In u units_with_each ->
  _calculate_unit_price price size_str =
    if Qeq_bool (float_of num) 0 then Ret None
    else Ret (Some (unit_price price u (float_of num))).
Proof.
  intros Hm Hu. unfold unit_price, _calculate_unit_price. fold (normal size_str). rewrite Hm.
  destruct (Qeq_bool (float_of num) 0) eqn:Ez; [reflexivity|].
  simpl in Hu.
  repeat (destruct Hu as [<- | Hu];
          [ simpl; rewrite (truediv_nonzero _ _ Ez); reflexivity | ]).
  destruct Hu.
Qed.

Lemma calculate_total (price : Q) (size_str : string) :
  exists r, _calculate_unit_price price size_str = Ret r.
Proof.
  destruct (re_match units_with_each (normal size_str)) as [[num u]|] eqn:Hm.
  - destruct (re_match_inv _ _ _ _ Hm) as (ip & fp & ws & rest & _ & Hs).
    rewrite (calculate_of_match _ _ _ _ Hm (shape_unit _ _ _ _ _ _ _ Hs)).
    destruct (Qeq_bool (float_of num) 0); eexists; reflexivity.
  - exists None. unfold _calculate_unit_price. fold (normal size_str).
    now rewrite Hm.
Qed.

Lemma calculate_of_shape (price : Q) (size_str : string)
    (ip : chars) (fp : option chars) (ws unit rest : chars) :
  shape units_with_each (normal size_str) ip fp ws unit rest ->
  _calculate_unit_price price size_str =
    if Qeq_bool (quantity ip fp) 0 then Ret None
    else Ret (Some (unit_price price unit (quantity ip fp))).
Proof.
  intros Hs. destruct (re_match_shape _ _ _ _ _ _ Hs) as (u' & Hm & Hin & Hpb).
  rewrite (calculate_of_match _ _ _ _ Hm Hin).
  rewrite (float_of_shape ip fp (proj2 (shape_ip _ _ _ _ _ _ _ Hs))).
  destruct (Qeq_bool (quantity ip fp) 0); [reflexivity|].
  unfold per_base in Hpb. unfold unit_price.
  destruct (eqb_chars u' ["g"] || eqb_chars u' ["m"; "l"]),
           (eqb_chars unit ["g"] || eqb_chars unit ["m"; "l"]);
    try reflexivity; discriminate.
Qed.

Lemma calculate_no_shape (price : Q) (size_str : string) :
  (forall ip fp ws unit rest,
      ~ shape units_with_each (normal size_str) ip fp ws unit rest) ->
  _calculate_unit_price price size_str = Ret None.
Proof.
  intros Hno. unfold _calculate_unit_price. fold (normal size_str).
  destruct (re_match units_with_each (normal size_str)) as [[num u]|] eqn:Hm;
    [|reflexivity].
  destruct (re_match_inv _ _ _ _ Hm) as (ip & fp & ws & rest & _ & Hs).
  exfalso. exact (Hno _ _ _ _ _ Hs).
Qed.

End NormaliserFacts.

(** X16.  For every price [p] and size text [s] the adapter's unit-price
    normaliser never raises.  When the lower-cased, stripped text has the
    shape of the pattern (digits, optional fraction, white space, one of
    the unit tokens, then anything at all) and the quantity, read as a
    float, is not zero, it returns the price of one written unit, times a
    thousand for grams and millilitres, every operation rounded; it returns
    none when that quantity is zero and when the text has no such shape.
    So [normalize(20, "500g") = 40], [normalize(10, "1kg") = 10] and
    [normalize(5, "abc") = none]. *)
Theorem calculate_unit_price_spec :
  (forall (p : Q) (s : string),
      exists r, FairPriceAdapter._calculate_unit_price p s = Ret r)
  /\ (forall (p : Q) (s : string) ip fp ws unit rest,
        SizeSpec.shape SizePattern.units_with_each (SizeSpec.normal s)
          ip fp ws unit rest ->
        ~ SizeSpec.quantity ip fp == 0 ->
        FairPriceAdapter._calculate_unit_price p s
        = Ret (Some (SizeSpec.unit_price p unit (SizeSpec.quantity ip fp))))
  /\ (forall (p : Q) (s : string) ip fp ws unit rest,
        SizeSpec.shape SizePattern.units_with_each (SizeSpec.normal s)
          ip fp ws unit rest ->
        SizeSpec.quantity ip fp == 0 ->
        FairPriceAdapter._calculate_unit_price p s = Ret None)
  /\ (forall (p : Q) (s : string),
        (forall ip fp ws unit rest,
            ~ SizeSpec.shape SizePattern.units_with_each (SizeSpec.normal s)
                ip fp ws unit rest) ->
        FairPriceAdapter._calculate_unit_price p s = Ret None)
  /\ FairPriceAdapter._calculate_unit_price 20 "500g" = Ret (Some 40)
  /\ FairPriceAdapter._calculate_unit_price 10 "1kg" = Ret (Some 10)
  /\ FairPriceAdapter._calculate_unit_price 5 "abc" = Ret None.
Proof.
  split; [exact calculate_total|].
  split.
  { intros p s ip fp ws unit rest Hs Hq.
    rewrite (calculate_of_shape p s _ _ _ _ _ Hs).
    destruct (Qeq_bool (SizeSpec.quantity ip fp) 0) eqn:Ez; [|reflexivity].
    apply Qeq_bool_iff in Ez. contradiction. }
  split.
  { intros p s ip fp ws unit rest Hs Hq.
    rewrite (calculate_of_shape p s _ _ _ _ _ Hs).
    apply Qeq_bool_iff in Hq. now rewrite Hq. }
  split; [exact calculate_no_shape|].
  split; [vm_compute; reflexivity|].
  split; [vm_compute; reflexivity|].
  vm_compute. reflexivity.
Qed.

Lemma calculate_unit_price_spec_witness :
  FairPriceAdapter._calculate_unit_price 3 "250 ml"
  = Ret (Some (SizeSpec.unit_price 3 ["m"; "l"]%char
                 (SizeSpec.quantity ["2"; "5"; "0"]%char None)))
  /\ FairPriceAdapter._calculate_unit_price 3 "0.0 g" = Ret None
  /\ FairPriceAdapter._calculate_unit_price 3 "kg" = Ret None.
Proof.
  destruct calculate_unit_price_spec as (_ & Hshape & Hzero & Hnone & _).
  split; [|split].
  - apply (Hshape 3 "250 ml"%string ["2"; "5"; "0"]%char None [" "]%char
             ["m"; "l"]%char []).
    + constructor;
        [ reflexivity | split; [discriminate | reflexivity] | exact I
        | reflexivity | simpl; tauto ].
    + intros H. vm_compute in H. discriminate H.
  - apply (Hzero 3 "0.0 g"%string ["0"]%char (Some ["0"]%char) [" "]%char
             ["g"]%char []).
    + constructor;
        [ reflexivity | split; [discriminate | reflexivity]
        | split; [discriminate | reflexivity] | reflexivity | simpl; tauto ].
    + vm_compute. reflexivity.
  - apply (Hnone 3 "kg"%string).
    intros ip fp ws unit rest [Ht [Hne Hip] _ _ _].
    destruct ip as [|c ip]; [contradiction|].
    change (SizeSpec.normal "kg") with ["k"; "g"]%char in Ht.
    simpl in Ht. inversion Ht. subst c. discriminate Hip.
Defined.

(** C6 (where the code departs from it).  A size text whose unit is not a
    recognised one still gets a unit price when the unit begins with the
    letters of a recognised token: the pattern is matched at the start of
    the text and nothing is asked of what follows the token.  Five dollars
    for ["2lb"] are read as two litres, one dollar for ["5 gallons"] as
    five grams, six dollars for ["3 large eggs"] as three litres; a text
    with an unknown unit that shares no such prefix gets none. *)
Theorem unit_price_of_unrecognised_unit :
  FairPriceAdapter._calculate_unit_price 5 "2lb" = Ret (Some (5 # 2))
  /\ FairPriceAdapter._calculate_unit_price 5 "2lb"
     = FairPriceAdapter._calculate_unit_price 5 "2l"
  /\ FairPriceAdapter._calculate_unit_price 1 "5 gallons" = Ret (Some 200)
  /\ FairPriceAdapter._calculate_unit_price 6 "3 large eggs" = Ret (Some 2)
  /\ FairPriceAdapter._calculate_unit_price 5 "2 oz" = Ret None.
Proof. repeat split; vm_compute; reflexivity. Qed.

(** ** The stable sort *)

Section SortFacts.
Context {A : Type} (before : A -> A -> bool).

Lemma insert_perm (x : A) (l : list A) :
  Permutation (PySort.insert before x l) (x :: l).
Proof.
  induction l as [|y l IH]; simpl; [apply Permutation_refl|].
  destruct (before y x).
  - eapply Permutation_trans; [apply perm_skip, IH | apply perm_swap].
  - apply Permutation_refl.
Qed.

Lemma sort_perm (l : list A) : Permutation (PySort.sort before l) l.
Proof.
  induction l as [|x l IH]; simpl; [constructor|].
  eapply Permutation_trans; [apply insert_perm | now apply perm_skip].
Qed.

Hypothesis before_asym : forall a b, before a b = true -> before b a = false.
Hypothesis not_before_trans :
  forall a b c, before b a = false -> before c b = false -> before c a = false.

(** [x] may stand before [y] when [y] is not strictly before [x]. *)
Lemma insert_sorted (x : A) (l : list A) :
  StronglySorted (fun a b => before b a = false) l ->
  StronglySorted (fun a b => before b a = false) (PySort.insert before x l).
Proof.
  induction 1 as [|y l Hs IH Hy]; simpl.
  - constructor; constructor.
  - destruct (before y x) eqn:E.
    + constructor; [exact IH|].
      apply Forall_forall. intros z Hz.
      apply (Permutation_in _ (insert_perm x l)) in Hz.
      destruct Hz as [<- | Hz].
      * now apply before_asym.
      * rewrite Forall_forall in Hy. now apply Hy.
    + constructor; [now constructor|].
      constructor; [exact E|].
      rewrite Forall_forall in Hy |- *. intros z Hz.
      apply (not_before_trans x y z E). now apply Hy.
Qed.

Lemma sort_sorted (l : list A) :
  StronglySorted (fun a b => before b a = false) (PySort.sort before l).
Proof.
  induction l as [|x l IH]; simpl; [constructor | now apply insert_sorted].
Qed.

(** Stability: within a class that nothing strictly smaller belongs to,
    the input order is kept. *)
Lemma sort_stable (cls : A -> bool) :
  (forall x y, cls x = true -> before y x = true -> cls y = false) ->
  forall l, filter cls (PySort.sort before l) = filter cls l.
Proof.
  intros Hcls.
  assert (Hins : forall x l,
             filter cls (PySort.insert before x l) = filter cls (x :: l)).
  { intros x l. induction l as [|y l IH]; [reflexivity|].
    simpl PySort.insert. destruct (before y x) eqn:E; [|reflexivity].
    simpl in *. rewrite IH. destruct (cls x) eqn:Ex; [|reflexivity].
    now rewrite (Hcls x y Ex E). }
  induction l as [|x l IH]; [reflexivity|].
  simpl PySort.sort. rewrite Hins. simpl. now rewrite IH.
Qed.
End SortFacts.

Section QKeySort.
Context {A : Type} (key : A -> Q).

Lemma ltb_asym (a b : Q) : PyNum.ltb a b = true -> PyNum.ltb b a = false.
Proof.
  unfold PyNum.ltb. rewrite !negb_true_iff, negb_false_iff.
  intros H. apply Qle_bool_iff. destruct (Qlt_le_dec a b) as [Hlt|Hle].
  - now apply Qlt_le_weak.
  - apply Qle_bool_iff in Hle. congruence.
Qed.

Lemma ltb_false_le (a b : Q) : PyNum.ltb b a = false <-> a <= b.
Proof. unfold PyNum.ltb. rewrite negb_false_iff. apply Qle_bool_iff. Qed.

Lemma sort_by_key_perm (l : list A) : Permutation (PySort.sort_by_key key l) l.
Proof. apply sort_perm. Qed.

Lemma sort_by_key_sorted (l : list A) :
  StronglySorted (fun a b => key a <= key b) (PySort.sort_by_key key l).
Proof.
  unfold PySort.sort_by_key.
  assert (H : StronglySorted
                (fun a b => PyNum.ltb (key b) (key a) = false)
                (PySort.sort (fun y x => PyNum.ltb (key y) (key x)) l)).
  { apply (sort_sorted (fun y x => PyNum.ltb (key y) (key x))).
    - intros a b. apply ltb_asym.
    - intros a b c Hab Hbc. apply ltb_false_le in Hab, Hbc.
      apply ltb_false_le. eapply Qle_trans; eassumption. }
  induction H as [|a l0 _ IH Hall]; constructor; [exact IH|].
  eapply Forall_impl; [|exact Hall].
  intros b Hb. now apply ltb_false_le in Hb.
Qed.

Lemma sort_by_key_stable (k : Q) (l : list A) :
  filter (fun x => Qeq_bool (key x) k) (PySort.sort_by_key key l)
  = filter (fun x => Qeq_bool (key x) k) l.
Proof.
  apply sort_stable. intros x y Hx Hlt.
  apply Qeq_bool_iff in Hx.
  destruct (Qeq_bool (key y) k) eqn:Ey; [|reflexivity].
  apply Qeq_bool_iff in Ey. exfalso.
  unfold PyNum.ltb in Hlt. apply negb_true_iff in Hlt.
  assert (Hle : key x <= key y) by (rewrite Hx, Ey; apply Qle_refl).
  apply Qle_bool_iff in Hle. congruence.
Qed.
End QKeySort.

(** ** Comparison across sources *)

Section CompareFacts.
Import PriceService.
Variable adapters : PyDict.t PlatformAdapter.t.

Lemma flatten_In (all_results : PyDict.t (list Product.t)) (x : comparison) :
  In x (flatten all_results) ->
  c_price x = Product.price (c_product x)
  /\ c_unit_price x = Product.unit_price (c_product x)
  /\ exists products, In (c_platform x, products) all_results
                      /\ In (c_product x) products.
Proof.
  unfold flatten, PyDict.items. rewrite in_flat_map.
  intros [[platform products] [Hin Hx]].
  apply in_map_iff in Hx as [product [<- Hp]]. simpl.
  repeat split. exists products. auto.
Qed.

Lemma compare_prices_In (query : string) (limit : Z) (x : comparison) :
  In x (compare_prices adapters query limit) <->
  In x (flatten (search_all_platforms adapters query limit)).
Proof.
  unfold compare_prices. split; intros H.
  - eapply Permutation_in; [apply sort_by_key_perm | exact H].
  - eapply Permutation_in; [apply Permutation_sym, sort_by_key_perm | exact H].
Qed.

Lemma sort_key_without_unit_price (x : comparison) :
  PyNum.truthy_opt (c_unit_price x) = false -> sort_key x = c_price x.
Proof.
  unfold sort_key, PyNum.truthy_opt. destruct (c_unit_price x) as [u|];
    [|reflexivity].
  now intros ->.
Qed.
End CompareFacts.

(** C1 (as the code has it).  The list [compare_prices] returns is a
    rearrangement of the flattened search results in one ascending order of
    the sort key, the unit price when it is present and not zero and the raw
    price otherwise; records with equal keys keep the order of the sources.
    Unit-priced and raw-priced records are not kept apart: with source A
    listing a unit price of 5 and source B only a raw price of 4, B's record
    comes first. *)
Theorem compare_prices_single_order :
  forall (adapters : PyDict.t PlatformAdapter.t) (query : string) (limit : Z),
    let flat := PriceService.flatten
                  (PriceService.search_all_platforms adapters query limit) in
    let result := PriceService.compare_prices adapters query limit in
    Permutation result flat
    /\ StronglySorted
         (fun a b => PriceService.sort_key a <= PriceService.sort_key b) result
    /\ (forall k : Q,
           filter (fun x => Qeq_bool (PriceService.sort_key x) k) result
           = filter (fun x => Qeq_bool (PriceService.sort_key x) k) flat)
    /\ map PriceService.c_platform
         (PriceService.compare_prices Samples.unit5_raw4 "milk" 5)
       = ["B"; "A"]%string.
Proof.
  intros adapters query limit flat result. unfold result, flat.
  unfold PriceService.compare_prices.
  split; [apply sort_by_key_perm|].
  split; [apply sort_by_key_sorted|].
  split; [intros k; apply sort_by_key_stable|].
  reflexivity.
Qed.

(** C1, the claim as the specification states it, fails: on the sources of
    the specification's own example the result is not in two segments, and
    B's raw-priced record precedes A's unit-priced one. *)
Lemma compare_prices_not_two_segment :
  map (fun x => (PriceService.c_platform x, PriceService.c_unit_price x,
                 PriceService.c_price x))
      (PriceService.compare_prices Samples.unit5_raw4 "milk" 5)
  = [ ("B"%string, None, 4); ("A"%string, Some 5, 7) ]
  /\ ~ CompareSpec.two_segment
         (PriceService.compare_prices Samples.unit5_raw4 "milk" 5).
Proof.
  split; [reflexivity|].
  intros (priced & raw & Hl & Hp & Hr & _).
  change (PriceService.compare_prices Samples.unit5_raw4 "milk" 5)
    with [ PriceService.mk_comparison "B"
             (Samples.listing "b" 4 None None true) 4 None;
           PriceService.mk_comparison "A"
             (Samples.listing "a" 7 (Some 5) None true) 7 (Some 5) ] in Hl.
  destruct priced as [|x priced].
  - simpl in Hl. subst raw. inversion Hr as [|? ? _ Hr']. subst.
    inversion Hr' as [|? ? Ha _]. subst. discriminate Ha.
  - simpl in Hl. inversion Hl. subst x.
    inversion Hp as [|? ? Hb _]. subst. discriminate Hb.
Qed.

Lemma parse_product_card_unit_price
    (product_id name : string) (price : Q) (original_price : option Q)
    (image_url : string) (in_stock : bool) (unit_size : option string)
    (url : string) (p : Product.t) :
  FairPriceCard._parse_product_card product_id name price original_price
    image_url in_stock unit_size url = Some p ->
  Product.price p = price /\ Product.unit_size p = unit_size
  /\ Product.unit_price p =
       if PyNum.truthy price && PyStr.truthy_opt unit_size
       then CompareSpec.normalised_key p else None.
Proof.
  unfold FairPriceCard._parse_product_card, CompareSpec.normalised_key.
  destruct (PyNum.truthy price && PyStr.truthy_opt unit_size) eqn:E.
  - destruct unit_size as [sz|].
    + destruct (FairPriceAdapter._calculate_unit_price price sz) as [r|e] eqn:Ec;
        [|discriminate].
      intros H. inversion H. subst p. simpl. now rewrite Ec.
    + rewrite andb_false_r in E. discriminate.
  - intros H. inversion H. subst p. simpl. auto.
Qed.

(** C2 (as the code has it).  [compare_prices] applies no normaliser: every
    record it returns carries the listing's own price and the unit price the
    adapter computed, and a listing whose unit price is absent or zero is
    keyed by its raw price, whatever its size text says.  Normalisation
    happens once, at ingestion: a product card with a price and a size text
    gets [_calculate_unit_price(price, size)] as its unit price, and that
    stored value, when it is not zero, is the sort key. *)
Theorem compare_uses_precomputed_unit_price :
  forall (adapters : PyDict.t PlatformAdapter.t) (query : string) (limit : Z)
         (x : PriceService.comparison),
    In x (PriceService.compare_prices adapters query limit) ->
    PriceService.c_price x = Product.price (PriceService.c_product x)
    /\ PriceService.c_unit_price x = Product.unit_price (PriceService.c_product x)
    /\ (PyNum.truthy_opt (Product.unit_price (PriceService.c_product x)) = false ->
        PriceService.sort_key x = Product.price (PriceService.c_product x))
    /\ (forall u, Product.unit_price (PriceService.c_product x) = Some u ->
                  PyNum.truthy u = true -> PriceService.sort_key x = u)
    /\ (forall product_id name price original_price image_url in_stock
               unit_size url,
           FairPriceCard._parse_product_card product_id name price
             original_price image_url in_stock unit_size url
           = Some (PriceService.c_product x) ->
           Product.unit_price (PriceService.c_product x) =
             if PyNum.truthy price && PyStr.truthy_opt unit_size
             then CompareSpec.normalised_key (PriceService.c_product x)
             else None).
Proof.
  intros adapters query limit x Hx.
  apply compare_prices_In, flatten_In in Hx as (Hp & Hu & _).
  split; [exact Hp|]. split; [exact Hu|]. split; [|split].
  - intros Hf. rewrite <- Hp. apply sort_key_without_unit_price. now rewrite Hu.
  - intros u Hsome Ht. unfold PriceService.sort_key. rewrite Hu, Hsome.
    now rewrite Ht.
  - intros product_id name price original_price image_url in_stock unit_size url H.
    now apply parse_product_card_unit_price in H.
Qed.

Lemma compare_uses_precomputed_unit_price_witness :
  PriceService.sort_key
    (PriceService.mk_comparison "A"
       (Samples.listing "a" 20 None (Some "500g"%string) true) 20 None)
  = 20
  /\ PriceService.sort_key
       (PriceService.mk_comparison "A" Samples.card_500g 20 (Some 40))
     = 40
  /\ Product.unit_price Samples.card_500g
     = CompareSpec.normalised_key Samples.card_500g.
Proof.
  split; [|split].
  - pose proof (compare_uses_precomputed_unit_price Samples.unpriced_500g
                  "rice" 5
                  (PriceService.mk_comparison "A"
                     (Samples.listing "a" 20 None (Some "500g"%string) true)
                     20 None)
                  (or_introl eq_refl)) as (_ & _ & H & _).
    exact (H eq_refl).
  - pose proof (compare_uses_precomputed_unit_price Samples.priced_500g
                  "rice" 5
                  (PriceService.mk_comparison "A" Samples.card_500g 20
                     (Some 40))
                  (or_introl eq_refl)) as (_ & _ & _ & H & _).
    exact (H 40 eq_refl eq_refl).
  - pose proof (compare_uses_precomputed_unit_price Samples.priced_500g
                  "rice" 5
                  (PriceService.mk_comparison "A" Samples.card_500g 20
                     (Some 40))
                  (or_introl eq_refl)) as (_ & _ & _ & _ & H).
    apply (H "a" "a" 20 None "" true (Some "500g") ""%string).
    vm_compute. reflexivity.
Defined.

(** The repository holds a second normaliser, on the price-record model,
    that nothing calls; it is not the adapter's: it knows no "each" and
    divides by a zero quantity. *)
Lemma normalisers_differ :
  PriceRecord.calculate_unit_price 5 "2each" = Ret None
  /\ (exists r, FairPriceAdapter._calculate_unit_price 5 "2each" = Ret (Some r)
                /\ r == 5 / 2)
  /\ PriceRecord.calculate_unit_price 5 "0g" = Raise ZeroDivisionError
  /\ FairPriceAdapter._calculate_unit_price 5 "0g" = Ret None.
Proof.
  split; [reflexivity|].
  split; [eexists; split; [vm_compute; reflexivity | reflexivity]|].
  split; reflexivity.
Qed.

(** C2, the claim as the specification states it, fails: a listing of 20
    for "500g" that arrives without a unit price is keyed by 20, although
    the normaliser resolves it to 40. *)
Lemma compare_does_not_normalise :
  exists (x : PriceService.comparison) (u : Q),
    In x (PriceService.compare_prices Samples.unpriced_500g "rice" 5)
    /\ PriceService.c_unit_price x = None
    /\ CompareSpec.normalised_key (PriceService.c_product x) = Some u
    /\ u == 40
    /\ PriceService.sort_key x == 20
    /\ ~ PriceService.sort_key x == u.
Proof.
  eexists. eexists. split; [left; reflexivity|].
  split; [reflexivity|]. split; [vm_compute; reflexivity|].
  split; [reflexivity|]. split; [reflexivity|].
  intros H. vm_compute in H. discriminate H.
Qed.

(** ** Price history and drop alerts *)

Section HistoryFacts.
Import PriceService.

Lemma newer_first_sorted (l : list PriceRecord.t) :
  StronglySorted
    (fun a b => (PriceRecord.scraped_at b <= PriceRecord.scraped_at a)%Z)
    (PySort.sort newer_first l).
Proof.
  assert (H : StronglySorted (fun x y => newer_first y x = false)
                (PySort.sort newer_first l)).
  { apply sort_sorted; unfold newer_first.
    - intros a b Hab. apply Z.ltb_lt in Hab. apply Z.ltb_ge. lia.
    - intros a b c Hab Hbc. apply Z.ltb_ge in Hab, Hbc. apply Z.ltb_ge. lia. }
  induction H as [|x l0 _ IH Hall]; constructor; [exact IH|].
  eapply Forall_impl; [|exact Hall].
  intros b Hb. unfold newer_first in Hb. now apply Z.ltb_ge in Hb.
Qed.

Lemma get_price_history_all_platforms (d : db) (now id days : Z) :
  get_price_history d now id None days
  = PySort.sort newer_first
      (filter (in_window id (now - seconds_of_days days)) (price_records d)).
Proof. reflexivity. Qed.

Lemma price_alert_of_item (d : db) (now : Z) (t : Q) (item : InventoryItem.t)
    (a : price_alert) :
  In a (price_alert_of d now t item) -> a_item a = item.
Proof.
  unfold price_alert_of.
  destruct (get_price_history d now (InventoryItem.id item) None 7)
    as [|latest [|previous rest]]; try contradiction.
  destruct (PyNum.ltb 0 (PriceRecord.price previous)); [|contradiction].
  destruct (Qle_bool _ _); [|contradiction].
  intros [<- | []]. reflexivity.
Qed.

Lemma get_price_alerts_of_item (d : db) (now : Z) (t : Q)
    (item : InventoryItem.t) (a : price_alert) :
  In item (inventory_items d) -> InventoryItem.is_active item = 1%Z ->
  (In a (get_price_alerts d now t) /\ a_item a = item
   <-> In a (price_alert_of d now t item)).
Proof.
  intros Hin Hact. unfold get_price_alerts. rewrite in_flat_map. split.
  - intros [[item' [Hi Ha]] Heq].
    rewrite (price_alert_of_item _ _ _ _ _ Ha) in Heq. now subst item'.
  - intros Ha. split; [|now apply price_alert_of_item in Ha].
    exists item. split; [|exact Ha].
    apply filter_In. split; [exact Hin|]. now apply Z.eqb_eq.
Qed.

Lemma price_alert_of_two (d : db) (now : Z) (t : Q) (item : InventoryItem.t)
    (latest previous : PriceRecord.t) (rest : list PriceRecord.t) :
  get_price_history d now (InventoryItem.id item) None 7
    = latest :: previous :: rest ->
  let p := PriceRecord.price previous in
  let l := PriceRecord.price latest in
  ((0 < p /\ change_percent l p <= - t) ->
     price_alert_of d now t item
     = [ mk_price_alert item (PriceRecord.platform latest) l p
           (change_percent l p) (PriceRecord.product_url latest) ])
  /\ (~ (0 < p /\ change_percent l p <= - t) -> price_alert_of d now t item = []).
Proof.
  intros Hh p l. unfold price_alert_of. rewrite Hh. fold p l.
  unfold PyNum.ltb.
  destruct (Qle_bool p 0) eqn:Ep; simpl.
  - apply Qle_bool_iff in Ep. split; [|reflexivity].
    intros [Hp _]. exfalso. lra.
  - assert (Hp : 0 < p).
    { apply Qnot_le_lt. intros Hle. apply Qle_bool_iff in Hle. congruence. }
    destruct (Qle_bool (change_percent l p) (- t)) eqn:Ec.
    + split; [reflexivity|]. intros Hn. exfalso. apply Hn. split; [exact Hp|].
      now apply Qle_bool_iff.
    + split; [|reflexivity]. intros [_ Hc]. exfalso.
      apply Qle_bool_iff in Hc. congruence.
Qed.

(** With distinct stamps, the order of a history is strict. *)
Lemma sorted_strict (l : list PriceRecord.t) :
  NoDup (map PriceRecord.scraped_at l) ->
  StronglySorted
    (fun a b => (PriceRecord.scraped_at b <= PriceRecord.scraped_at a)%Z) l ->
  StronglySorted
    (fun a b => (PriceRecord.scraped_at b < PriceRecord.scraped_at a)%Z) l.
Proof.
  induction l as [|x l IH]; intros Hnd Hs; [constructor|].
  inversion Hnd as [|? ? Hnotin Hnd']. inversion Hs as [|? ? Hs' Hall]. subst.
  constructor; [now apply IH|].
  rewrite Forall_forall in *. intros y Hy.
  assert (Hne : PriceRecord.scraped_at y <> PriceRecord.scraped_at x).
  { intros Heq. apply Hnotin. rewrite <- Heq. now apply in_map. }
  pose proof (Hall y Hy). lia.
Qed.

Lemma history_strict (d : db) (now id : Z) :
  NoDup (map PriceRecord.scraped_at
           (filter (in_window id (now - seconds_of_days 7)) (price_records d))) ->
  StronglySorted
    (fun a b => (PriceRecord.scraped_at b < PriceRecord.scraped_at a)%Z)
    (get_price_history d now id None 7).
Proof.
  intros Hnd. rewrite get_price_history_all_platforms.
  apply sorted_strict; [|apply newer_first_sorted].
  eapply Permutation_NoDup; [|exact Hnd].
  apply Permutation_map, Permutation_sym, sort_perm.
Qed.
End HistoryFacts.

(** C5 (as the code has it).  For every active item whose price history of
    the last seven days has at least two entries, with stamps that differ,
    the alert pass compares the two newest of those entries, whatever
    platform each came from, and reports a drop if and only if the previous
    price is positive and the change in percent, computed in floats as
    [((latest.price - previous.price) / previous.price) * 100], is at most
    minus the threshold (given in percent); that change is what it reports.
    So history [10, then 8.5] with threshold 10 reports a drop of -15
    percent, and [10, then 9.6] none. *)
Theorem price_alerts_two_newest_in_window :
  (forall (d : PriceService.db) (now : Z) (t : Q) (item : InventoryItem.t)
          (latest previous : PriceRecord.t) (rest : list PriceRecord.t),
      In item (PriceService.inventory_items d) ->
      InventoryItem.is_active item = 1%Z ->
      NoDup (map PriceRecord.scraped_at
               (filter (PriceService.in_window (InventoryItem.id item)
                          (now - PriceService.seconds_of_days 7))
                       (PriceService.price_records d))) ->
      PriceService.get_price_history d now (InventoryItem.id item) None 7
        = latest :: previous :: rest ->
      let p := PriceRecord.price previous in
      let l := PriceRecord.price latest in
      Permutation (latest :: previous :: rest)
        (filter (PriceService.in_window (InventoryItem.id item)
                   (now - PriceService.seconds_of_days 7))
                (PriceService.price_records d))
      /\ (PriceRecord.scraped_at previous < PriceRecord.scraped_at latest)%Z
      /\ Forall (fun e => (PriceRecord.scraped_at e
                           < PriceRecord.scraped_at previous)%Z) rest
      /\ ((exists a, In a (PriceService.get_price_alerts d now t)
                     /\ PriceService.a_item a = item)
          <-> (0 < p /\ PriceService.change_percent l p <= - t))
      /\ (forall a, In a (PriceService.get_price_alerts d now t) ->
                    PriceService.a_item a = item ->
                    PriceService.a_change_percent a
                    = PriceService.change_percent l p
                    /\ PriceService.a_current_price a = l
                    /\ PriceService.a_previous_price a = p
                    /\ PriceService.a_platform a = PriceRecord.platform latest))
  /\ (exists a,
         PriceService.get_price_alerts Samples.history_10_then_8_5
           (3 * Samples.day) 10 = [a]
         /\ PriceService.a_change_percent a == - (15))
  /\ PriceService.get_price_alerts Samples.history_10_then_9_6
       (3 * Samples.day) 10 = [].
Proof.
  split; [|split; [eexists; split; vm_compute; reflexivity
                  | vm_compute; reflexivity]].
  intros d now t item latest previous rest Hin Hact Hnd Hh p l.
  pose proof (history_strict d now (InventoryItem.id item) Hnd) as Hs.
  rewrite Hh in Hs.
  destruct (price_alert_of_two d now t item latest previous rest Hh) as [Hyes Hno].
  fold p l in Hyes, Hno.
  split; [rewrite <- Hh, get_price_history_all_platforms; apply sort_perm|].
  inversion Hs as [|? ? Hs' Hall]. subst.
  inversion Hall as [|? ? Hpl _]. subst.
  inversion Hs' as [|? ? _ Hrest]. subst.
  split; [exact Hpl|]. split; [exact Hrest|]. split.
  - split.
    + intros [a Ha]. apply get_price_alerts_of_item in Ha; try assumption.
      destruct (Qlt_le_dec 0 p) as [Hp|Hp].
      * destruct (Qlt_le_dec (- t) (PriceService.change_percent l p)) as [Hc|Hc];
          [|now split].
        rewrite Hno in Ha; [contradiction|]. intros [_ Hc']. lra.
      * rewrite Hno in Ha; [contradiction|]. intros [Hp' _]. lra.
    + intros Hc. eexists. apply get_price_alerts_of_item; try assumption.
      rewrite (Hyes Hc). left. reflexivity.
  - intros a Ha Hitem.
    assert (Ha' : In a (PriceService.price_alert_of d now t item))
      by (apply get_price_alerts_of_item; auto).
    destruct (Qlt_le_dec 0 p) as [Hp|Hp].
    + destruct (Qlt_le_dec (- t) (PriceService.change_percent l p)) as [Hc|Hc].
      * rewrite Hno in Ha'; [contradiction|]. intros [_ Hc']. lra.
      * rewrite (Hyes (conj Hp Hc)) in Ha'. destruct Ha' as [<- | []].
        repeat split.
    + rewrite Hno in Ha'; [contradiction|]. intros [Hp' _]. lra.
Qed.

Lemma price_alerts_two_newest_in_window_witness :
  exists a,
    In a (PriceService.get_price_alerts Samples.history_10_then_8_5
            (3 * Samples.day) 10)
    /\ PriceService.a_item a = Samples.milk.
Proof.
  destruct price_alerts_two_newest_in_window as [H _].
  apply (H Samples.history_10_then_8_5 (3 * Samples.day)%Z 10 Samples.milk
           (Samples.entry "A" (85 # 10) 2) (Samples.entry "A" 10 1) []
           (or_introl eq_refl) eq_refl).
  - vm_compute. repeat constructor; simpl; intuition discriminate.
  - vm_compute. reflexivity.
  - split; [reflexivity | vm_compute; discriminate].
Defined.

(** C5, the claim as the specification states it, fails for an item whose
    two newest entries are not both of the last seven days: with 10 on day 0
    and 5 on day 10 the two most recent entries show a drop of 50 percent,
    and the alert pass on day 10 reports nothing. *)
Lemma price_alerts_skip_entries_older_than_a_week :
  (exists c,
      DropSpec.detect_drop
        (PriceService.price_records Samples.history_ten_days_apart) 1 (1 # 10)
      = Some c /\ c == - (50))
  /\ PriceService.get_price_alerts Samples.history_ten_days_apart
       (10 * Samples.day) 10 = [].
Proof.
  split; [eexists; split; [reflexivity | reflexivity] | reflexivity].
Qed.

(** ** Dictionaries *)

Section DictFacts.
Context {V : Type}.
Implicit Types (d : PyDict.t V) (k : string) (v : V).

Lemma get_set_eq d k v : PyDict.get (PyDict.set d k v) k = Some v.
Proof.
  induction d as [|[k' v'] d IH]; simpl.
  - now rewrite String.eqb_refl.
  - destruct (String.eqb k' k) eqn:E; simpl.
    + now rewrite String.eqb_refl.
    + now rewrite E.
Qed.

Lemma get_set_ne d k k' v :
  k <> k' -> PyDict.get (PyDict.set d k v) k' = PyDict.get d k'.
Proof.
  intros Hne. induction d as [|[k0 v0] d IH]; simpl.
  - apply String.eqb_neq in Hne. now rewrite Hne.
  - destruct (String.eqb k0 k) eqn:E; simpl.
    + apply String.eqb_eq in E. subst k0.
      apply String.eqb_neq in Hne. now rewrite Hne.
    + destruct (String.eqb k0 k'); [reflexivity | exact IH].
Qed.

Lemma set_set d k v v' : PyDict.set (PyDict.set d k v) k v' = PyDict.set d k v'.
Proof.
  induction d as [|[k0 v0] d IH]; simpl.
  - now rewrite String.eqb_refl.
  - destruct (String.eqb k0 k) eqn:E; simpl.
    + now rewrite String.eqb_refl.
    + now rewrite E, IH.
Qed.

Lemma keys_set_in d k v x :
  In x (PyDict.keys (PyDict.set d k v)) <-> x = k \/ In x (PyDict.keys d).
Proof.
  induction d as [|[k0 v0] d IH]; simpl.
  - intuition.
  - destruct (String.eqb k0 k) eqn:E; simpl.
    + apply String.eqb_eq in E. subst k0. intuition.
    + rewrite IH. intuition.
Qed.

Lemma keys_set_nodup d k v :
  NoDup (PyDict.keys d) -> NoDup (PyDict.keys (PyDict.set d k v)).
Proof.
  induction d as [|[k0 v0] d IH]; simpl; intros Hnd.
  - constructor; [intros [] | constructor].
  - inversion Hnd as [|? ? Hnotin Hnd']. subst.
    destruct (String.eqb k0 k) eqn:E; simpl.
    + apply String.eqb_eq in E. subst k0. now constructor.
    + constructor; [|now apply IH].
      intros Hin. apply keys_set_in in Hin as [-> | Hin].
      * now rewrite String.eqb_refl in E.
      * contradiction.
Qed.

Lemma get_in d k v : PyDict.get d k = Some v -> In (k, v) d.
Proof.
  induction d as [|[k0 v0] d IH]; simpl; [discriminate|].
  destruct (String.eqb k0 k) eqn:E.
  - apply String.eqb_eq in E. subst k0. intros H. inversion H. now left.
  - intros H. right. now apply IH.
Qed.

Lemma in_get d k v : NoDup (PyDict.keys d) -> In (k, v) d -> PyDict.get d k = Some v.
Proof.
  induction d as [|[k0 v0] d IH]; simpl; intros Hnd Hin; [contradiction|].
  inversion Hnd as [|? ? Hnotin Hnd']. subst.
  destruct Hin as [Heq | Hin].
  - inversion Heq. subst. now rewrite String.eqb_refl.
  - destruct (String.eqb k0 k) eqn:E.
    + apply String.eqb_eq in E. subst k0. exfalso. apply Hnotin.
      change k with (fst (k, v)). now apply in_map.
    + now apply IH.
Qed.

Lemma get_none_not_in d k : PyDict.get d k = None <-> ~ In k (PyDict.keys d).
Proof.
  induction d as [|[k0 v0] d IH]; simpl; [intuition|].
  destruct (String.eqb k0 k) eqn:E.
  - apply String.eqb_eq in E. subst k0. split; [discriminate | intuition].
  - apply String.eqb_neq in E. rewrite IH. intuition.
Qed.
End DictFacts.

(** ** [min] with a key *)

Section MinFacts.
Context {A : Type} (key : A -> option Q).

Lemma lt_inf_false_trans (a b c : option Q) :
  PySort.lt_inf b a = false -> PySort.lt_inf c b = false ->
  PySort.lt_inf c a = false.
Proof.
  destruct a as [a|], b as [b|], c as [c|]; simpl; try congruence.
  intros Hab Hbc. apply ltb_false_le in Hab, Hbc. apply ltb_false_le.
  eapply Qle_trans; eassumption.
Qed.

Lemma lt_inf_asym (a b : option Q) :
  PySort.lt_inf a b = true -> PySort.lt_inf b a = false.
Proof.
  destruct a as [a|], b as [b|]; simpl; try congruence. apply ltb_asym.
Qed.

Lemma lt_inf_irrefl (a : option Q) : PySort.lt_inf a a = false.
Proof.
  destruct a as [a|]; simpl; [|reflexivity].
  apply ltb_false_le, Qle_refl.
Qed.

Lemma min_from_spec (l : list A) (best : A) :
  let m := PySort.min_from key best l in
  In m (best :: l)
  /\ Forall (fun x => PySort.lt_inf (key x) (key m) = false) (best :: l).
Proof.
  revert best. induction l as [|x l IH]; intros best; simpl.
  - split; [now left|]. constructor; [apply lt_inf_irrefl | constructor].
  - destruct (PySort.lt_inf (key x) (key best)) eqn:E.
    + destruct (IH x) as [Hin Hall]. split; [now right|].
      inversion Hall as [|? ? Hx Hl]. subst.
      constructor; [|now constructor].
      apply lt_inf_false_trans with (b := key x); [exact Hx|].
      now apply lt_inf_asym.
    + destruct (IH best) as [Hin Hall]. split.
      * destruct Hin as [<- | Hin]; [now left | now right; right].
      * inversion Hall as [|? ? Hb Hl]. subst.
        constructor; [exact Hb|]. constructor; [|exact Hl].
        now apply lt_inf_false_trans with (b := key best).
Qed.

Lemma min_by_spec (l : list A) (m : A) :
  PySort.min_by key l = Some m ->
  In m l /\ Forall (fun x => PySort.lt_inf (key x) (key m) = false) l.
Proof.
  destruct l as [|x l]; simpl; [discriminate|].
  intros H. inversion H. apply min_from_spec.
Qed.

Lemma min_by_some (l : list A) : l <> [] -> exists m, PySort.min_by key l = Some m.
Proof. destruct l; [contradiction | intros _; eexists; reflexivity]. Qed.
End MinFacts.

(** ** Weekly recommendations *)

Section RecommendFacts.
Import WatchlistService.
Variable names : PyDict.t string.

Lemma truthy_true (q : Q) : PyNum.truthy q = true <-> ~ q == 0.
Proof.
  unfold PyNum.truthy. rewrite negb_true_iff. split.
  - intros H Hq. apply Qeq_bool_iff in Hq. congruence.
  - intros H. destruct (Qeq_bool q 0) eqn:E; [|reflexivity].
    apply Qeq_bool_iff in E. contradiction.
Qed.

Lemma ltb_true (a b : Q) : PyNum.ltb a b = true <-> a < b.
Proof.
  unfold PyNum.ltb. rewrite negb_true_iff. split.
  - intros H. apply Qnot_le_lt. intros Hle. apply Qle_bool_iff in Hle. congruence.
  - intros H. destruct (Qle_bool b a) eqn:E; [|reflexivity].
    apply Qle_bool_iff in E. exfalso. lra.
Qed.

Lemma not_in_stock_somewhere (item : WatchlistItem.t) :
  ~ Offer.in_stock_somewhere item ->
  WatchlistItem.is_available_anywhere item = false.
Proof.
  intros Hno. unfold WatchlistItem.is_available_anywhere.
  destruct (WatchlistItem.has_status item); [|reflexivity]. simpl.
  destruct (existsb Status.in_stock
              (PyDict.values (WatchlistItem.status_or_empty item))) eqn:E;
    [|reflexivity].
  exfalso. apply Hno. apply existsb_exists in E as [s [Hin Hs]].
  unfold PyDict.values in Hin. apply in_map_iff in Hin as [[p s'] [Heq Hin]].
  simpl in Heq. subst s'. exists p, s. auto.
Qed.

Lemma in_stock_somewhere_available (item : WatchlistItem.t) :
  Offer.in_stock_somewhere item ->
  WatchlistItem.has_status item = true
  /\ WatchlistItem.is_available_anywhere item = true.
Proof.
  intros (p & s & Hin & Hs).
  assert (Hhas : WatchlistItem.has_status item = true).
  { unfold WatchlistItem.has_status, WatchlistItem.status_or_empty in *.
    destruct (WatchlistItem.availability_status item) as [[|e d]|];
      try contradiction; reflexivity. }
  split; [exact Hhas|].
  unfold WatchlistItem.is_available_anywhere. rewrite Hhas. simpl.
  apply existsb_exists. exists s. split; [|exact Hs].
  unfold PyDict.values. change s with (snd (p, s)). now apply in_map.
Qed.

Lemma best_deal_of_priced (item : WatchlistItem.t) :
  Offer.priced_somewhere item ->
  exists platform s best_price,
    WatchlistItem.get_best_deal item = Some (platform, s)
    /\ In (platform, s) (WatchlistItem.status_or_empty item)
    /\ Status.in_stock s = true
    /\ Status.price s = Some best_price
    /\ PyNum.truthy best_price = true
    /\ Offer.lowest item best_price.
Proof.
  intros (p & s & Hin & Hs & Hp).
  destruct (in_stock_somewhere_available item) as [Hhas _];
    [exists p, s; auto|].
  unfold WatchlistItem.get_best_deal. rewrite Hhas. simpl.
  set (available :=
         filter (fun ps => Status.in_stock (snd ps)
                           && PyNum.truthy_opt (Status.price (snd ps)))
                (PyDict.items (WatchlistItem.status_or_empty item))).
  assert (Hne : available <> []).
  { intros Hnil.
    assert (Hmem : In (p, s) available).
    { apply filter_In. split; [exact Hin|]. simpl. now rewrite Hs, Hp. }
    rewrite Hnil in Hmem. contradiction. }
  destruct (min_by_some (fun ps => Status.price (snd ps)) available Hne)
    as [[bp bs] Hmin].
  rewrite Hmin.
  destruct (min_by_spec _ _ _ Hmin) as [Hbin Hball].
  apply filter_In in Hbin as [Hbin Hbok]. simpl in Hbok.
  apply andb_true_iff in Hbok as [Hbs Hbp].
  destruct (Status.price bs) as [q|] eqn:Eq; [|discriminate].
  exists bp, bs, q. repeat split; try assumption.
  intros p' s' q' Hin' Hs' Hq' Ht'.
  rewrite Forall_forall in Hball.
  assert (Hmem : In (p', s') available).
  { apply filter_In. split; [exact Hin'|]. simpl. rewrite Hs', Hq'. exact Ht'. }
  specialize (Hball _ Hmem). simpl in Hball. rewrite Hq', Eq in Hball.
  simpl in Hball. now apply ltb_false_le in Hball.
Qed.

Lemma over_budget_test (item : WatchlistItem.t) (price : Q) :
  (PyNum.truthy_opt (WatchlistItem.max_price item)
   && match WatchlistItem.max_price item with
      | Some m => PyNum.ltb m price
      | None => false
      end = true)
  <-> Offer.exceeds_budget item price.
Proof.
  unfold Offer.exceeds_budget.
  destruct (WatchlistItem.max_price item) as [m|]; simpl.
  - rewrite andb_true_iff, truthy_true, ltb_true. split.
    + intros [H1 H2]. exists m. auto.
    + intros (m' & Heq & H1 & H2). inversion Heq. subst. auto.
  - split; [discriminate | intros (m & H & _); discriminate].
Qed.
End RecommendFacts.

(** C7 (as the code has it).  For an active item the weekly list holds
    exactly one recommendation in each of these cases: when no source of the
    snapshot is in stock, with status [unavailable]; when some source is in
    stock with a price that is not zero, for the lowest such price:
    [over_budget] with no quantity and no total when the item has a maximum
    price, not zero, below it, and otherwise [available] with
    [quantity = weekly_target_qty], [total = price * weekly_target_qty] and
    the best source.  Over a table whose active items are all of one of the
    two kinds, the list has one recommendation per active item, in order. *)
Theorem weekly_recommendations :
  forall (names : PyDict.t string),
    (forall item : WatchlistItem.t,
        ~ Offer.in_stock_somewhere item ->
        WatchlistService.recommend names item
        = [ WatchlistService.mk_recommendation item "unavailable"
              None None None None None None None ])
    /\ (forall item : WatchlistItem.t,
           Offer.priced_somewhere item ->
           exists platform s best_price,
             WatchlistItem.get_best_deal item = Some (platform, s)
             /\ In (platform, s) (WatchlistItem.status_or_empty item)
             /\ Status.in_stock s = true
             /\ Status.price s = Some best_price
             /\ Offer.lowest item best_price
             /\ (Offer.exceeds_budget item best_price ->
                 WatchlistService.recommend names item
                 = [ WatchlistService.mk_recommendation item "over_budget"
                       (Some (platform, s)) None None None None None None ])
             /\ (~ Offer.exceeds_budget item best_price ->
                 WatchlistService.recommend names item
                 = [ WatchlistService.mk_recommendation item "available" None
                       (Some (WatchlistItem.weekly_target_qty item))
                       (Some platform)
                       (Some (WatchlistService.display_name names platform))
                       (Some best_price)
                       (Some (PyFloat.mul best_price
                           (PyFloat.of_int (WatchlistItem.weekly_target_qty item))))
                       (Some (WatchlistService.or_empty (Status.url s))) ]))
    /\ (forall table : list WatchlistItem.t,
           (forall item, In item table -> WatchlistItem.is_active item = true ->
                         ~ Offer.in_stock_somewhere item
                         \/ Offer.priced_somewhere item) ->
           map WatchlistService.r_item
               (WatchlistService.get_weekly_shopping_list names table)
           = filter WatchlistItem.is_active table).
Proof.
  intros names.
  assert (Hun : forall item : WatchlistItem.t,
             ~ Offer.in_stock_somewhere item ->
             WatchlistService.recommend names item
             = [ WatchlistService.mk_recommendation item "unavailable"
                   None None None None None None None ]).
  { intros item Hno. unfold WatchlistService.recommend.
    now rewrite (not_in_stock_somewhere item Hno). }
  assert (Hpr : forall item : WatchlistItem.t,
             Offer.priced_somewhere item ->
             exists platform s best_price,
               WatchlistItem.get_best_deal item = Some (platform, s)
               /\ In (platform, s) (WatchlistItem.status_or_empty item)
               /\ Status.in_stock s = true
               /\ Status.price s = Some best_price
               /\ Offer.lowest item best_price
               /\ (Offer.exceeds_budget item best_price ->
                   WatchlistService.recommend names item
                   = [ WatchlistService.mk_recommendation item "over_budget"
                         (Some (platform, s)) None None None None None None ])
               /\ (~ Offer.exceeds_budget item best_price ->
                   WatchlistService.recommend names item
                   = [ WatchlistService.mk_recommendation item "available" None
                         (Some (WatchlistItem.weekly_target_qty item))
                         (Some platform)
                         (Some (WatchlistService.display_name names platform))
                         (Some best_price)
                         (Some (PyFloat.mul best_price
                           (PyFloat.of_int (WatchlistItem.weekly_target_qty item))))
                         (Some (WatchlistService.or_empty (Status.url s))) ])).
  { intros item Hp.
    destruct (best_deal_of_priced item Hp)
      as (platform & s & bp & Hbest & Hin & Hs & Hprice & _ & Hlow).
    destruct (in_stock_somewhere_available item) as [_ Hav];
      [exists platform, s; auto|].
    exists platform, s, bp. repeat split; try assumption.
    - intros Hover. apply over_budget_test in Hover.
      unfold WatchlistService.recommend. rewrite Hav, Hbest. simpl.
      rewrite Hprice. now rewrite Hover.
    - intros Hnot. unfold WatchlistService.recommend. rewrite Hav, Hbest. simpl.
      rewrite Hprice.
      destruct (PyNum.truthy_opt (WatchlistItem.max_price item)
                && match WatchlistItem.max_price item with
                   | Some m => PyNum.ltb m bp
                   | None => false
                   end) eqn:E; [|reflexivity].
      exfalso. apply Hnot. now apply over_budget_test. }
  split; [exact Hun|]. split; [exact Hpr|].
  intros table Hall. unfold WatchlistService.get_weekly_shopping_list.
  induction table as [|item table IH]; [reflexivity|].
  simpl. destruct (WatchlistItem.is_active item) eqn:Eact.
  - simpl. rewrite map_app, IH by (intros i Hi; apply Hall; now right).
    assert (Hone : map WatchlistService.r_item
                     (WatchlistService.recommend names item) = [item]).
    { destruct (Hall item (or_introl eq_refl) Eact) as [Hno | Hp].
      - now rewrite (Hun item Hno).
      - destruct (Hpr item Hp) as (platform & s & bp & _ & _ & _ & _ & _ & Hov & Hok).
        destruct (WatchlistItem.max_price item) as [m|] eqn:Em.
        + destruct (Qeq_bool m 0) eqn:Ez.
          * rewrite Hok; [reflexivity|].
            intros (m' & Heq & Hnz & _). rewrite Em in Heq. inversion Heq. subst m'.
            apply Qeq_bool_iff in Ez. contradiction.
          * destruct (Qlt_le_dec m bp) as [Hlt|Hge].
            -- rewrite Hov; [reflexivity|]. exists m. repeat split; try assumption.
               intros Hq. apply Qeq_bool_iff in Hq. congruence.
            -- rewrite Hok; [reflexivity|].
               intros (m' & Heq & _ & Hlt). rewrite Em in Heq. inversion Heq.
               subst m'. lra.
        + rewrite Hok; [reflexivity|].
          intros (m' & Heq & _). rewrite Em in Heq. discriminate. }
    rewrite Hone. reflexivity.
  - apply IH. intros i Hi. apply Hall. now right.
Qed.

Lemma weekly_recommendations_witness :
  map (fun r => (WatchlistService.r_status r, WatchlistService.r_quantity r,
                 WatchlistService.r_total r))
      (WatchlistService.recommend [] Samples.out_of_stock
       ++ WatchlistService.recommend [] (Samples.priced_12 (Some 10))
       ++ WatchlistService.recommend [] (Samples.priced_12 (Some 15)))
  = [ ("unavailable", None, None);
      ("over_budget", None, None);
      ("available", Some 2%Z, Some (PyFloat.mul 12 (PyFloat.of_int 2))) ]
  /\ List.length
       (WatchlistService.get_weekly_shopping_list []
          [ Samples.out_of_stock; Samples.priced_12 (Some 10);
            Samples.priced_12 (Some 15) ])
     = 3%nat.
Proof.
  destruct (weekly_recommendations []) as (Hun & Hpr & Hlist).
  assert (Hno : ~ Offer.in_stock_somewhere Samples.out_of_stock).
  { intros (p & s & [Heq | []] & Hs). inversion Heq. subst. discriminate Hs. }
  assert (Hp : forall m, Offer.priced_somewhere (Samples.priced_12 m)).
  { intros m. exists "a", (Samples.stock true (Some 12)).
    split; [left; reflexivity | split; reflexivity]. }
  split.
  - rewrite (Hun _ Hno).
    destruct (Hpr _ (Hp (Some 10)))
      as (p1 & s1 & b1 & Hb1 & _ & _ & Hq1 & _ & Hov1 & _).
    destruct (Hpr _ (Hp (Some 15)))
      as (p2 & s2 & b2 & Hb2 & _ & _ & Hq2 & _ & _ & Hok2).
    inversion Hb1. subst p1 s1. inversion Hq1. subst b1.
    inversion Hb2. subst p2 s2. inversion Hq2. subst b2.
    rewrite Hov1, Hok2; [reflexivity | |].
    + intros (m & Hm & _ & Hlt). inversion Hm. subst m. discriminate Hlt.
    + exists 10. split; [reflexivity|]. split; [discriminate | reflexivity].
  - rewrite <- (length_map WatchlistService.r_item), Hlist; [reflexivity|].
    intros item [<- | [<- | [<- | []]]] _; [left; exact Hno | right | right];
      apply Hp.
Defined.

(** C7, the claim as the specification states it, fails: an active item that
    is in stock where no price could be read gets no recommendation at all,
    and a maximum price of zero counts as no maximum. *)
Lemma weekly_list_without_recommendation :
  WatchlistItem.is_active Samples.in_stock_unpriced = true
  /\ WatchlistItem.is_available_anywhere Samples.in_stock_unpriced = true
  /\ WatchlistService.get_weekly_shopping_list [] [Samples.in_stock_unpriced] = []
  /\ map WatchlistService.r_status
       (WatchlistService.get_weekly_shopping_list [] [Samples.priced_12 (Some 0)])
     = ["available"].
Proof. repeat split. Qed.

(** ** One check cycle *)

Section CycleFacts.
Import WatchlistService.
Variable ADAPTERS : PyDict.t PlatformAdapter.t.
Variable names : PyDict.t string.
Variable check_url : string -> py url_result.

Lemma probe_platform_set (item : WatchlistItem.t) (query : string)
    (results : PyDict.t Status.t) (platform : string) :
  probe_platform ADAPTERS item query results platform
  = PyDict.set results platform (ProbeSpec.probe_entry ADAPTERS item query platform).
Proof.
  unfold probe_platform, ProbeSpec.probe_entry.
  destruct (get_adapter ADAPTERS platform) as [adapter|e]; [|reflexivity].
  destruct (PlatformAdapter.search_products adapter query 5) as [sr|e];
    [|reflexivity].
  destruct (find (brand_matches item) (SearchResult.products sr)) as [found|];
    destruct (PlatformAdapter.close adapter) as [u|e];
    try reflexivity; apply set_set.
Qed.

Lemma fold_probe_nodup (item : WatchlistItem.t) (query : string)
    (platforms : list string) (results : PyDict.t Status.t) :
  NoDup (PyDict.keys results) ->
  NoDup (PyDict.keys (fold_left (probe_platform ADAPTERS item query) platforms results)).
Proof.
  revert results. induction platforms as [|p ps IH]; intros results Hnd;
    [exact Hnd|].
  simpl. apply IH. rewrite probe_platform_set. now apply keys_set_nodup.
Qed.

Lemma fold_probe_get_in (item : WatchlistItem.t) (query : string)
    (platforms : list string) (results : PyDict.t Status.t) (p : string) :
  In p platforms ->
  PyDict.get (fold_left (probe_platform ADAPTERS item query) platforms results) p
  = Some (ProbeSpec.probe_entry ADAPTERS item query p).
Proof.
  revert results. induction platforms as [|q ps IH]; intros results Hin;
    [contradiction|].
  simpl. destruct (in_dec string_dec p ps) as [Hps | Hps].
  - now apply IH.
  - destruct Hin as [-> | Hin]; [|contradiction].
    clear IH. rewrite probe_platform_set.
    assert (Hkeep : forall ps' r, ~ In p ps' ->
               PyDict.get (fold_left (probe_platform ADAPTERS item query) ps' r) p
               = PyDict.get r p).
    { induction ps' as [|q' ps' IH']; intros r Hn; [reflexivity|].
      simpl. rewrite IH' by (intros H; apply Hn; now right).
      rewrite probe_platform_set. apply get_set_ne.
      intros ->. apply Hn. now left. }
    rewrite Hkeep by exact Hps. apply get_set_eq.
Qed.

Lemma fold_probe_get_other (item : WatchlistItem.t) (query : string)
    (platforms : list string) (results : PyDict.t Status.t) (p : string) :
  ~ In p platforms ->
  PyDict.get (fold_left (probe_platform ADAPTERS item query) platforms results) p
  = PyDict.get results p.
Proof.
  revert results. induction platforms as [|q ps IH]; intros results Hn;
    [reflexivity|].
  simpl. rewrite IH by (intros H; apply Hn; now right).
  rewrite probe_platform_set. apply get_set_ne. intros ->. apply Hn. now left.
Qed.

Lemma check_known_urls_nodup (item : WatchlistItem.t) :
  NoDup (PyDict.keys (check_known_urls check_url item)).
Proof.
  unfold check_known_urls, PyDict.items.
  assert (H : forall (l : list (string * ProductInfo.t)) (r : PyDict.t Status.t),
             NoDup (PyDict.keys r) ->
             NoDup (PyDict.keys (fold_left (check_known_url check_url) l r))).
  { induction l as [|[platform info] l IH]; intros r Hr; [exact Hr|].
    simpl. apply IH.
    destruct info as [[url|] search_url|]; try exact Hr.
    destruct url as [|c url]; simpl; [exact Hr|].
    destruct search_url; [exact Hr|].
    destruct (check_url _); now apply keys_set_nodup. }
  apply H. constructor.
Qed.

Lemma collect_results_nodup (item : WatchlistItem.t)
    (platforms : option (list string)) :
  NoDup (PyDict.keys (collect_results ADAPTERS check_url item platforms)).
Proof. apply fold_probe_nodup, check_known_urls_nodup. Qed.

Lemma check_availability_results (item : WatchlistItem.t)
    (platforms : option (list string)) :
  fst (fst (check_availability ADAPTERS names check_url item platforms))
  = collect_results ADAPTERS check_url item platforms.
Proof.
  unfold check_availability.
  destruct (PySort.min_by _ _); reflexivity.
Qed.

Lemma check_alerts_settings (item item' : WatchlistItem.t)
    (old_status new_status : PyDict.t Status.t) :
  WatchlistItem.id item' = WatchlistItem.id item ->
  WatchlistItem.name item' = WatchlistItem.name item ->
  WatchlistItem.brand item' = WatchlistItem.brand item ->
  WatchlistItem.notify_on_restock item' = WatchlistItem.notify_on_restock item ->
  WatchlistItem.notify_on_price_drop item' = WatchlistItem.notify_on_price_drop item ->
  WatchlistItem.price_drop_threshold item' = WatchlistItem.price_drop_threshold item ->
  _check_alerts names item' old_status new_status
  = _check_alerts names item old_status new_status.
Proof.
  intros H1 H2 H3 H4 H5 H6. unfold _check_alerts. apply flat_map_ext.
  intros [platform status]. unfold alerts_for_entry.
  now rewrite H1, H2, H3, H4, H5, H6.
Qed.

Lemma check_availability_events (item : WatchlistItem.t)
    (platforms : option (list string)) :
  let results := collect_results ADAPTERS check_url item platforms in
  snd (check_availability ADAPTERS names check_url item platforms)
  = match available results with
    | [] => []
    | _ :: _ =>
        _check_alerts names item (WatchlistItem.status_or_empty item) results
    end.
Proof.
  intros results. unfold check_availability. fold results.
  destruct (available results) as [|x l]; [reflexivity|].
  simpl. now apply check_alerts_settings.
Qed.
End CycleFacts.

(** ** The alerts of a diff *)

Section AlertFacts.
Import WatchlistService.
Variable names : PyDict.t string.

Lemma filter_none {A : Type} (f : A -> bool) (l : list A) :
  (forall a, In a l -> f a = false) -> filter f l = [].
Proof.
  induction l as [|x l IH]; intros H; [reflexivity|].
  simpl. rewrite (H x (or_introl eq_refl)). apply IH.
  intros a Ha. apply H. now right.
Qed.

Lemma alerts_of_app (e1 e2 : list event) :
  AlertLog.alerts_of (e1 ++ e2) = AlertLog.alerts_of e1 ++ AlertLog.alerts_of e2.
Proof. unfold AlertLog.alerts_of. apply flat_map_app. Qed.

Lemma count_app (ty src : string) (e1 e2 : list event) :
  AlertLog.count ty src (e1 ++ e2)
  = (AlertLog.count ty src e1 + AlertLog.count ty src e2)%nat.
Proof.
  unfold AlertLog.count. now rewrite alerts_of_app, filter_app, length_app.
Qed.

Lemma entry_alerts_platform (item : WatchlistItem.t)
    (old_status : PyDict.t Status.t) (p : string) (s : Status.t)
    (a : WatchlistAlert.t) :
  In a (AlertLog.alerts_of (alerts_for_entry names item old_status (p, s))) ->
  WatchlistAlert.platform a = p.
Proof.
  unfold alerts_for_entry. rewrite alerts_of_app, in_app_iff.
  intros [H | H].
  - destruct (Status.in_stock s && negb (Status.in_stock _)); [|contradiction].
    destruct (WatchlistItem.notify_on_restock item); [|contradiction].
    destruct H as [<- | []]. reflexivity.
  - destruct (Status.price s) as [pn|]; [|contradiction].
    destruct (Status.price _) as [po|]; [|contradiction].
    destruct (PyNum.truthy pn && PyNum.truthy po); [|contradiction].
    destruct (Qle_bool _ _); [|contradiction].
    destruct (WatchlistItem.notify_on_price_drop item); [|contradiction].
    destruct H as [<- | []]. reflexivity.
Qed.

Lemma count_other_platform (item : WatchlistItem.t)
    (old_status : PyDict.t Status.t) (ty src p : string) (s : Status.t) :
  p <> src ->
  AlertLog.count ty src (alerts_for_entry names item old_status (p, s)) = 0%nat.
Proof.
  intros Hne. unfold AlertLog.count.
  assert (Hnil : filter (AlertLog.is_alert ty src)
                   (AlertLog.alerts_of (alerts_for_entry names item old_status (p, s)))
                 = []).
  { apply filter_none. intros a Ha. apply entry_alerts_platform in Ha.
    unfold AlertLog.is_alert. rewrite Ha.
    apply String.eqb_neq in Hne. now rewrite Hne, andb_false_r. }
  now rewrite Hnil.
Qed.

Lemma check_alerts_cons (item : WatchlistItem.t)
    (old_status : PyDict.t Status.t) (entry : string * Status.t)
    (l : PyDict.t Status.t) :
  _check_alerts names item old_status (entry :: l)
  = alerts_for_entry names item old_status entry
    ++ _check_alerts names item old_status l.
Proof. reflexivity. Qed.

Lemma count_absent_platform (item : WatchlistItem.t)
    (old_status new_status : PyDict.t Status.t) (ty src : string) :
  ~ In src (PyDict.keys new_status) ->
  AlertLog.count ty src (_check_alerts names item old_status new_status) = 0%nat.
Proof.
  induction new_status as [|[p s] l IH]; intros Hn; [reflexivity|].
  rewrite check_alerts_cons, count_app, IH by (intros H; apply Hn; now right).
  rewrite count_other_platform; [reflexivity|].
  intros ->. apply Hn. now left.
Qed.

(** A platform is visited once: its alerts are those of its one entry. *)
Lemma count_one_entry (item : WatchlistItem.t)
    (old_status new_status : PyDict.t Status.t) (ty src : string) (s : Status.t) :
  NoDup (PyDict.keys new_status) -> In (src, s) new_status ->
  AlertLog.count ty src (_check_alerts names item old_status new_status)
  = AlertLog.count ty src (alerts_for_entry names item old_status (src, s)).
Proof.
  induction new_status as [|[p s'] l IH]; intros Hnd Hin; [contradiction|].
  inversion Hnd as [|? ? Hnotin Hnd']. subst.
  rewrite check_alerts_cons, count_app. destruct Hin as [Heq | Hin].
  - inversion Heq. subst p s'.
    rewrite (count_absent_platform item old_status l ty src Hnotin). lia.
  - assert (Hne : p <> src).
    { intros ->. apply Hnotin. change src with (fst (src, s)). now apply in_map. }
    rewrite (count_other_platform item old_status ty src p s' Hne).
    now rewrite IH.
Qed.

Lemma price_drop_entry (item : WatchlistItem.t)
    (old_status : PyDict.t Status.t) (src : string) (old_entry new_entry : Status.t)
    (old_price new_price : Q) :
  PyDict.get old_status src = Some old_entry ->
  Status.price old_entry = Some old_price ->
  Status.price new_entry = Some new_price ->
  ~ old_price == 0 -> ~ new_price == 0 ->
  WatchlistItem.price_drop_threshold item <= price_change old_price new_price ->
  WatchlistItem.notify_on_price_drop item = true ->
  AlertLog.count "price_drop" src
    (alerts_for_entry names item old_status (src, new_entry)) = 1%nat.
Proof.
  intros Hget Hpo Hpn Hnzo Hnzn Hthr Hnot.
  unfold alerts_for_entry. rewrite Hget, Hpo, Hpn, Hnot.
  cbv beta iota zeta.
  apply truthy_true in Hnzo, Hnzn. rewrite Hnzo, Hnzn.
  apply Qle_bool_iff in Hthr. rewrite Hthr.
  destruct (Status.in_stock new_entry && negb (Status.in_stock old_entry));
    [destruct (WatchlistItem.notify_on_restock item)|];
    unfold AlertLog.count, AlertLog.alerts_of, AlertLog.is_alert; simpl;
    now rewrite String.eqb_refl.
Qed.

Lemma self_diff_entry (item : WatchlistItem.t) (old_status : PyDict.t Status.t)
    (p : string) (s : Status.t) :
  PyDict.get old_status p = Some s ->
  0 < WatchlistItem.price_drop_threshold item
  \/ WatchlistItem.notify_on_price_drop item = false ->
  alerts_for_entry names item old_status (p, s) = [].
Proof.
  intros Hget Hcond. unfold alerts_for_entry. rewrite Hget.
  rewrite andb_negb_r. simpl app.
  destruct (Status.price s) as [q|]; [|reflexivity].
  destruct (PyNum.truthy q && PyNum.truthy q) eqn:Et; [|reflexivity].
  apply andb_true_iff in Et as [Et _]. apply truthy_true in Et.
  cbv zeta. unfold price_change. rewrite sub_self, div_zero.
  destruct (Qle_bool (WatchlistItem.price_drop_threshold item) 0) eqn:E;
    [|reflexivity].
  destruct Hcond as [Hpos | ->]; [|reflexivity].
  exfalso. apply Qle_bool_iff in E. lra.
Qed.

Lemma self_diff (item : WatchlistItem.t) (snapshot : PyDict.t Status.t) :
  NoDup (PyDict.keys snapshot) ->
  0 < WatchlistItem.price_drop_threshold item
  \/ WatchlistItem.notify_on_price_drop item = false ->
  _check_alerts names item snapshot snapshot = [].
Proof.
  intros Hnd Hcond. unfold _check_alerts, PyDict.items.
  assert (H : forall l, (forall p s, In (p, s) l -> PyDict.get snapshot p = Some s) ->
                        flat_map (alerts_for_entry names item snapshot) l = []).
  { induction l as [|[p s] l IH]; intros Hl; [reflexivity|].
    cbn [flat_map].
    rewrite (self_diff_entry item snapshot p s); [|apply Hl; now left|exact Hcond].
    apply IH. intros p' s' Hin. apply Hl. now right. }
  apply H. intros p s Hin. now apply in_get.
Qed.
End AlertFacts.

(** C8 (as the code has it).  For every item that asks for restock
    notices, diffing an old snapshot in which a source is not in stock
    against a new one in which it is emits exactly one restock alert for
    that source, and no other alert when the old entry had no price; this
    covers old [{A: not in stock}] against new [{A: in stock, price 12}].
    For every item whose price-drop threshold is positive, or that asks for
    no price-drop notices, diffing any snapshot against itself emits
    nothing. *)
Theorem snapshot_diff_steady_state :
  forall (names : PyDict.t string) (item : WatchlistItem.t),
    (forall (platform : string) (old_entry new_entry : Status.t),
        WatchlistItem.notify_on_restock item = true ->
        Status.in_stock old_entry = false ->
        Status.in_stock new_entry = true ->
        AlertLog.count "restock" platform
          (WatchlistService._check_alerts names item
             [(platform, old_entry)] [(platform, new_entry)]) = 1%nat
        /\ (Status.price old_entry = None ->
            AlertLog.alerts_of
              (WatchlistService._check_alerts names item
                 [(platform, old_entry)] [(platform, new_entry)])
            = [ WatchlistAlert.mk (WatchlistItem.id item) "restock" platform
                  None (Status.price new_entry) ]))
    /\ (forall snapshot : PyDict.t Status.t,
           NoDup (PyDict.keys snapshot) ->
           0 < WatchlistItem.price_drop_threshold item
           \/ WatchlistItem.notify_on_price_drop item = false ->
           WatchlistService._check_alerts names item snapshot snapshot = []).
Proof.
  intros names item. split; [|intros snapshot; apply self_diff].
  intros platform old_entry new_entry Hnot Hold Hnew.
  unfold WatchlistService._check_alerts, PyDict.items. cbn [flat_map].
  rewrite app_nil_r. unfold WatchlistService.alerts_for_entry.
  cbn [PyDict.get]. rewrite String.eqb_refl, Hnot, Hold, Hnew.
  cbv beta iota zeta. split.
  - destruct (Status.price new_entry) as [pn|];
      [destruct (Status.price old_entry) as [po|];
       [destruct (PyNum.truthy pn && PyNum.truthy po);
        [destruct (Qle_bool _ _);
         [destruct (WatchlistItem.notify_on_price_drop item)|]|]|]|];
      unfold AlertLog.count, AlertLog.alerts_of, AlertLog.is_alert; simpl;
      now rewrite String.eqb_refl.
  - intros ->. destruct (Status.price new_entry); reflexivity.
Qed.

Lemma snapshot_diff_steady_state_witness :
  AlertLog.alerts_of
    (WatchlistService._check_alerts [] Samples.seen_at_10
       [("A", Samples.stock false None)] [("A", Samples.stock true (Some 12))])
  = [ WatchlistAlert.mk 7 "restock" "A" None (Some 12) ]
  /\ WatchlistService._check_alerts [] Samples.seen_at_10
       [("A", Samples.stock true (Some 12))] [("A", Samples.stock true (Some 12))]
     = [].
Proof.
  destruct (snapshot_diff_steady_state [] Samples.seen_at_10) as [Hrestock Hsame].
  split.
  - exact (proj2 (Hrestock "A" (Samples.stock false None)
                    (Samples.stock true (Some 12)) eq_refl eq_refl eq_refl)
                 eq_refl).
  - apply Hsame.
    + constructor; [intros [] | constructor].
    + left. reflexivity.
Defined.

(** C8, the claim as the specification states it, fails for some items: one
    that asks for no restock notices gets no restock alert, and one whose
    threshold is zero gets a price-drop alert from diffing a snapshot
    against itself. *)
Lemma snapshot_diff_not_for_every_item :
  AlertLog.count "restock" "A"
    (WatchlistService._check_alerts []
       (Samples.watched None None false true (1 # 10))
       [("A", Samples.stock false None)] [("A", Samples.stock true (Some 12))])
  = 0%nat
  /\ AlertLog.alerts_of
       (WatchlistService._check_alerts []
          (Samples.watched None None true true 0)
          [("A", Samples.stock true (Some 12))]
          [("A", Samples.stock true (Some 12))])
     = [ WatchlistAlert.mk 7 "price_drop" "A" (Some 12) (Some 12) ].
Proof. split; reflexivity. Qed.

(** C3 (as the code has it).  In a check cycle in which at least one source
    of the new snapshot is in stock with a price that is not zero, for every
    source whose old and new entries both carry a price that is not zero, if
    [(old.price - new.price) / old.price], computed in floats, reaches the
    item's threshold and the item asks for price-drop notices, exactly one
    [price_drop] alert for that source is created.  In a cycle in which no
    source is in stock with such a price, no alert is created at all. *)
Theorem price_drop_alert_when_available :
  forall (ADAPTERS : PyDict.t PlatformAdapter.t) (names : PyDict.t string)
         (check_url : string -> py WatchlistService.url_result)
         (item : WatchlistItem.t) (platforms : option (list string)),
    let outcome :=
      WatchlistService.check_availability ADAPTERS names check_url item platforms in
    let results := fst (fst outcome) in
    (forall (source : string) (old_entry new_entry : Status.t)
            (old_price new_price : Q),
        (exists p s, In (p, s) results /\ Status.in_stock s = true
                     /\ PyNum.truthy_opt (Status.price s) = true) ->
        PyDict.get (WatchlistItem.status_or_empty item) source = Some old_entry ->
        PyDict.get results source = Some new_entry ->
        Status.price old_entry = Some old_price ->
        Status.price new_entry = Some new_price ->
        ~ old_price == 0 -> ~ new_price == 0 ->
        WatchlistItem.price_drop_threshold item
          <= WatchlistService.price_change old_price new_price ->
        WatchlistItem.notify_on_price_drop item = true ->
        AlertLog.count "price_drop" source (snd outcome) = 1%nat)
    /\ ((forall p s, In (p, s) results ->
                     Status.in_stock s && PyNum.truthy_opt (Status.price s) = false) ->
        snd outcome = []).
Proof.
  intros ADAPTERS names check_url item platforms outcome results.
  unfold results, outcome.
  rewrite check_availability_results, check_availability_events.
  set (res := WatchlistService.collect_results ADAPTERS check_url item platforms).
  split.
  - intros source old_entry new_entry old_price new_price
           (p & s & Hin & Hs & Hp) Hold Hnew Hpo Hpn Hnzo Hnzn Hthr Hnot.
    assert (Hav : In (p, s) (WatchlistService.available res)).
    { apply filter_In. split; [exact Hin|]. simpl. now rewrite Hs, Hp. }
    destruct (WatchlistService.available res) as [|x l]; [contradiction|].
    rewrite (count_one_entry names item _ res "price_drop" source new_entry).
    + eapply price_drop_entry; eassumption.
    + apply collect_results_nodup.
    + now apply get_in.
  - intros Hnone.
    destruct (WatchlistService.available res) as [|[p s] l] eqn:E; [reflexivity|].
    assert (Hin : In (p, s) (WatchlistService.available res))
      by (rewrite E; now left).
    apply filter_In in Hin as [Hin Hok]. simpl in Hok.
    rewrite (Hnone p s Hin) in Hok. discriminate.
Qed.

Lemma price_drop_alert_when_available_witness :
  AlertLog.count "price_drop" "a"
    (snd (WatchlistService.check_availability (Samples.shop_at_8 true) []
            Samples.no_page Samples.seen_at_10 None)) = 1%nat
  /\ snd (WatchlistService.check_availability (Samples.shop_at_8 false) []
            Samples.no_page Samples.seen_at_10 None) = [].
Proof.
  split.
  - apply (proj1 (price_drop_alert_when_available (Samples.shop_at_8 true) []
                    Samples.no_page Samples.seen_at_10 None)
             "a" (Samples.stock true (Some 10))
             (WatchlistService.found_status
                (Samples.listing "Nuri Spiced Sardines" 8 None None true))
             10 8).
    + eexists. eexists. split; [left; reflexivity | split; reflexivity].
    + reflexivity.
    + reflexivity.
    + reflexivity.
    + reflexivity.
    + discriminate.
    + discriminate.
    + vm_compute. discriminate.
    + reflexivity.
  - apply (proj2 (price_drop_alert_when_available (Samples.shop_at_8 false) []
                    Samples.no_page Samples.seen_at_10 None)).
    intros p s [Heq | []]. inversion Heq. reflexivity.
Defined.

(** C3, the claim as the specification states it, fails when no source is in
    stock: the listing went from 10 to 8, a drop of a fifth against a
    threshold of a tenth, the source is out of stock, and the cycle creates
    no alert. *)
Lemma price_drop_without_stock_is_silent :
  let outcome :=
    WatchlistService.check_availability (Samples.shop_at_8 false) []
      Samples.no_page Samples.seen_at_10 None in
  map (fun ps => (fst ps, Status.in_stock (snd ps), Status.price (snd ps)))
      (fst (fst outcome)) = [ ("a", false, Some 8) ]
  /\ map (fun ps => (fst ps, Status.price (snd ps)))
         (WatchlistItem.status_or_empty Samples.seen_at_10) = [ ("a", Some 10) ]
  /\ WatchlistItem.price_drop_threshold Samples.seen_at_10 <= (10 - 8) / 10
  /\ WatchlistItem.notify_on_price_drop Samples.seen_at_10 = true
  /\ AlertLog.count "price_drop" "a" (snd outcome) = 0%nat.
Proof.
  cbv zeta. split; [reflexivity|]. split; [reflexivity|].
  split; [discriminate|]. split; reflexivity.
Qed.

(** C10.  For every watchlist item whose brand is [None] or the empty
    string, the brand test of the search loop accepts every listing, the
    empty string being contained in every lower-cased name; the loop
    therefore selects the first listing the platform returned, whatever it
    is, and with no listing records "not found". *)
Theorem empty_brand_selects_first_listing :
  forall (ADAPTERS : PyDict.t PlatformAdapter.t) (item : WatchlistItem.t)
         (query platform : string) (results : PyDict.t Status.t)
         (adapter : PlatformAdapter.t) (search_result : SearchResult.t),
    WatchlistItem.brand item = None \/ WatchlistItem.brand item = Some "" ->
    WatchlistService.get_adapter ADAPTERS platform = Ret adapter ->
    PlatformAdapter.search_products adapter query 5 = Ret search_result ->
    PlatformAdapter.close adapter = Ret tt ->
    (forall product, WatchlistService.brand_matches item product = true)
    /\ find (WatchlistService.brand_matches item)
         (SearchResult.products search_result)
       = hd_error (SearchResult.products search_result)
    /\ WatchlistService.probe_platform ADAPTERS item query results platform
       = PyDict.set results platform
           match SearchResult.products search_result with
           | first :: _ => WatchlistService.found_status first
           | [] => WatchlistService.not_found_status
           end.
Proof.
  intros ADAPTERS item query platform results adapter sr Hbrand Hget Hsearch Hclose.
  assert (Hall : forall product, WatchlistService.brand_matches item product = true).
  { intros product. unfold WatchlistService.brand_matches.
    destruct Hbrand as [-> | ->]; apply contains_nil. }
  assert (Hfind : find (WatchlistService.brand_matches item)
                    (SearchResult.products sr)
                  = hd_error (SearchResult.products sr)).
  { destruct (SearchResult.products sr) as [|first rest]; [reflexivity|].
    simpl. now rewrite Hall. }
  split; [exact Hall|]. split; [exact Hfind|].
  unfold WatchlistService.probe_platform. rewrite Hget, Hsearch, Hclose, Hfind.
  destruct (SearchResult.products sr); reflexivity.
Qed.

Lemma empty_brand_selects_first_listing_witness :
  PyDict.get
    (WatchlistService.probe_platform Samples.shop_other_first Samples.unbranded
       "sardines" [] "a") "a"
  = Some (WatchlistService.found_status
            (Samples.listing "Canned Tuna" 3 None None true)).
Proof.
  rewrite (proj2 (proj2 (empty_brand_selects_first_listing
                           Samples.shop_other_first Samples.unbranded
                           "sardines" "a" []
                           (Samples.answering
                              [ Samples.listing "Canned Tuna" 3 None None true;
                                Samples.listing "Nuri Spiced Sardines" 8 None None true ])
                           (SearchResult.mk "" "sardines"
                              [ Samples.listing "Canned Tuna" 3 None None true;
                                Samples.listing "Nuri Spiced Sardines" 8 None None true ]
                              2 1 false)
                           (or_introl eq_refl) eq_refl eq_refl eq_refl))).
  reflexivity.
Defined.

(** ** Faults of single sources *)

Section FaultFacts.
Import PriceService.

Lemma search_step (results : PyDict.t (list Product.t)) (name : string)
    (adapter : PlatformAdapter.t) (query : string) (limit : Z) :
  match PlatformAdapter.search_products adapter query limit with
  | Ret result => PyDict.set results name (SearchResult.products result)
  | Raise _ => PyDict.set results name []
  end
  = PyDict.set results name (FaultSpec.contribution adapter query limit).
Proof.
  unfold FaultSpec.contribution.
  now destruct (PlatformAdapter.search_products adapter query limit).
Qed.

Lemma search_fold_get (adapters : PyDict.t PlatformAdapter.t) (query : string)
    (limit : Z) (init : PyDict.t (list Product.t)) (name : string)
    (adapter : PlatformAdapter.t) :
  NoDup (PyDict.keys adapters) -> In (name, adapter) adapters ->
  PyDict.get
    (fold_left
       (fun results '(platform_name, adapter) =>
          match PlatformAdapter.search_products adapter query limit with
          | Ret result =>
              PyDict.set results platform_name (SearchResult.products result)
          | Raise _ => PyDict.set results platform_name []
          end)
       adapters init) name
  = Some (FaultSpec.contribution adapter query limit).
Proof.
  revert init. induction adapters as [|[n a] l IH]; intros init Hnd Hin;
    [contradiction|].
  inversion Hnd as [|? ? Hnotin Hnd']. subst. cbn [fold_left].
  rewrite search_step. destruct Hin as [Heq | Hin].
  - inversion Heq. subst n a. clear IH.
    assert (Hkeep : forall l' r, ~ In name (PyDict.keys l') ->
               PyDict.get
                 (fold_left
                    (fun results '(platform_name, adapter0) =>
                       match PlatformAdapter.search_products adapter0 query limit with
                       | Ret result =>
                           PyDict.set results platform_name
                             (SearchResult.products result)
                       | Raise _ => PyDict.set results platform_name []
                       end) l' r) name
               = PyDict.get r name).
    { induction l' as [|[n' a'] l' IH']; intros r Hn; [reflexivity|].
      cbn [fold_left]. rewrite search_step.
      rewrite IH' by (intros H; apply Hn; now right).
      apply get_set_ne. intros ->. apply Hn. now left. }
    rewrite Hkeep by exact Hnotin. apply get_set_eq.
  - now apply IH.
Qed.

Lemma search_all_platforms_get (adapters : PyDict.t PlatformAdapter.t)
    (query : string) (limit : Z) (name : string) (adapter : PlatformAdapter.t) :
  NoDup (PyDict.keys adapters) -> In (name, adapter) adapters ->
  PyDict.get (search_all_platforms adapters query limit) name
  = Some (FaultSpec.contribution adapter query limit).
Proof. apply search_fold_get. Qed.

Lemma flatten_complete (all_results : PyDict.t (list Product.t))
    (name : string) (products : list Product.t) (p : Product.t) :
  In (name, products) all_results -> In p products ->
  exists x, In x (flatten all_results) /\ c_platform x = name /\ c_product x = p.
Proof.
  intros Hin Hp.
  exists (mk_comparison name p (Product.price p) (Product.unit_price p)).
  split; [|split; reflexivity].
  unfold flatten, PyDict.items. apply in_flat_map.
  exists (name, products). split; [exact Hin|].
  apply in_map_iff. exists p. auto.
Qed.
End FaultFacts.

(** C4 (as the code has it).  A source whose search raises is contained:
    [search_all_platforms] gives every registered source its own entry, the
    listings it returned or the empty list when it raised, whatever the
    other sources did, and [compare_prices] returns every listing of every
    source that answered.  The fault itself is not returned: the entry of a
    faulting source is the entry of a source with nothing to list.
    [check_availability] gives every platform it probes an entry that
    depends on that platform's adapter alone, and for a platform whose
    adapter is unknown or whose search raises that entry is a fault record:
    not in stock, no price, and the error text. *)
Theorem source_faults_are_contained :
  (forall (adapters : PyDict.t PlatformAdapter.t) (query : string) (limit : Z)
          (name : string) (adapter : PlatformAdapter.t),
      NoDup (PyDict.keys adapters) -> In (name, adapter) adapters ->
      PyDict.get (PriceService.search_all_platforms adapters query limit) name
      = Some (FaultSpec.contribution adapter query limit)
      /\ (forall p, In p (FaultSpec.contribution adapter query limit) ->
                    exists x,
                      In x (PriceService.compare_prices adapters query limit)
                      /\ PriceService.c_platform x = name
                      /\ PriceService.c_product x = p))
  /\ (forall (ADAPTERS : PyDict.t PlatformAdapter.t) (names : PyDict.t string)
             (check_url : string -> py WatchlistService.url_result)
             (item : WatchlistItem.t) (platforms : option (list string))
             (platform : string),
         In platform (WatchlistService.platforms_to_check ADAPTERS item platforms) ->
         PyDict.get
           (fst (fst (WatchlistService.check_availability ADAPTERS names
                        check_url item platforms))) platform
         = Some (ProbeSpec.probe_entry ADAPTERS item
                   (WatchlistService.search_query item) platform))
  /\ (forall (ADAPTERS : PyDict.t PlatformAdapter.t) (item : WatchlistItem.t)
             (query platform : string),
         (exists e, WatchlistService.get_adapter ADAPTERS platform = Raise e)
         \/ (exists adapter e,
                WatchlistService.get_adapter ADAPTERS platform = Ret adapter
                /\ PlatformAdapter.search_products adapter query 5 = Raise e) ->
         ProbeSpec.is_fault_record
           (ProbeSpec.probe_entry ADAPTERS item query platform)).
Proof.
  split; [|split].
  - intros adapters query limit name adapter Hnd Hin.
    pose proof (search_all_platforms_get adapters query limit name adapter Hnd Hin)
      as Hget.
    split; [exact Hget|].
    intros p Hp. apply get_in in Hget.
    destruct (flatten_complete _ _ _ _ Hget Hp) as (x & Hx & Hname & Hprod).
    exists x. split; [|auto]. now apply compare_prices_In.
  - intros ADAPTERS names check_url item platforms platform Hin.
    rewrite check_availability_results.
    unfold WatchlistService.collect_results. now apply fold_probe_get_in.
  - intros ADAPTERS item query platform H. unfold ProbeSpec.probe_entry.
    destruct H as [[e ->] | (adapter & e & -> & ->)];
      (split; [reflexivity | split; [reflexivity | eexists; reflexivity]]).
Qed.

Lemma source_faults_are_contained_witness :
  PyDict.get (PriceService.search_all_platforms Samples.first_down "milk" 5) "B"
  = Some [Samples.listing "b" 4 None None true]
  /\ PyDict.get
       (fst (fst (WatchlistService.check_availability Samples.registry_a_down []
                    Samples.no_page Samples.watched_on_a_b None))) "b"
     = Some (WatchlistService.found_status
               (Samples.listing "Nuri Spiced Sardines" 9 None None true))
  /\ ProbeSpec.is_fault_record
       (ProbeSpec.probe_entry Samples.registry_a_down Samples.watched_on_a_b
          "nuri sardines" "a").
Proof.
  destruct source_faults_are_contained as (Hsearch & Hcheck & Hfault).
  split; [|split].
  - apply (Hsearch Samples.first_down "milk" 5%Z "B"
             (Samples.answering [Samples.listing "b" 4 None None true])).
    + repeat constructor; simpl; intuition discriminate.
    + right. left. reflexivity.
  - apply (Hcheck Samples.registry_a_down [] Samples.no_page
             Samples.watched_on_a_b None "b").
    right. left. reflexivity.
  - apply Hfault. right. eexists. eexists. split; reflexivity.
Defined.

(** C4, the claim as the specification states it, fails: what
    [search_all_platforms] and [compare_prices] return when source A raises
    is what they return when A has nothing to list, so no record of the
    fault comes back and no fault manifest can be read off the result. *)
Lemma search_returns_no_fault_record :
  PriceService.search_all_platforms Samples.first_down "milk" 5
  = PriceService.search_all_platforms Samples.first_empty "milk" 5
  /\ PriceService.compare_prices Samples.first_down "milk" 5
     = PriceService.compare_prices Samples.first_empty "milk" 5
  /\ FaultSpec.faulted Samples.first_down "milk" 5 = ["A"]
  /\ FaultSpec.faulted Samples.first_empty "milk" 5 = []
  /\ ~ FaultSpec.has_fault_manifest.
Proof.
  split; [reflexivity|]. split; [reflexivity|].
  split; [reflexivity|]. split; [reflexivity|].
  intros [manifest H].
  pose proof (H Samples.first_down "milk" 5%Z) as Hdown.
  pose proof (H Samples.first_empty "milk" 5%Z) as Hempty.
  change (PriceService.search_all_platforms Samples.first_empty "milk" 5)
    with (PriceService.search_all_platforms Samples.first_down "milk" 5) in Hempty.
  rewrite Hdown in Hempty. discriminate Hempty.
Qed.

(** ** Two callers checking one item *)

Section OverlapFacts.
Import WatchlistService.
Variable ADAPTERS : PyDict.t PlatformAdapter.t.
Variable names : PyDict.t string.
Variable check_url : string -> py url_result.

Lemma check_availability_item (item : WatchlistItem.t)
    (platforms : option (list string)) :
  exists best_price best_platform,
    snd (fst (check_availability ADAPTERS names check_url item platforms))
    = updated item (collect_results ADAPTERS check_url item platforms)
        best_price best_platform.
Proof.
  unfold check_availability.
  destruct (PySort.min_by _ _); eexists; eexists; reflexivity.
Qed.

Lemma collect_results_updated (item : WatchlistItem.t)
    (results : PyDict.t Status.t) (best_price : option Q)
    (best_platform : option string) (platforms : option (list string)) :
  collect_results ADAPTERS check_url
    (updated item results best_price best_platform) platforms
  = collect_results ADAPTERS check_url item platforms.
Proof. reflexivity. Qed.

(** A cycle that starts from the snapshot a cycle has just written, with
    the sources unchanged, creates no alert. *)
Lemma next_cycle_is_silent (item : WatchlistItem.t) (best_price : option Q)
    (best_platform : option string) (platforms : option (list string)) :
  0 < WatchlistItem.price_drop_threshold item
  \/ WatchlistItem.notify_on_price_drop item = false ->
  snd (check_availability ADAPTERS names check_url
         (updated item (collect_results ADAPTERS check_url item platforms)
            best_price best_platform)
         platforms) = [].
Proof.
  intros Hcond. rewrite check_availability_events. cbv zeta.
  rewrite collect_results_updated.
  destruct (available _); [reflexivity|].
  apply self_diff; [apply collect_results_nodup | exact Hcond].
Qed.
End OverlapFacts.

(** C9 (as the code has it).  No mutual exclusion protects the check cycle
    of an item: nothing keeps a second caller from loading the item while a
    first one is between its load and its commit.  With the sources
    unchanged and a positive price-drop threshold, two cycles of one item
    run one after the other create the alerts of one cycle, the second
    diffing against the snapshot the first wrote; two cycles that both load
    before either commits diff against the same baseline and create every
    alert of the cycle twice. *)
Theorem overlapping_cycles_repeat_alerts :
  forall (ADAPTERS : PyDict.t PlatformAdapter.t) (names : PyDict.t string)
         (check_url : string -> py WatchlistService.url_result)
         (d : Cycles.database),
    let outcome :=
      WatchlistService.check_availability ADAPTERS names check_url
        (Cycles.row d) None in
    let fired := AlertLog.alerts_of (snd outcome) in
    0 < WatchlistItem.price_drop_threshold (Cycles.row d)
    \/ WatchlistItem.notify_on_price_drop (Cycles.row d) = false ->
    Cycles.alert_rows
      (Cycles.db (Cycles.run ADAPTERS names check_url Cycles.one_after_another
                    (Cycles.start d)))
    = Cycles.alert_rows d ++ fired
    /\ Cycles.db (Cycles.run ADAPTERS names check_url Cycles.overlapping
                    (Cycles.start d))
       = Cycles.mk_database (snd (fst outcome))
           (Cycles.alert_rows d ++ fired ++ fired)
    /\ ~ Cycles.exclusive
           (Cycles.run ADAPTERS names check_url [Cycles.First; Cycles.Second]
              (Cycles.start d)).
Proof.
  intros ADAPTERS names check_url d outcome fired Hcond.
  split; [|split].
  - cbn -[WatchlistService.check_availability].
    destruct (check_availability_item ADAPTERS names check_url (Cycles.row d) None)
      as (bp & bl & Hitem).
    rewrite Hitem.
    rewrite (next_cycle_is_silent ADAPTERS names check_url (Cycles.row d) bp bl
               None Hcond).
    cbn [AlertLog.alerts_of flat_map]. now rewrite app_nil_r.
  - cbn -[WatchlistService.check_availability].
    fold outcome. fold fired. now rewrite <- app_assoc.
  - cbn. discriminate.
Qed.

Lemma overlapping_cycles_repeat_alerts_witness :
  Cycles.alert_rows
    (Cycles.db (Cycles.run (Samples.shop_at_8 true) [] Samples.no_page
                  Cycles.one_after_another
                  (Cycles.start (Cycles.mk_database Samples.seen_out_of_stock []))))
  = [ WatchlistAlert.mk 7 "restock" "a" None (Some 8) ].
Proof.
  exact (proj1 (overlapping_cycles_repeat_alerts (Samples.shop_at_8 true) []
                  Samples.no_page
                  (Cycles.mk_database Samples.seen_out_of_stock [])
                  (or_introl eq_refl))).
Defined.

(** C9, the claim as the specification states it, fails: a second caller
    may load the item while the first is between its load and its commit,
    and when both do, the one restock of source "a" is announced twice. *)
Lemma overlapping_cycles_double_fire :
  let d := Cycles.mk_database Samples.seen_out_of_stock [] in
  ~ Cycles.exclusive
      (Cycles.run (Samples.shop_at_8 true) [] Samples.no_page
         [Cycles.First; Cycles.Second] (Cycles.start d))
  /\ Cycles.alert_rows
       (Cycles.db (Cycles.run (Samples.shop_at_8 true) [] Samples.no_page
                     Cycles.overlapping (Cycles.start d)))
     = [ WatchlistAlert.mk 7 "restock" "a" None (Some 8);
         WatchlistAlert.mk 7 "restock" "a" None (Some 8) ].
Proof. split; [discriminate | reflexivity]. Qed.

(** ** The price store *)

Section StoreFacts.
Import PriceService.

Lemma opt_Z_eqb_eq (a : option Z) (b : Z) : opt_Z_eqb a b = true <-> a = Some b.
Proof.
  destruct a as [x|]; simpl; [|split; discriminate].
  rewrite Z.eqb_eq. split; [now intros -> | now intros [= ->]].
Qed.

Lemma in_window_iff (id cutoff : Z) (r : PriceRecord.t) :
  in_window id cutoff r = true
  <-> PriceRecord.inventory_item_id r = Some id
      /\ (cutoff <= PriceRecord.scraped_at r)%Z.
Proof.
  unfold in_window. now rewrite andb_true_iff, opt_Z_eqb_eq, Z.leb_le.
Qed.

Lemma filter_filter_implied {A : Type} (f g : A -> bool) (l : list A) :
  (forall x, In x l -> f x = true -> g x = true) ->
  filter f (filter g l) = filter f l.
Proof.
  induction l as [|x l IH]; intros H; [reflexivity|].
  simpl. destruct (g x) eqn:Eg; simpl.
  - destruct (f x); [f_equal|]; apply IH; intros y Hy; apply H; now right.
  - destruct (f x) eqn:Ef.
    + rewrite (H x (or_introl eq_refl) Ef) in Eg. discriminate.
    + apply IH. intros y Hy. apply H. now right.
Qed.

(** Sorting a list with one strictly first element appended. *)
Lemma sort_snoc_first {A : Type} (before : A -> A -> bool) (l : list A) (x : A) :
  (forall y, In y l -> before x y = true) ->
  PySort.sort before (l ++ [x]) = x :: PySort.sort before l.
Proof.
  induction l as [|a l IH]; intros H; [reflexivity|].
  simpl. rewrite IH by (intros y Hy; apply H; now right).
  simpl. now rewrite (H a (or_introl eq_refl)).
Qed.

Lemma history_rows (d : db) (now id : Z) (platform : option string) (days : Z) :
  get_price_history d now id platform days
  = PySort.sort newer_first
      (filter (fun r => in_window id (now - seconds_of_days days) r
                        && match platform with
                           | Some p => if PyStr.truthy_opt (Some p)
                                       then String.eqb (PriceRecord.platform r) p
                                       else true
                           | None => true
                           end)
              (price_records d)).
Proof.
  unfold get_price_history. f_equal.
  destruct platform as [p|].
  - destruct (PyStr.truthy_opt (Some p)).
    + induction (price_records d) as [|r l IH]; [reflexivity|].
      simpl. destruct (in_window id _ r); simpl.
      * destruct (String.eqb (PriceRecord.platform r) p); [f_equal|]; exact IH.
      * exact IH.
    + apply filter_ext. intros r. now rewrite andb_true_r.
  - apply filter_ext. intros r. now rewrite andb_true_r.
Qed.
End StoreFacts.

Lemma filter_snoc {A : Type} (f : A -> bool) (l : list A) (x : A) :
  filter f (l ++ [x]) = filter f l ++ (if f x then [x] else []).
Proof. rewrite filter_app. simpl. now destruct (f x). Qed.

(** X1.  [get_price_history] returns, newest first, exactly the rows of the
    item that were scraped within the last [days] days, each as often as the
    table holds it, narrowed to one platform only when a non-empty platform
    name is given; an empty name filters nothing. *)
Theorem price_history_contents :
  forall (d : PriceService.db) (now id : Z) (platform : option string) (days : Z),
    let h := PriceService.get_price_history d now id platform days in
    StronglySorted
      (fun a b => (PriceRecord.scraped_at b <= PriceRecord.scraped_at a)%Z) h
    /\ Permutation h
         (filter (PriceQuery.wanted now id platform days)
                 (PriceService.price_records d))
    /\ (forall r, In r (PriceService.price_records d) ->
                  (PriceQuery.wanted now id platform days r = true
                   <-> PriceQuery.in_history d now id platform days r))
    /\ (forall r, In r h <-> PriceQuery.in_history d now id platform days r)
    /\ PriceService.get_price_history d now id (Some "") days
       = PriceService.get_price_history d now id None days.
Proof.
  intros d now id platform days h. unfold h.
  assert (Hwanted : forall r, In r (PriceService.price_records d) ->
             (PriceQuery.wanted now id platform days r = true
              <-> PriceQuery.in_history d now id platform days r)).
  { intros r Hin. unfold PriceQuery.wanted, PriceQuery.in_history.
    rewrite andb_true_iff, in_window_iff. split.
    - intros [[Hid Hts] Hp]. repeat split; try assumption.
      destruct platform as [p|]; [|exact I].
      destruct p as [|c p]; [now left|]. right. now apply String.eqb_eq.
    - intros (_ & Hid & Hts & Hp). repeat split; try assumption.
      destruct platform as [p|]; [|reflexivity].
      destruct p as [|c p]; [reflexivity|]. simpl.
      destruct Hp as [Hp | Hp]; [discriminate | now apply String.eqb_eq]. }
  split; [|split; [|split; [exact Hwanted|split]]].
  - unfold PriceService.get_price_history. apply newer_first_sorted.
  - rewrite history_rows. apply sort_perm.
  - intros r. rewrite history_rows. split.
    + intros H. apply (Permutation_in _ (sort_perm _ _)) in H.
      apply filter_In in H as [Hin Hok]. apply andb_true_iff in Hok as [Hw Hp].
      apply in_window_iff in Hw as [Hid Hts].
      repeat split; try assumption.
      destruct platform as [p|]; [|exact I].
      destruct p as [|c p]; [now left|]. right. now apply String.eqb_eq.
    + intros (Hin & Hid & Hts & Hp).
      apply (Permutation_in _ (Permutation_sym (sort_perm _ _))).
      apply filter_In. split; [exact Hin|]. apply andb_true_iff. split.
      * now apply in_window_iff.
      * destruct platform as [p|]; [|reflexivity].
        destruct p as [|c p]; [reflexivity|]. simpl.
        destruct Hp as [Hp | Hp]; [discriminate | now apply String.eqb_eq].
  - reflexivity.
Qed.

(** X2.  [cleanup_old_records] removes exactly the rows scraped before its
    cutoff, and a history window no longer than the retention reads the
    same after the sweep as before: the sweep changes neither
    [get_price_history] nor, for a retention of a week or more, the price
    alerts. *)
Theorem cleanup_keeps_recent_history :
  forall (d : PriceService.db) (swept_at keep : Z),
    let d' := PriceStore.cleanup_old_records d swept_at keep in
    (forall r, In r (PriceService.price_records d') <->
               In r (PriceService.price_records d)
               /\ (swept_at - PriceService.seconds_of_days keep
                   <= PriceRecord.scraped_at r)%Z)
    /\ (forall (now id : Z) (platform : option string) (days : Z),
           (swept_at <= now)%Z -> (days <= keep)%Z ->
           PriceService.get_price_history d' now id platform days
           = PriceService.get_price_history d now id platform days)
    /\ (forall (now : Z) (t : Q),
           (swept_at <= now)%Z -> (7 <= keep)%Z ->
           PriceService.get_price_alerts d' now t
           = PriceService.get_price_alerts d now t).
Proof.
  intros d swept_at keep d'.
  assert (Hrows : forall r, In r (PriceService.price_records d') <->
               In r (PriceService.price_records d)
               /\ (swept_at - PriceService.seconds_of_days keep
                   <= PriceRecord.scraped_at r)%Z).
  { intros r. unfold d', PriceStore.cleanup_old_records. simpl.
    rewrite filter_In, negb_true_iff, Z.ltb_ge. reflexivity. }
  assert (Hhist : forall (now id : Z) (platform : option string) (days : Z),
             (swept_at <= now)%Z -> (days <= keep)%Z ->
             PriceService.get_price_history d' now id platform days
             = PriceService.get_price_history d now id platform days).
  { intros now id platform days Hnow Hdays. rewrite !history_rows. f_equal.
    unfold d', PriceStore.cleanup_old_records. simpl.
    apply filter_filter_implied. intros r _ Hok.
    apply andb_true_iff in Hok as [Hw _]. apply in_window_iff in Hw as [_ Hts].
    rewrite negb_true_iff, Z.ltb_ge.
    unfold PriceService.seconds_of_days in *. lia. }
  split; [exact Hrows|]. split; [exact Hhist|].
  intros now t Hnow Hkeep. unfold PriceService.get_price_alerts.
  change (PriceService.inventory_items d') with (PriceService.inventory_items d).
  apply flat_map_ext. intros item. unfold PriceService.price_alert_of.
  now rewrite Hhist by lia.
Qed.

Lemma cleanup_keeps_recent_history_witness :
  PriceService.get_price_history
    (PriceStore.cleanup_old_records Samples.history_ten_days_apart
       (10 * Samples.day) 8)
    (10 * Samples.day) 1 None 7
  = PriceService.get_price_history Samples.history_ten_days_apart
      (10 * Samples.day) 1 None 7
  /\ PriceService.get_price_alerts
       (PriceStore.cleanup_old_records Samples.history_10_then_8_5
          (3 * Samples.day) 90)
       (3 * Samples.day) 10
     = PriceService.get_price_alerts Samples.history_10_then_8_5
         (3 * Samples.day) 10.
Proof.
  split.
  - apply (proj1 (proj2 (cleanup_keeps_recent_history
                           Samples.history_ten_days_apart (10 * Samples.day) 8)));
      discriminate.
  - apply (proj2 (proj2 (cleanup_keeps_recent_history
                           Samples.history_10_then_8_5 (3 * Samples.day) 90)));
      discriminate.
Defined.

Lemma save_heads_history (d : PriceService.db) (saved_at id : Z)
    (platform : string) (product : Product.t) (now days : Z) :
  (now - PriceService.seconds_of_days days <= saved_at)%Z ->
  (forall r, In r (PriceService.price_records d) ->
             (PriceRecord.scraped_at r < saved_at)%Z) ->
  PriceService.get_price_history
    (fst (PriceStore.save_price_record d saved_at (Some id) platform product))
    now id None days
  = snd (PriceStore.save_price_record d saved_at (Some id) platform product)
    :: PriceService.get_price_history d now id None days.
Proof.
  intros Hwin Hnew.
  set (d' := fst (PriceStore.save_price_record d saved_at (Some id) platform product)).
  set (record := snd (PriceStore.save_price_record d saved_at (Some id) platform
                        product)).
  rewrite !history_rows.
  change (PriceService.price_records d')
    with (PriceService.price_records d ++ [record]).
  rewrite filter_snoc.
  assert (Hin : PriceService.in_window id
                  (now - PriceService.seconds_of_days days) record = true).
  { apply in_window_iff. split; [reflexivity | exact Hwin]. }
  rewrite Hin. cbn [andb].
  apply sort_snoc_first. intros y Hy. apply filter_In in Hy as [Hy _].
  unfold PriceService.newer_first. apply Z.ltb_lt. now apply Hnew.
Qed.

(** X3.  A saved price record is stamped with the time of saving and, when
    that is later than every stored row and inside the window asked for, it
    heads the history of its item; the history of every other item is as
    before. *)
Theorem saved_record_heads_history :
  forall (d : PriceService.db) (saved_at id : Z) (platform : string)
         (product : Product.t) (now days : Z),
    let d' := fst (PriceStore.save_price_record d saved_at (Some id) platform product) in
    let record := snd (PriceStore.save_price_record d saved_at (Some id) platform product) in
    (now - PriceService.seconds_of_days days <= saved_at)%Z ->
    (forall r, In r (PriceService.price_records d) ->
               (PriceRecord.scraped_at r < saved_at)%Z) ->
    PriceRecord.price record = Product.price product
    /\ PriceRecord.scraped_at record = saved_at
    /\ PriceService.get_price_history d' now id None days
       = record :: PriceService.get_price_history d now id None days
    /\ (forall (other : Z) (p : option string) (n w : Z),
           other <> id ->
           PriceService.get_price_history d' n other p w
           = PriceService.get_price_history d n other p w).
Proof.
  intros d saved_at id platform product now days d' record Hwin Hnew.
  split; [reflexivity|]. split; [reflexivity|]. split.
  - rewrite !history_rows.
    change (PriceService.price_records d')
      with (PriceService.price_records d ++ [record]).
    rewrite filter_snoc.
    assert (Hin : PriceService.in_window id
                    (now - PriceService.seconds_of_days days) record = true).
    { apply in_window_iff. split; [reflexivity | exact Hwin]. }
    rewrite Hin. cbn [andb].
    apply sort_snoc_first. intros y Hy. apply filter_In in Hy as [Hy _].
    unfold PriceService.newer_first. apply Z.ltb_lt. now apply Hnew.
  - intros other p n w Hne. rewrite !history_rows.
    change (PriceService.price_records d')
      with (PriceService.price_records d ++ [record]).
    rewrite filter_snoc.
    assert (Hout : PriceService.in_window other
                     (n - PriceService.seconds_of_days w) record = false).
    { unfold PriceService.in_window. simpl.
      destruct (Z.eqb_spec id other) as [->|_]; [contradiction | reflexivity]. }
    rewrite Hout. cbn [andb]. now rewrite app_nil_r.
Qed.

Lemma saved_record_heads_history_witness :
  map PriceRecord.price
    (PriceService.get_price_history
       (fst (PriceStore.save_price_record Samples.history_10_then_8_5
               (3 * Samples.day) (Some 1%Z) "B"
               (Samples.listing "milk" 7 None None true)))
       (3 * Samples.day) 1 None 7)
  = [7; 85 # 10; 10].
Proof.
  rewrite (proj1 (proj2 (proj2 (saved_record_heads_history
             Samples.history_10_then_8_5 (3 * Samples.day) 1 "B"
             (Samples.listing "milk" 7 None None true) (3 * Samples.day) 7
             ltac:(discriminate)
             ltac:(intros r [<- | [<- | []]]; reflexivity))))).
  reflexivity.
Defined.

(** X4.  After a price is saved for an active item whose earlier prices of
    the week carry stamps that differ, the alert pass compares it with the
    newest earlier price of the item inside the week, whatever platform
    either came from: an alert for the item is raised exactly when that
    earlier price is positive and the change in percent, computed in floats
    as [((saved - earlier) / earlier) * 100], is at most minus the
    threshold; the alert names the platform of the saved record and
    carries the two prices and that change. *)
Theorem saved_price_is_compared_with_previous :
  forall (d : PriceService.db) (saved_at : Z) (platform : string)
         (product : Product.t) (now : Z) (t : Q) (item : InventoryItem.t)
         (previous : PriceRecord.t) (rest : list PriceRecord.t),
    let d' := fst (PriceStore.save_price_record d saved_at
                     (Some (InventoryItem.id item)) platform product) in
    let p := PriceRecord.price previous in
    let l := Product.price product in
    In item (PriceService.inventory_items d) ->
    InventoryItem.is_active item = 1%Z ->
    (now - PriceService.seconds_of_days 7 <= saved_at)%Z ->
    (forall r, In r (PriceService.price_records d) ->
               (PriceRecord.scraped_at r < saved_at)%Z) ->
    NoDup (map PriceRecord.scraped_at
             (filter (PriceService.in_window (InventoryItem.id item)
                        (now - PriceService.seconds_of_days 7))
                     (PriceService.price_records d))) ->
    PriceService.get_price_history d now (InventoryItem.id item) None 7
      = previous :: rest ->
    ((exists a, In a (PriceService.get_price_alerts d' now t)
                /\ PriceService.a_item a = item)
     <-> 0 < p /\ PriceService.change_percent l p <= - t)
    /\ (forall a, In a (PriceService.get_price_alerts d' now t) ->
                  PriceService.a_item a = item ->
                  PriceService.a_platform a = platform
                  /\ PriceService.a_current_price a = l
                  /\ PriceService.a_previous_price a = p
                  /\ PriceService.a_change_percent a
                     = PriceService.change_percent l p)
    /\ Forall (fun e => (PriceRecord.scraped_at e
                         < PriceRecord.scraped_at previous)%Z) rest.
Proof.
  intros d saved_at platform product now t item previous rest d' p l
         Hitem Hact Hwin Hnew Hnd Hhist.
  pose proof (save_heads_history d saved_at (InventoryItem.id item)
                platform product now 7 Hwin Hnew) as Hhead.
  fold d' in Hhead. rewrite Hhist in Hhead.
  destruct (price_alert_of_two d' now t item _ _ _ Hhead) as [Hyes Hno].
  simpl in Hyes, Hno. fold p l in Hyes, Hno.
  assert (Hitem' : In item (PriceService.inventory_items d')) by exact Hitem.
  split; [|split].
  - split.
    + intros [a Ha]. apply get_price_alerts_of_item in Ha; try assumption.
      destruct (Qlt_le_dec 0 p) as [Hp|Hp].
      * destruct (Qlt_le_dec (- t) (PriceService.change_percent l p)) as [Hc|Hc];
          [|now split].
        rewrite Hno in Ha; [contradiction|]. intros [_ Hc']. lra.
      * rewrite Hno in Ha; [contradiction|]. intros [Hp' _]. lra.
    + intros Hc. eexists. apply get_price_alerts_of_item; try assumption.
      rewrite (Hyes Hc). left. reflexivity.
  - intros a Ha Heq.
    assert (Ha' : In a (PriceService.price_alert_of d' now t item))
      by (apply get_price_alerts_of_item; auto).
    destruct (Qlt_le_dec 0 p) as [Hp|Hp].
    + destruct (Qlt_le_dec (- t) (PriceService.change_percent l p)) as [Hc|Hc].
      * rewrite Hno in Ha'; [contradiction|]. intros [_ Hc']. lra.
      * rewrite (Hyes (conj Hp Hc)) in Ha'. destruct Ha' as [<- | []].
        repeat split.
    + rewrite Hno in Ha'; [contradiction|]. intros [Hp' _]. lra.
  - pose proof (history_strict d now (InventoryItem.id item) Hnd) as Hs.
    rewrite Hhist in Hs. now inversion Hs.
Qed.

Lemma saved_price_is_compared_with_previous_witness :
  exists a,
    In a (PriceService.get_price_alerts
            (fst (PriceStore.save_price_record Samples.history_10_then_8_5
                    (3 * Samples.day) (Some 1%Z) "B"
                    (Samples.listing "milk" 7 None None true)))
            (3 * Samples.day) 10)
    /\ PriceService.a_item a = Samples.milk.
Proof.
  apply (proj1 (saved_price_is_compared_with_previous
                  Samples.history_10_then_8_5 (3 * Samples.day) "B"
                  (Samples.listing "milk" 7 None None true) (3 * Samples.day)
                  10 Samples.milk (Samples.entry "A" (85 # 10) 2)
                  [Samples.entry "A" 10 1]
                  (or_introl eq_refl) eq_refl
                  ltac:(discriminate)
                  ltac:(intros r [<- | [<- | []]]; reflexivity)
                  ltac:(vm_compute; repeat constructor; simpl; intuition discriminate)
                  ltac:(vm_compute; reflexivity))).
  split; [reflexivity | vm_compute; discriminate].
Defined.

(** ** The best current price *)

Section BestPriceFacts.
Import PriceService.

Lemma grouped_step (acc : PyDict.t Z) (seen : list PriceRecord.t)
    (r : PriceRecord.t) :
  Grouping.grouped acc seen ->
  Grouping.grouped
    (match PyDict.get acc (PriceRecord.platform r) with
     | Some latest =>
         if (latest <? PriceRecord.scraped_at r)%Z
         then PyDict.set acc (PriceRecord.platform r) (PriceRecord.scraped_at r)
         else acc
     | None => PyDict.set acc (PriceRecord.platform r) (PriceRecord.scraped_at r)
     end)
    (seen ++ [r]).
Proof.
  intros [Hnd Hacc].
  pose proof (Hacc (PriceRecord.platform r)) as Hr.
  destruct (PyDict.get acc (PriceRecord.platform r)) as [latest|] eqn:Eg.
  - destruct Hr as [(r0 & Hin0 & Hp0 & Ht0) Hmax].
    destruct (Z.ltb_spec latest (PriceRecord.scraped_at r)) as [Hlt|Hge].
    + split; [now apply keys_set_nodup|]. intros p.
      destruct (string_dec (PriceRecord.platform r) p) as [<- | Hne].
      * rewrite get_set_eq. split.
        -- exists r. split; [apply in_or_app; right; now left | auto].
        -- intros r' Hin' Hp'. apply in_app_or in Hin' as [Hin' | [<- | []]];
             [|lia]. specialize (Hmax r' Hin' Hp'). lia.
      * rewrite get_set_ne by exact Hne. specialize (Hacc p).
        destruct (PyDict.get acc p) as [t|].
        -- destruct Hacc as [(r1 & Hin1 & Hp1 & Ht1) Hmax1]. split.
           ++ exists r1. split; [apply in_or_app; now left | auto].
           ++ intros r' Hin' Hp'. apply in_app_or in Hin' as [Hin' | [<- | []]];
                [now apply Hmax1 | contradiction].
        -- intros r' Hin'. apply in_app_or in Hin' as [Hin' | [<- | []]];
             [now apply Hacc | exact Hne].
    + split; [exact Hnd|]. intros p. specialize (Hacc p).
      destruct (string_dec (PriceRecord.platform r) p) as [<- | Hne].
      * rewrite Eg in *. destruct Hacc as [(r1 & Hin1 & Hp1 & Ht1) Hmax1]. split.
        -- exists r1. split; [apply in_or_app; now left | auto].
        -- intros r' Hin' Hp'. apply in_app_or in Hin' as [Hin' | [<- | []]];
             [now apply Hmax1 | lia].
      * destruct (PyDict.get acc p) as [t|].
        -- destruct Hacc as [(r1 & Hin1 & Hp1 & Ht1) Hmax1]. split.
           ++ exists r1. split; [apply in_or_app; now left | auto].
           ++ intros r' Hin' Hp'. apply in_app_or in Hin' as [Hin' | [<- | []]];
                [now apply Hmax1 | contradiction].
        -- intros r' Hin'. apply in_app_or in Hin' as [Hin' | [<- | []]];
             [now apply Hacc | exact Hne].
  - split; [now apply keys_set_nodup|]. intros p.
    destruct (string_dec (PriceRecord.platform r) p) as [<- | Hne].
    + rewrite get_set_eq. split.
      * exists r. split; [apply in_or_app; right; now left | auto].
      * intros r' Hin' Hp'. apply in_app_or in Hin' as [Hin' | [<- | []]];
          [|lia]. exfalso. now apply (Hr r' Hin').
    + rewrite get_set_ne by exact Hne. specialize (Hacc p).
      destruct (PyDict.get acc p) as [t|].
      * destruct Hacc as [(r1 & Hin1 & Hp1 & Ht1) Hmax1]. split.
        -- exists r1. split; [apply in_or_app; now left | auto].
        -- intros r' Hin' Hp'. apply in_app_or in Hin' as [Hin' | [<- | []]];
             [now apply Hmax1 | contradiction].
      * intros r' Hin'. apply in_app_or in Hin' as [Hin' | [<- | []]];
          [now apply Hacc | exact Hne].
Qed.

Lemma latest_per_platform_grouped (rows : list PriceRecord.t) :
  Grouping.grouped (PriceStore.latest_per_platform rows) rows.
Proof.
  unfold PriceStore.latest_per_platform.
  assert (H : forall rest acc seen,
             Grouping.grouped acc seen ->
             Grouping.grouped
               (fold_left
                  (fun acc r =>
                     match PyDict.get acc (PriceRecord.platform r) with
                     | Some latest =>
                         if (latest <? PriceRecord.scraped_at r)%Z
                         then PyDict.set acc (PriceRecord.platform r)
                                (PriceRecord.scraped_at r)
                         else acc
                     | None =>
                         PyDict.set acc (PriceRecord.platform r)
                           (PriceRecord.scraped_at r)
                     end) rest acc)
               (seen ++ rest)).
  { induction rest as [|r rest IH]; intros acc seen Hg.
    - now rewrite app_nil_r.
    - cbn [fold_left].
      replace (seen ++ r :: rest) with ((seen ++ [r]) ++ rest)
        by (now rewrite <- app_assoc).
      apply IH. now apply grouped_step. }
  apply (H rows PyDict.empty []).
  split; [constructor|]. intros p r [].
Qed.

Lemma joins_iff (subquery : PyDict.t Z) (r : PriceRecord.t) :
  NoDup (PyDict.keys subquery) ->
  (PriceStore.joins subquery r = true
   <-> PyDict.get subquery (PriceRecord.platform r)
       = Some (PriceRecord.scraped_at r)).
Proof.
  intros Hnd. unfold PriceStore.joins, PyDict.items. rewrite existsb_exists. split.
  - intros [[p t] [Hin Hok]]. simpl in Hok.
    apply andb_true_iff in Hok as [Hp Ht].
    apply String.eqb_eq in Hp. apply Z.eqb_eq in Ht. subst p t.
    now apply in_get.
  - intros Hget. apply get_in in Hget.
    exists (PriceRecord.platform r, PriceRecord.scraped_at r).
    split; [exact Hget|]. simpl. now rewrite String.eqb_refl, Z.eqb_refl.
Qed.

(** The rows the query keeps are the eligible ones. *)
Lemma best_price_rows (d : db) (id : Z) (r : PriceRecord.t) :
  In r (filter
          (fun r =>
             PriceStore.joins
               (PriceStore.latest_per_platform
                  (filter (fun r0 => opt_Z_eqb (PriceRecord.inventory_item_id r0) id)
                          (price_records d))) r
             && opt_Z_eqb (PriceRecord.inventory_item_id r) id
             && PriceRecord.in_stock r)
          (price_records d))
  <-> PriceQuery.eligible d id r.
Proof.
  set (of_item := filter (fun r0 => opt_Z_eqb (PriceRecord.inventory_item_id r0) id)
                         (price_records d)).
  destruct (latest_per_platform_grouped of_item) as [Hnd Hsub].
  rewrite filter_In, !andb_true_iff, opt_Z_eqb_eq, (joins_iff _ _ Hnd).
  unfold PriceQuery.eligible. split.
  - intros (Hin & ((Hget & Hid) & Hstock)).
    repeat split; try assumption.
    intros r' Hin' Hid' Hp'. specialize (Hsub (PriceRecord.platform r)).
    rewrite Hget in Hsub. destruct Hsub as [_ Hmax]. apply Hmax; [|exact Hp'].
    apply filter_In. split; [exact Hin' | now apply opt_Z_eqb_eq].
  - intros (Hin & Hid & Hstock & Hmax).
    repeat split; try assumption.
    assert (Hmem : In r of_item)
      by (apply filter_In; split; [exact Hin | now apply opt_Z_eqb_eq]).
    specialize (Hsub (PriceRecord.platform r)).
    destruct (PyDict.get (PriceStore.latest_per_platform of_item)
                (PriceRecord.platform r)) as [t|].
    + destruct Hsub as [(r0 & Hin0 & Hp0 & Ht0) Hle]. f_equal.
      apply filter_In in Hin0 as [Hin0 Hid0]. apply opt_Z_eqb_eq in Hid0.
      specialize (Hmax r0 Hin0 Hid0 Hp0). specialize (Hle r Hmem eq_refl). lia.
    + exfalso. now apply (Hsub r Hmem).
Qed.

Lemma cheaper_first_sorted (l : list PriceRecord.t) :
  StronglySorted (fun a b => PriceRecord.price a <= PriceRecord.price b)
    (PySort.sort PriceStore.cheaper_first l).
Proof. apply (sort_by_key_sorted PriceRecord.price). Qed.
End BestPriceFacts.

(** X5.  [get_best_price] returns a row of the item that is in stock and is
    the newest row of its platform, and among all such rows one of lowest
    price; it returns nothing exactly when there is no such row.  A
    platform whose newest row is out of stock offers nothing, whatever its
    older rows say. *)
Theorem best_price_is_cheapest_current :
  forall (d : PriceService.db) (id : Z),
    (forall r, PriceStore.get_best_price d id = Some r ->
               PriceQuery.eligible d id r
               /\ forall r2, PriceQuery.eligible d id r2 ->
                             PriceRecord.price r <= PriceRecord.price r2)
    /\ (PriceStore.get_best_price d id = None
        <-> forall r, ~ PriceQuery.eligible d id r)
    /\ (forall old newest,
           In newest (PriceService.price_records d) ->
           PriceRecord.inventory_item_id newest = Some id ->
           PriceRecord.platform newest = PriceRecord.platform old ->
           (PriceRecord.scraped_at old < PriceRecord.scraped_at newest)%Z ->
           PriceStore.get_best_price d id <> Some old).
Proof.
  intros d id.
  assert (Hsome : forall r, PriceStore.get_best_price d id = Some r ->
               PriceQuery.eligible d id r
               /\ forall r2, PriceQuery.eligible d id r2 ->
                             PriceRecord.price r <= PriceRecord.price r2).
  { intros r. unfold PriceStore.get_best_price.
    set (rows := filter _ (PriceService.price_records d)).
    pose proof (cheaper_first_sorted rows) as Hs.
    pose proof (sort_perm PriceStore.cheaper_first rows) as Hperm.
    destruct (PySort.sort PriceStore.cheaper_first rows) as [|x l] eqn:E;
      [discriminate|].
    intros H. inversion H. subst x. split.
    - apply best_price_rows. apply (Permutation_in _ Hperm). now left.
    - intros r2 H2. apply best_price_rows in H2. fold rows in H2.
      apply (Permutation_in _ (Permutation_sym Hperm)) in H2.
      inversion Hs as [|? ? _ Hall]. subst.
      destruct H2 as [<- | H2]; [apply Qle_refl|].
      rewrite Forall_forall in Hall. now apply Hall. }
  split; [exact Hsome|]. split.
  - unfold PriceStore.get_best_price.
    set (rows := filter _ (PriceService.price_records d)).
    pose proof (sort_perm PriceStore.cheaper_first rows) as Hperm. split.
    + intros Hnone r Hr. apply best_price_rows in Hr. fold rows in Hr.
      apply (Permutation_in _ (Permutation_sym Hperm)) in Hr.
      destruct (PySort.sort PriceStore.cheaper_first rows); [contradiction|].
      discriminate.
    + intros Hno.
      destruct (PySort.sort PriceStore.cheaper_first rows) as [|x l] eqn:E;
        [reflexivity|].
      exfalso. apply (Hno x). apply best_price_rows. fold rows.
      apply (Permutation_in _ Hperm). now left.
  - intros old newest Hin Hid Hp Hlt Hbest.
    destruct (Hsome old Hbest) as [(_ & _ & _ & Hmax) _].
    specialize (Hmax newest Hin Hid Hp). lia.
Qed.

Lemma best_price_is_cheapest_current_witness :
  PriceQuery.eligible Fixtures.a_sold_out 1 (Samples.entry "B" 12 1)
  /\ PriceStore.get_best_price Fixtures.a_sold_out 1
     <> Some (Samples.entry "A" 10 1).
Proof.
  destruct (best_price_is_cheapest_current Fixtures.a_sold_out 1)
    as (Hsome & _ & Hold).
  split.
  - exact (proj1 (Hsome (Samples.entry "B" 12 1) eq_refl)).
  - apply (Hold (Samples.entry "A" 10 1)
             (PriceRecord.mk (Some 1%Z) "A" None 8 false (2 * Samples.day))).
    + right. left. reflexivity.
    + reflexivity.
    + reflexivity.
    + reflexivity.
Defined.

(** ** The two normalisers *)

Section TwoNormalisers.
Import PyStr SizePattern SizeSpec.
Local Open Scope char_scope.

Lemma first_alternative_app (l l' : list chars) (s : chars) :
  first_alternative (l ++ l') s
  = match first_alternative l s with
    | Some u => Some u
    | None => first_alternative l' s
    end.
Proof.
  induction l as [|a l IH]; [reflexivity|].
  simpl. destruct (startswith s a); [reflexivity | exact IH].
Qed.

Lemma units_with_each_split :
  units_with_each = units_without_each ++ [["e"; "a"; "c"; "h"]].
Proof. reflexivity. Qed.

Lemma re_match_without_each (s num u : chars) :
  re_match units_without_each s = Some (num, u) ->
  re_match units_with_each s = Some (num, u).
Proof.
  unfold re_match. destruct (match_numeral s) as [[n r]|]; [|discriminate].
  rewrite units_with_each_split, first_alternative_app.
  destruct (first_alternative units_without_each (drop_while is_space r));
    [auto | discriminate].
Qed.

(** What the model's normaliser returns once its pattern has matched. *)
Lemma model_calculate_of_match (price : Q) (size_str : string) (num u : chars) :
  re_match units_without_each (normal size_str) = Some (num, u) ->
  In u units_without_each ->
  PriceRecord.calculate_unit_price price size_str =
    match PyNum.truediv price
            (if eqb_chars u ["g"] || eqb_chars u ["m"; "l"]
             then PyFloat.div (float_of num) 1000 else float_of num) with
    | Ret r => Ret (Some r)
    | Raise e => Raise e
    end.
Proof.
  intros Hm Hu. unfold PriceRecord.calculate_unit_price. fold (normal size_str).
  rewrite Hm. unfold PyNum.truediv.
  simpl in Hu.
  repeat (destruct Hu as [<- | Hu];
          [ simpl;
            repeat match goal with
                   | |- context [Qeq_bool ?a 0] => destruct (Qeq_bool a 0)
                   end; reflexivity | ]).
  destruct Hu.
Qed.

Lemma model_calculate_no_match (price : Q) (size_str : string) :
  re_match units_without_each (normal size_str) = None ->
  PriceRecord.calculate_unit_price price size_str = Ret None.
Proof.
  intros Hm. unfold PriceRecord.calculate_unit_price. fold (normal size_str).
  now rewrite Hm.
Qed.

End TwoNormalisers.

(** X6.  The normaliser kept on the price-record model against the
    adapter's.  Wherever the model's returns a value the adapter's returns
    one too, and for kilograms, litres and counted units it is the same
    value.  The model's raises nothing but [ZeroDivisionError], and wherever
    the adapter's returns none the model's returns none or raises that
    error.  For grams and millilitres the two round differently,
    [price / (quantity / 1000)] against [(price / quantity) * 1000]: at 1.07
    for ["120g"] they return two different floats. *)
Theorem model_normaliser_against_adapter :
  (forall (p : Q) (s : string),
      (forall r, PriceRecord.calculate_unit_price p s = Ret (Some r) ->
                 exists r', FairPriceAdapter._calculate_unit_price p s
                            = Ret (Some r'))
      /\ (forall e, PriceRecord.calculate_unit_price p s = Raise e ->
                    e = ZeroDivisionError)
      /\ (FairPriceAdapter._calculate_unit_price p s = Ret None ->
          PriceRecord.calculate_unit_price p s = Ret None
          \/ PriceRecord.calculate_unit_price p s = Raise ZeroDivisionError)
      /\ (forall num u r,
             SizePattern.re_match SizePattern.units_without_each
               (SizeSpec.normal s) = Some (num, u) ->
             SizeSpec.per_base u == 1 ->
             PriceRecord.calculate_unit_price p s = Ret (Some r) ->
             FairPriceAdapter._calculate_unit_price p s = Ret (Some r)))
  /\ (exists r r',
         PriceRecord.calculate_unit_price (PyFloat.of_decimal (107 # 100)) "120g"
         = Ret (Some r)
         /\ FairPriceAdapter._calculate_unit_price
              (PyFloat.of_decimal (107 # 100)) "120g" = Ret (Some r')
         /\ r' < r).
Proof.
  split; [|eexists; eexists; split; [vm_compute; reflexivity|];
           split; [vm_compute; reflexivity | vm_compute; reflexivity]].
  intros p s.
  destruct (SizePattern.re_match SizePattern.units_without_each (SizeSpec.normal s))
    as [[num u]|] eqn:Hm.
  - destruct (re_match_inv _ _ _ _ Hm) as (ip & fp & ws & rest & _ & Hs).
    pose proof (SizeSpec.shape_unit _ _ _ _ _ _ _ Hs) as Hu.
    rewrite (model_calculate_of_match p s num u Hm Hu).
    rewrite (calculate_of_match p s num u (re_match_without_each _ _ _ Hm)
               (units_without_each_incl u Hu)).
    unfold SizeSpec.unit_price, SizeSpec.per_base.
    set (q := SizePattern.float_of num).
    destruct (PyStr.eqb_chars u _ || PyStr.eqb_chars u _) eqn:Eu.
    + destruct (Qeq_bool q 0) eqn:Ez.
      * apply Qeq_bool_iff in Ez.
        assert (Hd : PyFloat.div q 1000 = 0)
          by (apply round_zero; rewrite Ez; reflexivity).
        rewrite Hd. simpl.
        split; [discriminate|]. split; [intros e H; now inversion H|].
        split; [now right|]. intros num' u' r _ _ H. discriminate H.
      * destruct (PyNum.truediv p (PyFloat.div q 1000)) as [x|e] eqn:Ed.
        -- unfold PyNum.truediv in Ed.
           destruct (Qeq_bool (PyFloat.div q 1000) 0); [discriminate|].
           inversion Ed. subst x.
           split; [intros r _; eexists; reflexivity|].
           split; [discriminate|]. split; [discriminate|].
           intros num' u' r Heq Hpb _. inversion Heq. subst num' u'.
           rewrite Eu in Hpb. discriminate Hpb.
        -- unfold PyNum.truediv in Ed.
           destruct (Qeq_bool (PyFloat.div q 1000) 0); [|discriminate].
           inversion Ed. subst e.
           split; [discriminate|]. split; [intros e H; now inversion H|].
           split; [discriminate|]. intros num' u' r _ _ H. discriminate H.
    + unfold PyNum.truediv. destruct (Qeq_bool q 0) eqn:Ez.
      * split; [discriminate|]. split; [intros e H; now inversion H|].
        split; [now right|]. intros num' u' r _ _ H. discriminate H.
      * split; [intros r _; eexists; reflexivity|].
        split; [discriminate|]. split; [discriminate|].
        intros num' u' r _ _ H. exact H.
  - rewrite (model_calculate_no_match p s Hm).
    split; [discriminate|]. split; [discriminate|]. split; [now left|].
    intros num u r H. discriminate H.
Qed.

Lemma model_normaliser_against_adapter_witness :
  FairPriceAdapter._calculate_unit_price 10 "2 kg" = Ret (Some 5)
  /\ (exists r', FairPriceAdapter._calculate_unit_price 20 "500g" = Ret (Some r')).
Proof.
  destruct model_normaliser_against_adapter as [H _].
  split.
  - destruct (H 10 "2 kg"%string) as (_ & _ & _ & Hsame).
    apply (Hsame ["2"]%char ["k"; "g"]%char 5);
      [vm_compute; reflexivity | vm_compute; reflexivity | vm_compute; reflexivity].
  - destruct (H 20 "500g"%string) as (Hval & _).
    apply (Hval 40). vm_compute. reflexivity.
Defined.

(** ** The views of a snapshot *)

Section SnapshotViews.

Lemma no_status_empty (item : WatchlistItem.t) :
  WatchlistItem.has_status item = false -> WatchlistItem.status_or_empty item = [].
Proof.
  unfold WatchlistItem.has_status, WatchlistItem.status_or_empty.
  destruct (WatchlistItem.availability_status item) as [[|e l]|];
    try reflexivity; discriminate.
Qed.

Lemma available_platforms_in (item : WatchlistItem.t) (p : string) :
  In p (WatchlistItem.available_platforms item)
  <-> exists s, In (p, s) (WatchlistItem.status_or_empty item)
                /\ Status.in_stock s = true.
Proof.
  unfold WatchlistItem.available_platforms.
  destruct (WatchlistItem.has_status item) eqn:Eh; simpl.
  - unfold PyDict.items. rewrite in_map_iff. split.
    + intros [[p' s] [Heq Hin]]. simpl in Heq. subst p'.
      apply filter_In in Hin as [Hin Hs]. exists s. auto.
    + intros [s [Hin Hs]]. exists (p, s). split; [reflexivity|].
      apply filter_In. auto.
  - rewrite (no_status_empty item Eh). split; [contradiction|].
    intros [s [[] _]].
Qed.

Lemma get_best_deal_some (item : WatchlistItem.t) (p : string) (s : Status.t) :
  WatchlistItem.get_best_deal item = Some (p, s) ->
  In (p, s) (WatchlistItem.status_or_empty item)
  /\ Status.in_stock s = true
  /\ exists price, Status.price s = Some price /\ PyNum.truthy price = true
                   /\ Offer.lowest item price.
Proof.
  intros Hbest.
  assert (Hpr : Offer.priced_somewhere item).
  { unfold WatchlistItem.get_best_deal in Hbest.
    destruct (WatchlistItem.has_status item); [|discriminate]. simpl in Hbest.
    apply min_by_spec in Hbest as [Hin _].
    apply filter_In in Hin as [Hin Hok]. simpl in Hok.
    apply andb_true_iff in Hok as [Hs Hp]. exists p, s. auto. }
  destruct (best_deal_of_priced item Hpr)
    as (p' & s' & bp & Hbest' & Hin & Hs & Hprice & Ht & Hlow).
  rewrite Hbest in Hbest'. inversion Hbest'. subst p' s'.
  repeat split; try assumption. exists bp. auto.
Qed.

Lemma get_best_deal_none (item : WatchlistItem.t) :
  WatchlistItem.get_best_deal item = None <-> ~ Offer.priced_somewhere item.
Proof.
  split.
  - intros Hnone Hpr.
    destruct (best_deal_of_priced item Hpr) as (p & s & bp & Hbest & _).
    congruence.
  - intros Hno. destruct (WatchlistItem.get_best_deal item) as [[p s]|] eqn:E;
      [|reflexivity].
    exfalso. apply Hno.
    destruct (get_best_deal_some item p s E) as (Hin & Hs & price & Hp & Ht & _).
    exists p, s. repeat split; try assumption. now rewrite Hp.
Qed.
End SnapshotViews.

(** X7.  The three views of a snapshot agree: [available_platforms] lists
    exactly the platforms whose entry is in stock, [is_available_anywhere]
    holds exactly when that list is not empty, and [get_best_deal] returns
    an entry of the snapshot, with its platform: one that is in stock, so of
    that list, and carries a price that is not zero and is the lowest such;
    it returns nothing exactly when no in-stock entry carries one. *)
Theorem snapshot_views_agree :
  forall item : WatchlistItem.t,
    (forall p, In p (WatchlistItem.available_platforms item)
               <-> exists s, In (p, s) (WatchlistItem.status_or_empty item)
                             /\ Status.in_stock s = true)
    /\ (WatchlistItem.is_available_anywhere item = true
        <-> WatchlistItem.available_platforms item <> [])
    /\ (forall p s, WatchlistItem.get_best_deal item = Some (p, s) ->
                    In (p, s) (WatchlistItem.status_or_empty item)
                    /\ Status.in_stock s = true
                    /\ In p (WatchlistItem.available_platforms item)
                    /\ exists price, Status.price s = Some price
                                     /\ ~ price == 0
                                     /\ Offer.lowest item price)
    /\ (WatchlistItem.get_best_deal item = None
        <-> ~ Offer.priced_somewhere item).
Proof.
  intros item. split; [apply available_platforms_in|]. split; [|split].
  - split.
    + intros Hav Hnil.
      destruct (WatchlistItem.is_available_anywhere item) eqn:E; [|discriminate].
      assert (Hsome : Offer.in_stock_somewhere item).
      { destruct (WatchlistItem.has_status item) eqn:Eh.
        - unfold WatchlistItem.is_available_anywhere in E. rewrite Eh in E.
          simpl in E. apply existsb_exists in E as [s [Hin Hs]].
          unfold PyDict.values in Hin.
          apply in_map_iff in Hin as [[p s'] [Heq Hin]]. simpl in Heq. subst s'.
          exists p, s. auto.
        - unfold WatchlistItem.is_available_anywhere in E. rewrite Eh in E.
          discriminate. }
      destruct Hsome as (p & s & Hin & Hs).
      assert (Hp : In p (WatchlistItem.available_platforms item))
        by (apply available_platforms_in; exists s; auto).
      rewrite Hnil in Hp. contradiction.
    + intros Hne.
      destruct (WatchlistItem.available_platforms item) as [|p l] eqn:E;
        [contradiction|].
      assert (Hp : In p (WatchlistItem.available_platforms item))
        by (rewrite E; now left).
      apply available_platforms_in in Hp as [s [Hin Hs]].
      apply in_stock_somewhere_available. exists p, s. auto.
  - intros p s Hbest.
    destruct (get_best_deal_some item p s Hbest) as (Hin & Hs & price & Hp & Ht & Hlow).
    split; [exact Hin|]. split; [exact Hs|].
    split; [apply available_platforms_in; exists s; auto|].
    exists price. repeat split; try assumption. now apply truthy_true.
  - apply get_best_deal_none.
Qed.

Lemma snapshot_views_agree_witness :
  In "a" (WatchlistItem.available_platforms Samples.in_stock_unpriced)
  /\ WatchlistItem.available_platforms (Samples.priced_12 None) <> [].
Proof.
  split.
  - apply (proj1 (snapshot_views_agree Samples.in_stock_unpriced)).
    exists (Samples.stock true None). split; [left|]; reflexivity.
  - apply (proj1 (proj2 (snapshot_views_agree (Samples.priced_12 None)))).
    reflexivity.
Defined.

(** ** What a check cycle leaves behind *)

Section CycleOutcome.
Import WatchlistService.
Variable ADAPTERS : PyDict.t PlatformAdapter.t.
Variable names : PyDict.t string.
Variable check_url : string -> py url_result.

Lemma available_iff_priced (item : WatchlistItem.t)
    (results : PyDict.t Status.t) (bp : option Q) (bl : option string) :
  available results <> [] <-> Offer.priced_somewhere (updated item results bp bl).
Proof.
  unfold Offer.priced_somewhere. cbn [WatchlistItem.status_or_empty
    WatchlistItem.availability_status updated]. split.
  - intros Hne. destruct (available results) as [|[p s] l] eqn:E; [contradiction|].
    assert (Hin : In (p, s) (available results)) by (rewrite E; now left).
    apply filter_In in Hin as [Hin Hok]. simpl in Hok.
    apply andb_true_iff in Hok as [Hs Hp]. exists p, s. auto.
  - intros (p & s & Hin & Hs & Hp) Hnil.
    assert (Hmem : In (p, s) (available results)).
    { apply filter_In. split; [exact Hin|]. simpl. now rewrite Hs, Hp. }
    rewrite Hnil in Hmem. contradiction.
Qed.

Lemma best_deal_of_updated (item : WatchlistItem.t)
    (results : PyDict.t Status.t) (bp : option Q) (bl : option string) :
  WatchlistItem.get_best_deal (updated item results bp bl)
  = PySort.min_by (fun ps => Status.price (snd ps)) (available results).
Proof.
  unfold WatchlistItem.get_best_deal, WatchlistItem.has_status.
  cbn [WatchlistItem.availability_status WatchlistItem.status_or_empty updated].
  destruct results as [|e l]; reflexivity.
Qed.

Lemma known_urls_keys (l : list (string * ProductInfo.t))
    (acc : PyDict.t Status.t) (k : string) :
  In k (PyDict.keys (fold_left (check_known_url check_url) l acc)) ->
  In k (PyDict.keys acc)
  \/ exists url, In (k, ProductInfo.InfoDict (Some url) false) l
                 /\ url <> EmptyString.
Proof.
  revert acc. induction l as [|[p info] l IH]; intros acc Hin; [now left|].
  cbn [fold_left] in Hin. apply IH in Hin as [Hin | (url & Hin & Hne)].
  - destruct info as [[url|] search_url|]; simpl in Hin; try (now left).
    destruct url as [|c url]; simpl in Hin; [now left|].
    destruct search_url; [now left|].
    destruct (check_url (String c url));
      (apply keys_set_in in Hin as [-> | Hin];
       [right; exists (String c url); split; [now left | discriminate]
       | now left]).
  - right. exists url. split; [now right | exact Hne].
Qed.

Lemma known_urls_get (l : list (string * ProductInfo.t))
    (acc : PyDict.t Status.t) (k url : string) :
  NoDup (map fst l) ->
  In (k, ProductInfo.InfoDict (Some url) false) l -> url <> EmptyString ->
  PyDict.get (fold_left (check_known_url check_url) l acc) k
  = Some (DirectCheck.direct_entry check_url url).
Proof.
  revert acc. induction l as [|[p info] l IH]; intros acc Hnd Hin Hne;
    [contradiction|].
  inversion Hnd as [|? ? Hnotin Hnd']. subst. cbn [fold_left].
  destruct Hin as [Heq | Hin]; [|now apply IH].
  inversion Heq. subst p info. clear IH.
  assert (Hkeep : forall l' acc',
             ~ In k (map fst l') ->
             PyDict.get (fold_left (check_known_url check_url) l' acc') k
             = PyDict.get acc' k).
  { induction l' as [|[p' info'] l' IH']; intros acc' Hn; [reflexivity|].
    cbn [fold_left]. rewrite IH' by (intros H; apply Hn; now right).
    assert (Hpk : p' <> k) by (intros ->; apply Hn; now left).
    destruct info' as [[u|] su|]; simpl; try reflexivity.
    destruct u as [|c u]; simpl; [reflexivity|].
    destruct su; [reflexivity|].
    destruct (check_url (String c u)); now apply get_set_ne. }
  rewrite Hkeep by exact Hnotin.
  destruct url as [|c url]; [contradiction|].
  unfold check_known_url, DirectCheck.direct_entry. simpl.
  destruct (check_url (String c url)); apply get_set_eq.
Qed.
End CycleOutcome.

(** X8.  A check cycle replaces the item's snapshot by the dictionary it
    returns and leaves the item's settings alone.  When some source of the
    new snapshot is in stock with a price, the stored best platform and
    best price are those of [get_best_deal] on the item as left; when none
    is, [get_best_deal] is empty and the stored best platform and price
    keep their earlier values. *)
Theorem cycle_updates_item :
  forall (ADAPTERS : PyDict.t PlatformAdapter.t) (names : PyDict.t string)
         (check_url : string -> py WatchlistService.url_result)
         (item : WatchlistItem.t) (platforms : option (list string)),
    let outcome :=
      WatchlistService.check_availability ADAPTERS names check_url item platforms in
    let item' := snd (fst outcome) in
    WatchlistItem.availability_status item' = Some (fst (fst outcome))
    /\ (WatchlistItem.id item' = WatchlistItem.id item
        /\ WatchlistItem.brand item' = WatchlistItem.brand item
        /\ WatchlistItem.search_keywords item' = WatchlistItem.search_keywords item
        /\ WatchlistItem.target_platforms item' = WatchlistItem.target_platforms item
        /\ WatchlistItem.max_price item' = WatchlistItem.max_price item
        /\ WatchlistItem.price_drop_threshold item'
           = WatchlistItem.price_drop_threshold item)
    /\ (Offer.priced_somewhere item' ->
        exists p s, WatchlistItem.get_best_deal item' = Some (p, s)
                    /\ WatchlistItem.current_best_platform item' = Some p
                    /\ WatchlistItem.current_best_price item' = Status.price s)
    /\ (~ Offer.priced_somewhere item' ->
        WatchlistItem.get_best_deal item' = None
        /\ WatchlistItem.current_best_platform item'
           = WatchlistItem.current_best_platform item
        /\ WatchlistItem.current_best_price item'
           = WatchlistItem.current_best_price item).
Proof.
  intros ADAPTERS names check_url item platforms outcome item'.
  unfold item', outcome, WatchlistService.check_availability.
  set (res := WatchlistService.collect_results ADAPTERS check_url item platforms).
  destruct (PySort.min_by (fun ps => Status.price (snd ps))
              (WatchlistService.available res)) as [[p s]|] eqn:Emin;
    cbn [fst snd].
  - split; [reflexivity|]. split; [repeat split|]. split.
    + intros _. exists p, s. rewrite best_deal_of_updated. auto.
    + intros Hno. exfalso. apply Hno. apply available_iff_priced.
      intros Hnil. rewrite Hnil in Emin. discriminate.
  - split; [reflexivity|]. split; [repeat split|]. split.
    + intros Hpr. apply available_iff_priced in Hpr.
      destruct (WatchlistService.available res); [contradiction | discriminate].
    + intros _. rewrite best_deal_of_updated. auto.
Qed.

Lemma cycle_updates_item_witness :
  WatchlistItem.current_best_price
    (snd (fst (WatchlistService.check_availability (Samples.shop_at_8 true) []
                 Samples.no_page Samples.seen_at_10 None)))
  = Some 8
  /\ WatchlistItem.current_best_price
       (snd (fst (WatchlistService.check_availability (Samples.shop_at_8 false) []
                    Samples.no_page Fixtures.best_on_record None)))
     = Some 12.
Proof.
  split.
  - destruct (proj1 (proj2 (proj2 (cycle_updates_item (Samples.shop_at_8 true) []
               Samples.no_page Samples.seen_at_10 None))))
      as (p & s & Hbest & _ & Hprice).
    + eexists. eexists. split; [left; reflexivity | split; reflexivity].
    + rewrite Hprice. inversion Hbest. reflexivity.
  - rewrite (proj2 (proj2 (proj2 (proj2 (proj2 (cycle_updates_item
               (Samples.shop_at_8 false) [] Samples.no_page
               Fixtures.best_on_record None)))
               ltac:(intros (p & s & [Heq | []] & Hs & _);
                     inversion Heq; subst; discriminate Hs)))).
    reflexivity.
Defined.

(** X9.  The dictionary a check cycle returns has an entry only for the
    platforms it probes and for the known pages it checks directly; and a
    known page whose platform is not probed gets the page's own result,
    marked as a direct check, or an error entry naming the page when the
    check raises. *)
Theorem cycle_result_entries :
  forall (ADAPTERS : PyDict.t PlatformAdapter.t) (names : PyDict.t string)
         (check_url : string -> py WatchlistService.url_result)
         (item : WatchlistItem.t) (platforms : option (list string)),
    let results :=
      fst (fst (WatchlistService.check_availability ADAPTERS names check_url
                  item platforms)) in
    let probed := WatchlistService.platforms_to_check ADAPTERS item platforms in
    NoDup (PyDict.keys results)
    /\ (forall k, In k (PyDict.keys results) ->
                  In k probed \/ exists url, DirectCheck.checked_page item k url)
    /\ (forall k url,
           NoDup (PyDict.keys (WatchlistItem.platform_products item)) ->
           DirectCheck.checked_page item k url -> ~ In k probed ->
           PyDict.get results k = Some (DirectCheck.direct_entry check_url url)).
Proof.
  intros ADAPTERS names check_url item platforms results probed.
  unfold results. rewrite check_availability_results.
  split; [apply collect_results_nodup|].
  unfold WatchlistService.collect_results. fold probed. split.
  - intros k Hk. destruct (in_dec string_dec k probed) as [Hin | Hout];
      [now left|]. right.
    assert (Hget : PyDict.get
                     (fold_left
                        (WatchlistService.probe_platform ADAPTERS item
                           (WatchlistService.search_query item)) probed
                        (WatchlistService.check_known_urls check_url item)) k
                   <> None).
    { intros Hnone. now apply get_none_not_in in Hnone. }
    rewrite fold_probe_get_other in Hget by exact Hout.
    assert (Hkey : In k (PyDict.keys
                           (WatchlistService.check_known_urls check_url item))).
    { destruct (in_dec string_dec k
                  (PyDict.keys (WatchlistService.check_known_urls check_url item)))
        as [H | H]; [exact H|].
      apply get_none_not_in in H. contradiction. }
    apply known_urls_keys in Hkey as [[] | (url & Hin & Hne)].
    exists url. split; assumption.
  - intros k url Hnd [Hin Hne] Hout.
    rewrite fold_probe_get_other by exact Hout.
    now apply known_urls_get.
Qed.

Lemma cycle_result_entries_witness :
  PyDict.get
    (fst (fst (WatchlistService.check_availability (Samples.shop_at_8 true) []
                 Fixtures.page_in_stock Fixtures.with_known_pages None)))
    "fossa"
  = Some (Status.mk true (Some 11) None (Some "https://fossa.example/nuri")
            (Some "Nuri Sardines") None None true).
Proof.
  apply (proj2 (proj2 (cycle_result_entries (Samples.shop_at_8 true) []
                         Fixtures.page_in_stock Fixtures.with_known_pages None))
           "fossa" "https://fossa.example/nuri").
  - repeat constructor; simpl; intuition discriminate.
  - split; [left; reflexivity | discriminate].
  - intros [H | []]. discriminate H.
Defined.

(** ** What the weekly list holds *)

Section WeeklyListFacts.
Import WatchlistService.
Variable names : PyDict.t string.

Lemma recommend_cases (item : WatchlistItem.t) (r : recommendation) :
  In r (recommend names item) ->
  r_item r = item
  /\ ((r_status r = "unavailable" /\ ~ Offer.in_stock_somewhere item
       /\ r_quantity r = None /\ r_total r = None /\ r_price r = None)
      \/ (exists p s price,
             WatchlistItem.get_best_deal item = Some (p, s)
             /\ Status.price s = Some price
             /\ ((r_status r = "over_budget" /\ r_best_deal r = Some (p, s)
                  /\ Offer.exceeds_budget item price
                  /\ r_quantity r = None /\ r_total r = None)
                 \/ (r_status r = "available" /\ ~ Offer.exceeds_budget item price
                     /\ r_platform r = Some p /\ r_price r = Some price
                     /\ r_quantity r = Some (WatchlistItem.weekly_target_qty item)
                     /\ r_total r
                        = Some (PyFloat.mul price
                           (PyFloat.of_int (WatchlistItem.weekly_target_qty item))))))).
Proof.
  unfold recommend.
  destruct (WatchlistItem.is_available_anywhere item) eqn:Eav; simpl.
  - destruct (WatchlistItem.get_best_deal item) as [[p s]|] eqn:Ebest;
      [|contradiction]. simpl.
    destruct (Status.price s) as [price|] eqn:Eprice; [|contradiction].
    destruct (PyNum.truthy_opt (WatchlistItem.max_price item)
              && match WatchlistItem.max_price item with
                 | Some m => PyNum.ltb m price
                 | None => false
                 end) eqn:Eover.
    + intros [<- | []]. split; [reflexivity|]. right. exists p, s, price.
      repeat split; try assumption. left. repeat split.
      now apply over_budget_test.
    + intros [<- | []]. split; [reflexivity|]. right. exists p, s, price.
      repeat split; try assumption. right. repeat split.
      intros Hover. apply over_budget_test in Hover. congruence.
  - intros [<- | []]. split; [reflexivity|]. left. repeat split.
    intros Hsome. apply in_stock_somewhere_available in Hsome as [_ Hav].
    congruence.
Qed.
End WeeklyListFacts.

(** X10.  Every entry of the weekly list belongs to an active item of the
    table and has one of three statuses.  An [available] entry names a
    platform whose entry in the item's snapshot is in stock and carries the
    entry's price, the lowest in-stock price of the item and never above a
    maximum price the item sets; its total is that price times the weekly
    quantity, as floats multiply.  An [over_budget] entry carries such a
    snapshot entry as its best deal, priced above the item's maximum, and no
    quantity and no total; an [unavailable] entry belongs to an item that is
    in stock nowhere. *)
Theorem weekly_list_entries :
  forall (names : PyDict.t string) (table : list WatchlistItem.t)
         (r : WatchlistService.recommendation),
    In r (WatchlistService.get_weekly_shopping_list names table) ->
    let item := WatchlistService.r_item r in
    In item table /\ WatchlistItem.is_active item = true
    /\ ((WatchlistService.r_status r = "unavailable"
         /\ ~ Offer.in_stock_somewhere item
         /\ WatchlistService.r_quantity r = None
         /\ WatchlistService.r_total r = None)
        \/ (exists platform s price,
               WatchlistService.r_status r = "over_budget"
               /\ WatchlistService.r_best_deal r = Some (platform, s)
               /\ In (platform, s) (WatchlistItem.status_or_empty item)
               /\ Status.in_stock s = true
               /\ Status.price s = Some price
               /\ Offer.lowest item price
               /\ Offer.exceeds_budget item price
               /\ WatchlistService.r_quantity r = None
               /\ WatchlistService.r_total r = None)
        \/ (exists platform s price,
               WatchlistService.r_status r = "available"
               /\ WatchlistService.r_platform r = Some platform
               /\ In (platform, s) (WatchlistItem.status_or_empty item)
               /\ Status.in_stock s = true
               /\ Status.price s = Some price
               /\ WatchlistService.r_price r = Some price
               /\ Offer.lowest item price
               /\ (forall m, WatchlistItem.max_price item = Some m ->
                             ~ m == 0 -> price <= m)
               /\ WatchlistService.r_quantity r
                  = Some (WatchlistItem.weekly_target_qty item)
               /\ WatchlistService.r_total r
                  = Some (PyFloat.mul price
                           (PyFloat.of_int (WatchlistItem.weekly_target_qty item))))).
Proof.
  intros names table r Hin item.
  unfold WatchlistService.get_weekly_shopping_list in Hin.
  apply in_flat_map in Hin as [it [Hit Hr]].
  apply filter_In in Hit as [Hit Hact].
  destruct (recommend_cases names it r Hr) as [Heq Hcases].
  unfold item. rewrite Heq. split; [exact Hit|]. split; [exact Hact|].
  destruct Hcases as [(Hst & Hno & Hq & Ht & _) | (p & s & price & Hbest & Hprice & Hc)].
  - left. auto.
  - destruct (get_best_deal_some it p s Hbest)
      as (Hmem & Hstock & price' & Hp' & _ & Hlow).
    rewrite Hprice in Hp'. inversion Hp'. subst price'.
    destruct Hc as [(Hst & Hbd & Hover & Hq & Ht) | (Hst & Hnot & Hpl & Hpr & Hq & Ht)].
    + right. left. exists p, s, price. repeat split; assumption.
    + right. right. exists p, s, price. repeat split; try assumption.
      intros m Hm Hnz. destruct (Qlt_le_dec m price) as [Hlt | Hle]; [|exact Hle].
      exfalso. apply Hnot. exists m. auto.
Qed.

Lemma weekly_list_entries_witness :
  In (Samples.priced_12 (Some 15))
     [Samples.out_of_stock; Samples.priced_12 (Some 15)]
  /\ WatchlistItem.is_active (Samples.priced_12 (Some 15)) = true.
Proof.
  destruct (weekly_list_entries []
              [Samples.out_of_stock; Samples.priced_12 (Some 15)]
              (WatchlistService.mk_recommendation (Samples.priced_12 (Some 15))
                 "available" None (Some 2%Z) (Some "a") (Some "a") (Some 12)
                 (Some (PyFloat.mul 12 (PyFloat.of_int 2))) (Some ""))
              (or_intror (or_introl eq_refl))) as (Hin & Hact & _).
  split; assumption.
Defined.

(** ** Filtering a sorted list *)

Section FilterSort.
Context {A : Type} (before : A -> A -> bool) (keep : A -> bool).
Hypothesis before_asym : forall a b, before a b = true -> before b a = false.
Hypothesis not_before_trans :
  forall a b c, before b a = false -> before c b = false -> before c a = false.

Lemma insert_first (x : A) (l : list A) :
  Forall (fun z => before z x = false) l -> PySort.insert before x l = x :: l.
Proof.
  destruct l as [|y l]; [reflexivity|].
  intros H. inversion H as [|? ? Hy _]. subst. simpl. now rewrite Hy.
Qed.

Lemma filter_insert (x : A) (l : list A) :
  StronglySorted (fun a b => before b a = false) l ->
  filter keep (PySort.insert before x l)
  = if keep x then PySort.insert before x (filter keep l) else filter keep l.
Proof.
  induction 1 as [|y l Hs IH Hy]; simpl.
  - now destruct (keep x).
  - destruct (before y x) eqn:E; simpl.
    + rewrite IH. destruct (keep y), (keep x); simpl; try reflexivity.
      now rewrite E.
    + destruct (keep x) eqn:Ex; [|reflexivity].
      symmetry. apply insert_first.
      assert (Hall : Forall (fun z => before z x = false) (y :: l)).
      { constructor; [exact E|]. eapply Forall_impl; [|exact Hy].
        intros z Hz. now apply (not_before_trans x y z). }
      apply Forall_forall. intros z Hz.
      rewrite Forall_forall in Hall. apply Hall.
      change (In z (filter keep (y :: l))) in Hz.
      apply filter_In in Hz. tauto.
Qed.

Lemma filter_sort (l : list A) :
  filter keep (PySort.sort before l) = PySort.sort before (filter keep l).
Proof.
  induction l as [|x l IH]; [reflexivity|].
  simpl. rewrite filter_insert by (now apply sort_sorted).
  rewrite IH. now destruct (keep x).
Qed.
End FilterSort.

(** ** Reading alerts *)

Section InboxFacts.
Import AlertInbox.

Lemma newest_first_asym (a b : row) :
  newest_first a b = true -> newest_first b a = false.
Proof. unfold newest_first. rewrite Z.ltb_lt, Z.ltb_ge. lia. Qed.

Lemma newest_first_trans (a b c : row) :
  newest_first b a = false -> newest_first c b = false -> newest_first c a = false.
Proof. unfold newest_first. rewrite !Z.ltb_ge. lia. Qed.

Lemma matching_rows (table : list row) (id : Z) :
  NoDup (map alert_id table) ->
  filter (fun r => (alert_id r =? id)%Z) table = []
  \/ exists r, filter (fun r => (alert_id r =? id)%Z) table = [r]
               /\ In r table /\ alert_id r = id.
Proof.
  induction table as [|x l IH]; intros Hnd; [now left|].
  inversion Hnd as [|? ? Hnotin Hnd']. subst. simpl.
  destruct (Z.eqb_spec (alert_id x) id) as [Heq | Hne].
  - right. exists x. split; [|split; [now left | exact Heq]].
    f_equal. apply filter_none. intros r Hr. apply Z.eqb_neq. intros Hid.
    apply Hnotin. rewrite Heq, <- Hid. now apply in_map.
  - destruct (IH Hnd') as [Hnil | (r & Hr & Hin & Hid)]; [now left|].
    right. exists r. split; [exact Hr | split; [now right | exact Hid]].
Qed.

Lemma unread_after_read (table : list row) (id : Z) :
  filter (fun r => negb (is_read r))
    (map (fun r => if (alert_id r =? id)%Z then read r else r) table)
  = filter (fun r => negb (alert_id r =? id)%Z)
      (filter (fun r => negb (is_read r)) table).
Proof.
  induction table as [|x l IH]; [reflexivity|].
  simpl. destruct (Z.eqb_spec (alert_id x) id) as [Heq | Hne]; simpl.
  - destruct (is_read x); simpl; [exact IH|].
    apply Z.eqb_eq in Heq. now rewrite Heq.
  - destruct (is_read x); simpl; [exact IH|].
    apply Z.eqb_neq in Hne. rewrite Hne. simpl. now f_equal.
Qed.
End InboxFacts.

(** X11.  On a table whose alert ids are distinct, [mark_alert_read] never
    raises; afterwards the unread alerts are the earlier unread alerts
    without the marked one, in the same newest-first order, the alerts
    themselves and their ids are untouched, marking again changes nothing,
    and an id that is not in the table leaves the table as it is. *)
Theorem mark_alert_read_removes_one :
  forall (table : list AlertInbox.row) (id : Z),
    NoDup (map AlertInbox.alert_id table) ->
    exists table',
      AlertInbox.mark_alert_read table id = Ret table'
      /\ AlertInbox.get_unread_alerts table'
         = filter (fun r => negb (AlertInbox.alert_id r =? id)%Z)
             (AlertInbox.get_unread_alerts table)
      /\ map AlertInbox.alert_id table' = map AlertInbox.alert_id table
      /\ map AlertInbox.alert table' = map AlertInbox.alert table
      /\ AlertInbox.mark_alert_read table' id = Ret table'
      /\ (~ In id (map AlertInbox.alert_id table) -> table' = table).
Proof.
  intros table id Hnd.
  assert (Hunread : forall t,
             AlertInbox.get_unread_alerts
               (map (fun r => if (AlertInbox.alert_id r =? id)%Z
                              then AlertInbox.read r else r) t)
             = filter (fun r => negb (AlertInbox.alert_id r =? id)%Z)
                 (AlertInbox.get_unread_alerts t)).
  { intros t. unfold AlertInbox.get_unread_alerts.
    rewrite unread_after_read.
    symmetry. apply filter_sort;
      [apply newest_first_asym | apply newest_first_trans]. }
  assert (Hids : forall t,
             map AlertInbox.alert_id
               (map (fun r => if (AlertInbox.alert_id r =? id)%Z
                              then AlertInbox.read r else r) t)
             = map AlertInbox.alert_id t).
  { intros t. rewrite map_map. apply map_ext. intros r.
    now destruct (AlertInbox.alert_id r =? id)%Z. }
  assert (Halerts : forall t,
             map AlertInbox.alert
               (map (fun r => if (AlertInbox.alert_id r =? id)%Z
                              then AlertInbox.read r else r) t)
             = map AlertInbox.alert t).
  { intros t. rewrite map_map. apply map_ext. intros r.
    now destruct (AlertInbox.alert_id r =? id)%Z. }
  assert (Hagain : forall t,
             map (fun r => if (AlertInbox.alert_id r =? id)%Z
                           then AlertInbox.read r else r)
               (map (fun r => if (AlertInbox.alert_id r =? id)%Z
                              then AlertInbox.read r else r) t)
             = map (fun r => if (AlertInbox.alert_id r =? id)%Z
                             then AlertInbox.read r else r) t).
  { intros t. rewrite map_map. apply map_ext. intros r.
    destruct (AlertInbox.alert_id r =? id)%Z eqn:E; simpl; now rewrite E. }
  unfold AlertInbox.mark_alert_read at 1.
  destruct (matching_rows table id Hnd) as [Hnil | (r & Hr & Hin & Hid)].
  - rewrite Hnil. simpl. exists table. split; [reflexivity|].
    assert (Hsame : filter (fun r => negb (AlertInbox.alert_id r =? id)%Z)
                      (AlertInbox.get_unread_alerts table)
                    = AlertInbox.get_unread_alerts table).
    { apply forallb_filter_id. apply forallb_forall. intros x Hx.
      unfold AlertInbox.get_unread_alerts in Hx.
      apply (Permutation_in _ (sort_perm _ _)) in Hx.
      apply filter_In in Hx as [Hx _].
      destruct (Z.eqb_spec (AlertInbox.alert_id x) id) as [Heq|]; [|reflexivity].
      assert (Hmem : In x (filter (fun r => (AlertInbox.alert_id r =? id)%Z) table)).
      { apply filter_In. split; [exact Hx | now apply Z.eqb_eq]. }
      rewrite Hnil in Hmem. contradiction. }
    rewrite Hsame. repeat split.
    unfold AlertInbox.mark_alert_read. now rewrite Hnil.
  - rewrite Hr. simpl. eexists. split; [reflexivity|].
    split; [apply Hunread|]. split; [apply Hids|]. split; [apply Halerts|]. split.
    + unfold AlertInbox.mark_alert_read.
      assert (Hnd' : NoDup (map AlertInbox.alert_id
                 (map (fun r => if (AlertInbox.alert_id r =? id)%Z
                                then AlertInbox.read r else r) table)))
        by (now rewrite Hids).
      destruct (matching_rows _ id Hnd') as [Hnil' | (r' & Hr' & _)].
      * exfalso.
        assert (Hmem : In (AlertInbox.read r)
                  (filter (fun r => (AlertInbox.alert_id r =? id)%Z)
                     (map (fun r => if (AlertInbox.alert_id r =? id)%Z
                                    then AlertInbox.read r else r) table))).
        { apply filter_In. split.
          - apply in_map_iff. exists r. split; [|exact Hin].
            apply Z.eqb_eq in Hid. now rewrite Hid.
          - simpl. now apply Z.eqb_eq. }
        rewrite Hnil' in Hmem. contradiction.
      * rewrite Hr'. simpl. now rewrite Hagain.
    + intros Hno. exfalso. apply Hno. rewrite <- Hid. now apply in_map.
Qed.

Lemma mark_alert_read_removes_one_witness :
  exists table',
    AlertInbox.mark_alert_read Fixtures.inbox 3 = Ret table'
    /\ map AlertInbox.alert_id (AlertInbox.get_unread_alerts table') = [2%Z].
Proof.
  destruct (mark_alert_read_removes_one Fixtures.inbox 3)
    as (table' & Hret & Hunread & _).
  - repeat constructor; simpl; intuition discriminate.
  - exists table'. split; [exact Hret|]. rewrite Hunread. reflexivity.
Defined.

(** ** The summary of a shopping list *)

Section SummaryFacts.
Import ShoppingService.

Lemma group_of_set (by_platform : PyDict.t group) (p k : string) (g : group) :
  group_of (PyDict.set by_platform p g) k
  = if String.eqb p k then g else group_of by_platform k.
Proof.
  unfold group_of. destruct (String.eqb_spec p k) as [-> | Hne].
  - now rewrite get_set_eq.
  - now rewrite get_set_ne.
Qed.

(** The three writes of the loop body come to one. *)
Lemma add_to_group_closed (by_platform : PyDict.t group)
    (item : ShoppingListItem.t) :
  (ShoppingSpec.priced item = true ->
   ShoppingListItem.quantity_needed item <> None) ->
  let p := platform_of item in
  let g := group_of by_platform p in
  add_to_group by_platform item
  = Ret (PyDict.set by_platform p
           (mk_group (g_items g ++ [item])
              (ShoppingSpec.add_item (g_subtotal g) item))).
Proof.
  intros Hq p g. unfold add_to_group. fold p.
  assert (Hg : group_of
                 match PyDict.get by_platform p with
                 | Some _ => by_platform
                 | None => PyDict.set by_platform p (mk_group [] 0)
                 end p = g).
  { unfold g, group_of. destruct (PyDict.get by_platform p) eqn:E.
    - now rewrite E.
    - now rewrite get_set_eq. }
  assert (Hset : forall g',
             PyDict.set
               match PyDict.get by_platform p with
               | Some _ => by_platform
               | None => PyDict.set by_platform p (mk_group [] 0)
               end p g' = PyDict.set by_platform p g').
  { intros g'. destruct (PyDict.get by_platform p); [reflexivity | apply set_set]. }
  rewrite Hg, Hset. unfold ShoppingSpec.add_item, ShoppingSpec.priced in *.
  destruct (ShoppingListItem.selected_price item) as [price|]; [|reflexivity].
  simpl in Hq. destruct (PyNum.truthy price) eqn:Et.
  - destruct (ShoppingListItem.quantity_needed item) as [q|];
      [|exfalso; now apply Hq].
    cbn [ShoppingListItem.times].
    rewrite group_of_set, String.eqb_refl, set_set. reflexivity.
  - now destruct (ShoppingListItem.quantity_needed item).
Qed.

Lemma add_to_group_raises (by_platform : PyDict.t group)
    (item : ShoppingListItem.t) :
  ShoppingSpec.priced item = true ->
  ShoppingListItem.quantity_needed item = None ->
  add_to_group by_platform item = Raise (OtherError "TypeError").
Proof.
  unfold ShoppingSpec.priced, add_to_group. intros Hp Hq.
  destruct (ShoppingListItem.selected_price item) as [price|]; [|discriminate].
  simpl in Hp. now rewrite Hp, Hq.
Qed.

Lemma group_items_spec (items : list ShoppingListItem.t)
    (by_platform : PyDict.t group) :
  (forall i, In i items -> ShoppingSpec.priced i = true ->
             ShoppingListItem.quantity_needed i <> None) ->
  exists by_platform',
    group_items by_platform items = Ret by_platform'
    /\ (NoDup (PyDict.keys by_platform) -> NoDup (PyDict.keys by_platform'))
    /\ (forall k, g_items (group_of by_platform' k)
                  = g_items (group_of by_platform k) ++ ShoppingSpec.assigned k items)
    /\ (forall k, g_subtotal (group_of by_platform' k)
                  = fold_left ShoppingSpec.add_item (ShoppingSpec.assigned k items)
                      (g_subtotal (group_of by_platform k)))
    /\ (forall k, In k (PyDict.keys by_platform')
                  <-> In k (PyDict.keys by_platform)
                      \/ In k (map platform_of items)).
Proof.
  revert by_platform. induction items as [|i items IH]; intros bp Hq.
  - exists bp. simpl. split; [reflexivity|]. split; [auto|].
    split; [intros k; now rewrite app_nil_r|]. split; [reflexivity|].
    intros k; tauto.
  - cbn [group_items].
    rewrite (add_to_group_closed bp i (Hq i (or_introl eq_refl))). cbv zeta.
    set (p := platform_of i). set (g := group_of bp p).
    set (g' := mk_group (g_items g ++ [i]) (ShoppingSpec.add_item (g_subtotal g) i)).
    destruct (IH (PyDict.set bp p g')) as (bp' & Hrun & Hnd & Hitems & Hsub & Hkeys);
      [intros j Hj; apply Hq; now right|].
    exists bp'. split; [exact Hrun|]. split; [|split; [|split]].
    + intros H. apply Hnd. now apply keys_set_nodup.
    + intros k. rewrite Hitems, group_of_set. unfold ShoppingSpec.assigned.
      cbn [filter]. fold p.
      destruct (String.eqb p k) eqn:E.
      * apply String.eqb_eq in E. subst k. unfold g'. simpl.
        now rewrite <- app_assoc.
      * reflexivity.
    + intros k. rewrite Hsub, group_of_set. unfold ShoppingSpec.assigned.
      cbn [filter]. fold p.
      destruct (String.eqb p k) eqn:E.
      * apply String.eqb_eq in E. subst k. reflexivity.
      * reflexivity.
    + intros k. rewrite Hkeys, keys_set_in. simpl. fold p. intuition.
Qed.

Lemma group_items_raises (items : list ShoppingListItem.t)
    (by_platform : PyDict.t group) :
  (exists i, In i items /\ ShoppingSpec.priced i = true
             /\ ShoppingListItem.quantity_needed i = None) ->
  exists e, group_items by_platform items = Raise e.
Proof.
  revert by_platform. induction items as [|j items IH];
    intros bp (i & Hin & Hp & Hq); [contradiction|].
  cbn [group_items].
  destruct (add_to_group bp j) as [bp'|e] eqn:E; [|now exists e].
  apply IH. destruct Hin as [-> | Hin]; [|now exists i].
  rewrite (add_to_group_raises bp i Hp Hq) in E. discriminate.
Qed.
End SummaryFacts.

(** X12.  [get_list_summary] reads the items of the list it is given.  On a
    list whose items are not loaded in the session it raises; a missing
    list gives the empty answer.  On a list with its items loaded, where
    every priced item has a quantity, it returns one group for each
    platform that occurs (["unassigned"] for an item with no platform), each
    holding exactly the items of that platform in list order, with a
    subtotal that is the float sum, in that order, of price times quantity
    over the group's priced items; it counts the items and passes on the
    stored total.  A priced item without a quantity makes it raise. *)
Theorem list_summary_groups :
  forall (l : ShoppingList.t),
    (ShoppingList.items l = None ->
     ShoppingService.get_list_summary (Some l) = Raise (OtherError "MissingGreenlet"))
    /\ (forall items,
           ShoppingList.items l = Some items ->
           (forall i, In i items -> ShoppingSpec.priced i = true ->
                      ShoppingListItem.quantity_needed i <> None) ->
           exists s,
             ShoppingService.get_list_summary (Some l) = Ret (Some s)
             /\ ShoppingService.s_item_count s = Z.of_nat (List.length items)
             /\ ShoppingService.s_total_estimated s
                = ShoppingList.total_estimated_cost l
             /\ NoDup (PyDict.keys (ShoppingService.s_by_platform s))
             /\ (forall k, In k (PyDict.keys (ShoppingService.s_by_platform s))
                           <-> In k (map ShoppingService.platform_of items))
             /\ (forall k g, In (k, g) (ShoppingService.s_by_platform s) ->
                             ShoppingService.g_items g = ShoppingSpec.assigned k items
                             /\ ShoppingService.g_subtotal g
                                = ShoppingSpec.subtotal
                                    (ShoppingSpec.assigned k items)))
    /\ (forall items,
           ShoppingList.items l = Some items ->
           (exists i, In i items /\ ShoppingSpec.priced i = true
                      /\ ShoppingListItem.quantity_needed i = None) ->
           exists e, ShoppingService.get_list_summary (Some l) = Raise e)
    /\ ShoppingService.get_list_summary None = Ret None.
Proof.
  intros l. split; [|split; [|split; [|reflexivity]]].
  - intros Hnone. unfold ShoppingService.get_list_summary, ShoppingList.read_items.
    now rewrite Hnone.
  - intros items Hsome Hq.
    destruct (group_items_spec items PyDict.empty Hq)
      as (bp & Hrun & Hnd & Hitems & Hsub & Hkeys).
    unfold ShoppingService.get_list_summary, ShoppingList.read_items.
    rewrite Hsome, Hrun. eexists. split; [reflexivity|].
    cbn [ShoppingService.s_item_count ShoppingService.s_total_estimated
         ShoppingService.s_by_platform].
    split; [reflexivity|]. split; [reflexivity|].
    split; [apply Hnd; constructor|].
    split; [intros k; rewrite Hkeys; simpl; tauto|].
    intros k g Hin.
    apply in_get in Hin; [|apply Hnd; constructor].
    pose proof (Hitems k) as Hk. pose proof (Hsub k) as Hs.
    unfold ShoppingService.group_of in Hk at 1, Hs at 1.
    rewrite Hin in Hk, Hs. split; [exact Hk | exact Hs].
  - intros items Hsome Hbad.
    destruct (group_items_raises items PyDict.empty Hbad) as (e & He).
    exists e. unfold ShoppingService.get_list_summary, ShoppingList.read_items.
    now rewrite Hsome, He.
Qed.

Lemma list_summary_groups_witness :
  ShoppingService.get_list_summary (Some Fixtures.basket_selected)
  = Raise (OtherError "MissingGreenlet")
  /\ exists s,
       ShoppingService.get_list_summary (Some Fixtures.basket) = Ret (Some s)
       /\ PyDict.keys (ShoppingService.s_by_platform s) = ["fairprice"; "unassigned"]
       /\ map ShoppingService.g_subtotal
            (PyDict.values (ShoppingService.s_by_platform s)) = [17 # 2; 0].
Proof.
  destruct (list_summary_groups Fixtures.basket_selected) as (Hlazy & _).
  destruct (list_summary_groups Fixtures.basket) as (_ & Hloaded & _).
  split; [exact (Hlazy eq_refl)|].
  destruct (Hloaded Fixtures.basket_items eq_refl) as (s & Hs & _).
  - intros i [<- | [<- | [<- | []]]] _; discriminate.
  - exists s. split; [exact Hs|].
    vm_compute in Hs. inversion Hs. split; reflexivity.
Defined.

(** ** Choosing offers for a shopping list *)

Section OfferFacts.
Import PriceService.

Lemma search_fold_keys (adapters : PyDict.t PlatformAdapter.t) (query : string)
    (limit : Z) (init : PyDict.t (list Product.t)) :
  (NoDup (PyDict.keys init) ->
   NoDup (PyDict.keys
            (fold_left
               (fun results '(platform_name, adapter) =>
                  match PlatformAdapter.search_products adapter query limit with
                  | Ret result =>
                      PyDict.set results platform_name (SearchResult.products result)
                  | Raise _ => PyDict.set results platform_name []
                  end)
               adapters init)))
  /\ (forall k,
         In k (PyDict.keys
                 (fold_left
                    (fun results '(platform_name, adapter) =>
                       match PlatformAdapter.search_products adapter query limit with
                       | Ret result =>
                           PyDict.set results platform_name
                             (SearchResult.products result)
                       | Raise _ => PyDict.set results platform_name []
                       end)
                    adapters init))
         -> In k (PyDict.keys init) \/ In k (PyDict.keys adapters)).
Proof.
  revert init. induction adapters as [|[n a] l IH]; intros init.
  - simpl. split; [auto | intros k; tauto].
  - cbn [fold_left]. rewrite search_step.
    destruct (IH (PyDict.set init n (FaultSpec.contribution a query limit)))
      as [Hnd Hkeys].
    split.
    + intros H. apply Hnd. now apply keys_set_nodup.
    + intros k Hk. apply Hkeys in Hk. rewrite keys_set_in in Hk. simpl.
      intuition.
Qed.

Lemma search_all_platforms_sound (adapters : PyDict.t PlatformAdapter.t)
    (query : string) (limit : Z) (name : string) (products : list Product.t) :
  NoDup (PyDict.keys adapters) ->
  In (name, products) (search_all_platforms adapters query limit) ->
  exists adapter,
    In (name, adapter) adapters
    /\ products = FaultSpec.contribution adapter query limit.
Proof.
  intros Hnd Hin.
  destruct (search_fold_keys adapters query limit PyDict.empty) as [Hnd' Hkeys].
  assert (Hname : In name (PyDict.keys adapters)).
  { destruct (Hkeys name) as [[] | H]; [|exact H].
    unfold PyDict.keys. change name with (fst (name, products)).
    now apply in_map. }
  unfold PyDict.keys in Hname. apply in_map_iff in Hname as [[n adapter] [Hn Ha]].
  simpl in Hn. subst n. exists adapter. split; [exact Ha|].
  pose proof (search_all_platforms_get adapters query limit name adapter Hnd Ha)
    as Hget.
  apply in_get in Hin; [|apply Hnd'; constructor].
  unfold search_all_platforms in Hget. unfold search_all_platforms in Hin.
  congruence.
Qed.

Lemma compare_prices_sound (adapters : PyDict.t PlatformAdapter.t)
    (query : string) (limit : Z) (x : comparison) :
  NoDup (PyDict.keys adapters) ->
  In x (compare_prices adapters query limit) ->
  c_price x = Product.price (c_product x)
  /\ sort_key x = ShoppingService.rank (c_product x)
  /\ exists adapter,
       In (c_platform x, adapter) adapters
       /\ In (c_product x) (FaultSpec.contribution adapter query limit).
Proof.
  intros Hnd Hin. apply compare_prices_In in Hin.
  apply flatten_In in Hin as (Hprice & Hunit & products & Hres & Hp).
  split; [exact Hprice|]. split.
  - unfold sort_key, ShoppingService.rank. now rewrite Hunit, Hprice.
  - destruct (search_all_platforms_sound _ _ _ _ _ Hnd Hres) as (adapter & Ha & ->).
    now exists adapter.
Qed.

Lemma slice_1_5_In {A : Type} (x : A) (l : list A) :
  In x (ShoppingService.slice_1_5 l) -> In x (tl l).
Proof.
  unfold ShoppingService.slice_1_5. intros H.
  assert (Hin : In x (skipn 1 l)).
  { rewrite <- (firstn_skipn 4 (skipn 1 l)). apply in_or_app. now left. }
  destruct l; exact Hin.
Qed.
End OfferFacts.

(** X13.  [find_best_prices_for_list] treats each item on its own.  When no
    source lists anything for the item's name the item is left as it was.
    Otherwise the selected platform, price, product id and address are
    those of one listing some source returned, no listing of any source has
    a lower rank (unit price where it is set and not zero, else price), and
    at most four alternatives are stored, each a listing some source
    returned and ranked no lower than the selected one.  Name, quantity and
    purchase mark are never changed. *)
Theorem best_offer_is_selected :
  forall (adapters : PyDict.t PlatformAdapter.t) (item : ShoppingListItem.t),
    NoDup (PyDict.keys adapters) ->
    let query := ShoppingListItem.product_name item in
    let item' := ShoppingService.find_best_price adapters item in
    ((forall name adapter, In (name, adapter) adapters ->
                           FaultSpec.contribution adapter query 5 = []) ->
     item' = item)
    /\ (forall name adapter p,
           In (name, adapter) adapters ->
           In p (FaultSpec.contribution adapter query 5) ->
           exists name0 adapter0 p0,
             In (name0, adapter0) adapters
             /\ In p0 (FaultSpec.contribution adapter0 query 5)
             /\ ShoppingListItem.selected_platform item' = Some name0
             /\ ShoppingListItem.selected_price item' = Some (Product.price p0)
             /\ ShoppingListItem.selected_product_id item'
                = Some (Product.product_id p0)
             /\ ShoppingListItem.selected_url item' = Some (Product.url p0)
             /\ ShoppingService.rank p0 <= ShoppingService.rank p
             /\ (List.length (ShoppingListItem.alternatives item') <= 4)%nat
             /\ (forall a, In a (ShoppingListItem.alternatives item') ->
                           exists name1 adapter1 p1,
                             In (name1, adapter1) adapters
                             /\ In p1 (FaultSpec.contribution adapter1 query 5)
                             /\ a = ShoppingListItem.mk_alternative name1
                                      (Some (Product.price p1))
                                      (Product.product_id p1) (Product.url p1)
                                      (Product.name p1)
                             /\ ShoppingService.rank p0 <= ShoppingService.rank p1))
    /\ ShoppingListItem.product_name item' = ShoppingListItem.product_name item
    /\ ShoppingListItem.quantity_needed item' = ShoppingListItem.quantity_needed item
    /\ ShoppingListItem.is_purchased item' = ShoppingListItem.is_purchased item.
Proof.
  intros adapters item Hnd query item'. unfold item'.
  unfold ShoppingService.find_best_price. fold query.
  pose proof (sort_by_key_sorted PriceService.sort_key
                (PriceService.flatten
                   (PriceService.search_all_platforms adapters query 5))) as Hsorted.
  change (PySort.sort_by_key PriceService.sort_key
            (PriceService.flatten
               (PriceService.search_all_platforms adapters query 5)))
    with (PriceService.compare_prices adapters query 5) in Hsorted.
  assert (Hsound : forall x, In x (PriceService.compare_prices adapters query 5) ->
             PriceService.c_price x = Product.price (PriceService.c_product x)
             /\ PriceService.sort_key x
                = ShoppingService.rank (PriceService.c_product x)
             /\ exists adapter,
                  In (PriceService.c_platform x, adapter) adapters
                  /\ In (PriceService.c_product x)
                       (FaultSpec.contribution adapter query 5))
    by (intros x; now apply compare_prices_sound).
  assert (Hcomplete : forall name adapter p,
             In (name, adapter) adapters ->
             In p (FaultSpec.contribution adapter query 5) ->
             exists x, In x (PriceService.compare_prices adapters query 5)
                       /\ PriceService.c_product x = p).
  { intros name adapter p Ha Hp.
    pose proof (search_all_platforms_get adapters query 5 name adapter Hnd Ha)
      as Hget.
    apply get_in in Hget.
    destruct (flatten_complete _ _ _ _ Hget Hp) as (x & Hx & _ & Hprod).
    exists x. split; [now apply compare_prices_In | exact Hprod]. }
  destruct (PriceService.compare_prices adapters query 5) as [|best rest] eqn:Ec.
  - split; [reflexivity|]. split; [|repeat split].
    intros name adapter p Ha Hp.
    destruct (Hcomplete name adapter p Ha Hp) as (x & [] & _).
  - split; [|split; [|repeat split]].
    + intros Hnone. exfalso.
      destruct (Hsound best (or_introl eq_refl)) as (_ & _ & adapter & Ha & Hp).
      rewrite (Hnone _ _ Ha) in Hp. contradiction.
    + intros name adapter p Ha Hp.
      destruct (Hsound best (or_introl eq_refl))
        as (Hprice & Hrank & adapter0 & Ha0 & Hp0).
      inversion Hsorted as [|? ? Hrest Hbest]. subst.
      rewrite Forall_forall in Hbest.
      assert (Hmin : forall x, In x (best :: rest) ->
                 ShoppingService.rank (PriceService.c_product best)
                 <= ShoppingService.rank (PriceService.c_product x)).
      { intros x [<- | Hx]; [apply Qle_refl|].
        rewrite <- Hrank. destruct (Hsound x (or_intror Hx)) as (_ & <- & _).
        now apply Hbest. }
      exists (PriceService.c_platform best), adapter0, (PriceService.c_product best).
      cbn [ShoppingListItem.selected_platform ShoppingListItem.selected_price
           ShoppingListItem.selected_product_id ShoppingListItem.selected_url
           ShoppingListItem.alternatives].
      split; [exact Ha0|]. split; [exact Hp0|]. split; [reflexivity|].
      split; [now rewrite Hprice|]. split; [reflexivity|]. split; [reflexivity|].
      split.
      { destruct (Hcomplete name adapter p Ha Hp) as (x & Hx & <-).
        now apply Hmin. }
      split.
      { rewrite length_map. unfold ShoppingService.slice_1_5. apply firstn_le_length. }
      intros a Hin. apply in_map_iff in Hin as (c & <- & Hc).
      apply slice_1_5_In in Hc. simpl in Hc.
      destruct (Hsound c (or_intror Hc)) as (Hcp & _ & adapter1 & Ha1 & Hp1).
      exists (PriceService.c_platform c), adapter1, (PriceService.c_product c).
      split; [exact Ha1|]. split; [exact Hp1|]. split.
      * unfold ShoppingService.alternative_of. now rewrite Hcp.
      * apply Hmin. now right.
Qed.

Lemma best_offer_is_selected_witness :
  exists name0,
    ShoppingListItem.selected_platform
      (ShoppingService.find_best_price Samples.unit5_raw4 Fixtures.milk_wanted)
    = Some name0.
Proof.
  assert (Hnd : NoDup (PyDict.keys Samples.unit5_raw4))
    by (repeat constructor; simpl; intuition discriminate).
  destruct (best_offer_is_selected Samples.unit5_raw4 Fixtures.milk_wanted Hnd)
    as (_ & Hsel & _).
  destruct (Hsel "A" (Samples.answering [Samples.listing "a" 7 (Some 5) None true])
              (Samples.listing "a" 7 (Some 5) None true))
    as (name0 & _ & _ & _ & _ & Hplatform & _).
  - now left.
  - now left.
  - now exists name0.
Defined.

(** ** Setting up the watchlist twice *)

Section SetupFacts.
Import WatchlistSetup.
Variable ADAPTERS : PyDict.t PlatformAdapter.t.
Variable next_id : list WatchlistItem.t -> Z.

Lemma same_product_add_item (table : list WatchlistItem.t) (p : product) :
  same_product p (add_item ADAPTERS next_id table p) = true.
Proof. unfold same_product, add_item. simpl. now rewrite !String.eqb_refl. Qed.

Lemma same_product_ext (p q : product) (x : WatchlistItem.t) :
  same_product p x = true -> same_product q x = true ->
  forall row, same_product p row = same_product q row.
Proof.
  unfold same_product. intros Hp Hq row.
  apply andb_true_iff in Hp as [Hpb Hpn]. apply andb_true_iff in Hq as [Hqb Hqn].
  destruct (WatchlistItem.brand x) as [b|]; [|discriminate].
  apply String.eqb_eq in Hpb, Hpn, Hqb, Hqn.
  assert (Hb : p_brand p = p_brand q) by congruence.
  assert (Hn : p_name p = p_name q) by congruence.
  now rewrite Hb, Hn.
Qed.

Lemma filter_same_ext (p q : product) (x : WatchlistItem.t)
    (table : list WatchlistItem.t) :
  same_product p x = true -> same_product q x = true ->
  filter (same_product p) table = filter (same_product q) table.
Proof.
  intros Hp Hq. apply filter_ext. now apply (same_product_ext p q x).
Qed.

(** What a run adds: rows of entries that had no row before. *)
Lemma init_adds (products : list product) :
  forall table items table',
    init_foodguard_watchlist ADAPTERS next_id products table = Ret (items, table') ->
    List.length items = List.length products
    /\ exists added,
         table' = table ++ added
         /\ (List.length added <= List.length products)%nat
         /\ Forall (fun x => exists q, In q products
                                       /\ filter (same_product q) table = []
                                       /\ same_product q x = true) added.
Proof.
  induction products as [|p rest IH]; intros table items table' Hrun.
  - simpl in Hrun. inversion Hrun. subst. split; [reflexivity|].
    exists []. rewrite app_nil_r. repeat split; [simpl; lia | constructor].
  - cbn [init_foodguard_watchlist] in Hrun.
    destruct (filter (same_product p) table) as [|r [|r' more]] eqn:Ef;
      cbn [AlertInbox.scalar_one_or_none] in Hrun; [| |discriminate].
    + cbv zeta in Hrun.
      destruct (init_foodguard_watchlist ADAPTERS next_id rest
                  (table ++ [add_item ADAPTERS next_id table p]))
        as [[items0 t0]|e] eqn:Er; [|discriminate].
      inversion Hrun. subst items table'. clear Hrun.
      destruct (IH _ _ _ Er) as (Hlen & added & -> & Hla & Hall).
      split; [simpl; now rewrite Hlen|].
      exists (add_item ADAPTERS next_id table p :: added).
      split; [now rewrite <- app_assoc|]. split; [simpl; lia|].
      constructor.
      * exists p. split; [now left|]. split; [exact Ef|].
        apply same_product_add_item.
      * eapply Forall_impl; [|exact Hall].
        intros x (q & Hq & Hnone & Hx). exists q. split; [now right|].
        split; [|exact Hx]. rewrite filter_app in Hnone.
        now apply app_eq_nil in Hnone.
    + destruct (init_foodguard_watchlist ADAPTERS next_id rest table)
        as [[items0 t0]|e] eqn:Er; [|discriminate].
      inversion Hrun. subst items table'. clear Hrun.
      destruct (IH _ _ _ Er) as (Hlen & added & -> & Hla & Hall).
      split; [simpl; now rewrite Hlen|].
      exists added. split; [reflexivity|]. split; [simpl; lia|].
      eapply Forall_impl; [|exact Hall].
      intros x (q & Hq & Hnone & Hx). exists q. split; [now right|]. auto.
Qed.

(** Rows added for later entries are not rows of an entry that has one. *)
Lemma added_rows_differ (p : product) (products : list product)
    (table added : list WatchlistItem.t) (r : WatchlistItem.t) :
  In r (filter (same_product p) table) ->
  Forall (fun x => exists q, In q products
                             /\ filter (same_product q) table = []
                             /\ same_product q x = true) added ->
  filter (same_product p) added = [].
Proof.
  intros Hr Hall. apply filter_none. intros x Hx.
  rewrite Forall_forall in Hall. destruct (Hall x Hx) as (q & _ & Hnone & Hq).
  destruct (same_product p x) eqn:Hp; [|reflexivity]. exfalso.
  rewrite (filter_same_ext p q x table Hp Hq), Hnone in Hr. contradiction.
Qed.

Lemma init_again (products : list product) :
  forall table items table',
    init_foodguard_watchlist ADAPTERS next_id products table = Ret (items, table') ->
    forall T,
      (forall p, In p products ->
                 filter (same_product p) T = filter (same_product p) table') ->
      init_foodguard_watchlist ADAPTERS next_id products T = Ret (items, T).
Proof.
  induction products as [|p rest IH]; intros table items table' Hrun T HT.
  - simpl in Hrun. inversion Hrun. reflexivity.
  - cbn [init_foodguard_watchlist] in Hrun.
    destruct (filter (same_product p) table) as [|r [|r' more]] eqn:Ef;
      cbn [AlertInbox.scalar_one_or_none] in Hrun; [| |discriminate].
    + cbv zeta in Hrun.
      set (item := add_item ADAPTERS next_id table p) in *.
      destruct (init_foodguard_watchlist ADAPTERS next_id rest (table ++ [item]))
        as [[items0 t0]|e] eqn:Er; [|discriminate].
      inversion Hrun. subst items table'. clear Hrun.
      destruct (init_adds _ _ _ _ Er) as (_ & added & -> & _ & Hall).
      assert (Hp : filter (same_product p) T = [item]).
      { assert (Hitem : same_product p item = true)
          by apply same_product_add_item.
        rewrite (HT p (or_introl eq_refl)), !filter_app, Ef. cbn [filter].
        rewrite Hitem.
        rewrite (added_rows_differ p rest (table ++ [item]) added item);
          [reflexivity | | exact Hall].
        rewrite filter_app. apply in_or_app. right. cbn [filter].
        rewrite Hitem. now left. }
      cbn [init_foodguard_watchlist]. rewrite Hp.
      cbn [AlertInbox.scalar_one_or_none].
      rewrite (IH _ _ _ Er T); [reflexivity|].
      intros q Hq. apply HT. now right.
    + destruct (init_foodguard_watchlist ADAPTERS next_id rest table)
        as [[items0 t0]|e] eqn:Er; [|discriminate].
      inversion Hrun. subst items table'. clear Hrun.
      destruct (init_adds _ _ _ _ Er) as (_ & added & -> & _ & Hall).
      assert (Hp : filter (same_product p) T = [r]).
      { rewrite (HT p (or_introl eq_refl)), filter_app, Ef.
        rewrite (added_rows_differ p rest table added r);
          [reflexivity | rewrite Ef; now left | exact Hall]. }
      cbn [init_foodguard_watchlist]. rewrite Hp.
      cbn [AlertInbox.scalar_one_or_none].
      rewrite (IH _ _ _ Er T); [reflexivity|].
      intros q Hq. apply HT. now right.
Qed.

Lemma init_returns (products : list product) :
  forall table,
    (forall p, In p products ->
               (List.length (filter (same_product p) table) <= 1)%nat) ->
    exists items table',
      init_foodguard_watchlist ADAPTERS next_id products table = Ret (items, table').
Proof.
  induction products as [|p rest IH]; intros table Hone.
  - now exists [], table.
  - cbn [init_foodguard_watchlist].
    pose proof (Hone p (or_introl eq_refl)) as Hp.
    destruct (filter (same_product p) table) as [|r [|r' more]] eqn:Ef;
      cbn [AlertInbox.scalar_one_or_none]; [| |simpl in Hp; lia].
    + cbv zeta. set (item := add_item ADAPTERS next_id table p).
      destruct (IH (table ++ [item])) as (items & table' & ->).
      * intros q Hq. rewrite filter_app, length_app. cbn [filter].
        destruct (same_product q item) eqn:Hqi; simpl.
        -- rewrite (filter_same_ext q p item table Hqi
                      (same_product_add_item table p)), Ef. simpl. lia.
        -- pose proof (Hone q (or_intror Hq)). lia.
      * now exists (item :: items), table'.
    + destruct (IH table) as (items & table' & ->).
      * intros q Hq. apply Hone. now right.
      * now exists (r :: items), table'.
Qed.
End SetupFacts.

(** X15.  On a table that holds at most one row for each entry (brand and
    name), [init_foodguard_watchlist] never raises.  It returns one item for
    each entry, only appends rows to the table, at most one for each entry,
    and every returned item is a row of the table it leaves.  Running it a
    second time returns the same items and adds nothing. *)
Theorem init_watchlist_twice :
  forall (ADAPTERS : PyDict.t PlatformAdapter.t)
         (next_id : list WatchlistItem.t -> Z)
         (products : list WatchlistSetup.product)
         (table : list WatchlistItem.t),
    (forall p, In p products ->
               (List.length (filter (WatchlistSetup.same_product p) table) <= 1)%nat) ->
    exists items table' added,
      WatchlistSetup.init_foodguard_watchlist ADAPTERS next_id products table
      = Ret (items, table')
      /\ List.length items = List.length products
      /\ table' = table ++ added
      /\ (List.length added <= List.length products)%nat
      /\ (forall p, In p products ->
                    exists row, filter (WatchlistSetup.same_product p) table' = [row]
                                /\ In row items)
      /\ WatchlistSetup.init_foodguard_watchlist ADAPTERS next_id products table'
         = Ret (items, table').
Proof.
  intros ADAPTERS next_id products table Hone.
  destruct (init_returns ADAPTERS next_id products table Hone)
    as (items & table' & Hrun).
  destruct (init_adds ADAPTERS next_id products table items table' Hrun)
    as (Hlen & added & Htable & Hla & _).
  pose proof (init_again ADAPTERS next_id products table items table' Hrun table'
                (fun p _ => eq_refl)) as Hagain.
  exists items, table', added. split; [exact Hrun|]. split; [exact Hlen|].
  split; [exact Htable|]. split; [exact Hla|]. split; [|exact Hagain].
  clear Hrun Hlen Htable Hla Hone added table.
  revert items Hagain. induction products as [|p rest IH]; intros items Hagain p0 Hin;
    [contradiction|].
  cbn [WatchlistSetup.init_foodguard_watchlist] in Hagain.
  destruct (filter (WatchlistSetup.same_product p) table') as [|r [|r' more]] eqn:Ef;
    cbn [AlertInbox.scalar_one_or_none] in Hagain; [| |discriminate].
  - cbv zeta in Hagain.
    destruct (WatchlistSetup.init_foodguard_watchlist ADAPTERS next_id rest
                (table' ++ [WatchlistSetup.add_item ADAPTERS next_id table' p]))
      as [[items0 t0]|e] eqn:Er; [|discriminate].
    inversion Hagain as [[Hitems Ht]]. exfalso.
    destruct (init_adds ADAPTERS next_id rest _ _ _ Er) as (_ & added & Hadd & _).
    rewrite Hadd in Ht. 
    apply (f_equal (@List.length _)) in Ht. rewrite !length_app in Ht.
    simpl in Ht. lia.
  - destruct (WatchlistSetup.init_foodguard_watchlist ADAPTERS next_id rest table')
      as [[items0 t0]|e] eqn:Er; [|discriminate].
    inversion Hagain. subst items t0.
    destruct Hin as [<- | Hin].
    + exists r. split; [exact Ef | now left].
    + destruct (IH items0 eq_refl p0 Hin) as (row & Hrow & Hmem).
      exists row. split; [exact Hrow | now right].
Qed.

Lemma init_watchlist_twice_witness :
  exists items table',
    WatchlistSetup.init_foodguard_watchlist Samples.registry_a_down
      Fixtures.after_last Fixtures.entries Fixtures.one_row = Ret (items, table')
    /\ map WatchlistItem.id items = [1%Z; 2%Z]
    /\ map WatchlistItem.id table' = [1%Z; 2%Z].
Proof.
  destruct (init_watchlist_twice Samples.registry_a_down Fixtures.after_last
              Fixtures.entries Fixtures.one_row)
    as (items & table' & added & Hrun & _).
  - intros p [<- | [<- | []]]; vm_compute; lia.
  - exists items, table'. split; [exact Hrun|].
    vm_compute in Hrun. inversion Hrun. split; reflexivity.
Defined.
